(** * Azure snapshot finder: a shallow embedding of [get_filtered_snapshots.py]

    The script prompts for a date window, lists the subscriptions of the
    logged-in [az] session, lists the snapshots of each subscription inside
    the window and prints one table per subscription and a summary table.

    Modelling conventions.
    - A Python [str] is a list of Unicode code points ([N]); [bytes] is a list
      of [Byte.byte].
    - Objects produced by [json.loads] are values of the inductive [value];
      Python's truth test, subscripting, iteration and [str()] are defined on
      every such value, with the exceptions Python raises.
    - The console is the list of renderables handed to [console.print], in
      order; how the display library lays them out is not modelled.
    - The display library can refuse what it is given: [console.print]
      raises on markup it cannot parse, [Table.add_row] on a cell that is
      neither a string nor [None].  The script is embedded twice: under
      its own names with a display library that prints whatever it gets,
      and under the names with the suffix [_rich] with these exceptions,
      which are parameters like the other libraries.  A theorem on the
      first holds of a run as long as the display library raises nothing
      in it.
    - Every launched shell command is recorded, in order.
    - What lies outside the script is a parameter of the development: the
      outcome of each child process, the codec behind [bytes.decode], the
      JSON decoder behind [json.loads], [datetime.strptime] for the fixed
      format [%Y-%m-%d], the answers of the interactive prompt, the clock and
      [repr] of floats and containers.  Reference instances of the decoders
      and a sample session exercise the theorems on concrete runs. *)

From Stdlib Require Import List NArith ZArith Bool Lia String Ascii Strings.Byte.
From Stdlib Require Import DecimalString Floats.PrimFloat.
Import ListNotations.

Set Implicit Arguments.
Set Warnings "-register-all".
Local Open Scope list_scope.

(** ** Text *)

Definition str := list N.
Definition bytes := list byte.

(** A literal of the source, as code points. *)
Definition lit (s : string) : str :=
  map N_of_ascii (list_ascii_of_string s).

Definition str_eq_dec : forall a b : str, {a = b} + {a <> b} :=
  list_eq_dec N.eq_dec.

Definition str_eqb (a b : str) : bool :=
  if str_eq_dec a b then true else false.

(** [str.isspace] for one code point (the table of [_PyUnicode_IsWhitespace]). *)
Definition isspace (c : N) : bool :=
  ((9 <=? c) && (c <=? 13) || (28 <=? c) && (c <=? 32)
   || (c =? 133) || (c =? 160) || (c =? 5760)
   || (8192 <=? c) && (c <=? 8202)
   || (c =? 8232) || (c =? 8233) || (c =? 8239) || (c =? 8287)
   || (c =? 12288))%N.

Fixpoint lstrip (s : str) : str :=
  match s with
  | c :: s' => if isspace c then lstrip s' else s
  | [] => []
  end.

Definition rstrip (s : str) : str := rev (lstrip (rev s)).

(** [s.strip()] *)
Definition strip (s : str) : str := rstrip (lstrip s).

(** [s[:n]] *)
Definition prefix (n : nat) (s : str) : str := firstn n s.

(** Decimal rendering of integers: [str(n)] and the [%d] family. *)
Definition str_of_Z (z : Z) : str :=
  lit (NilZero.string_of_int (Z.to_int z)).

Definition str_of_nat (n : nat) : str := str_of_Z (Z.of_nat n).

(** ["%0<w>d" % z] for [0 <= z]. *)
Definition zero_pad (w : nat) (z : Z) : str :=
  let d := str_of_Z z in
  repeat 48%N (w - List.length d) ++ d.

(** ** Exceptions and results *)

(** An exception raised by the operating system or inside a library:
    its class name and [str(e)]. *)
Record lib_exn : Type := LibExn { exn_class : str; exn_text : str }.

(** ** Python objects *)

Inductive value : Type :=
| VNone
| VBool (b : bool)
| VInt (z : Z)
| VFloat (f : float)
| VStr (s : str)
| VList (l : list value)
| VDict (d : list (str * value)).

Inductive exn : Type :=
| Lib (e : lib_exn)             (* raised by a library call *)
| KeyError (key : str)          (* [d[key]] on a dict without [key] *)
| TypeError (culprit : value)   (* subscript or iteration on an unfit object *)
| OverflowError.                (* date arithmetic left [MINYEAR..MAXYEAR] *)

Inductive res (A : Type) : Type :=
| Ok (a : A)
| Raise (e : exn).
Arguments Raise {A} e.

(** [bool(v)] *)
Definition truthy (v : value) : bool :=
  match v with
  | VNone => false
  | VBool b => b
  | VInt z => negb (z =? 0)%Z
  | VFloat f => negb (PrimFloat.eqb f PrimFloat.zero)
  | VStr s => match s with [] => false | _ => true end
  | VList l => match l with [] => false | _ => true end
  | VDict d => match d with [] => false | _ => true end
  end.

Fixpoint lookup (key : str) (d : list (str * value)) : option value :=
  match d with
  | [] => None
  | (k, v) :: d' => if str_eq_dec k key then Some v else lookup key d'
  end.

(** [v[key]] for a string key. *)
Definition subscript (v : value) (key : str) : res value :=
  match v with
  | VDict d =>
      match lookup key d with
      | Some x => Ok x
      | None => Raise (KeyError key)
      end
  | _ => Raise (TypeError v)
  end.

(** The items a [for] loop (or [list.extend]) draws from [v]. *)
Definition iterate (v : value) : res (list value) :=
  match v with
  | VList l => Ok l
  | VDict d => Ok (map (fun kv => VStr (fst kv)) d)
  | VStr s => Ok (map (fun c => VStr [c]) s)
  | _ => Raise (TypeError v)
  end.

(** [v == s] for a string literal [s]. *)
Definition eq_str (v : value) (s : str) : bool :=
  match v with
  | VStr t => str_eqb t s
  | _ => false
  end.

(** ** Calendar arithmetic ([datetime], [timedelta]) *)

Local Open Scope Z_scope.

Inductive tzinfo : Type := Naive | UTC.

Record datetime : Type := DateTime {
  year : Z; month : Z; day : Z;
  hour : Z; minute : Z; second : Z; microsecond : Z;
  tz : tzinfo
}.

Definition MAXORDINAL : Z := 3652059.

Definition is_leap (y : Z) : bool :=
  (y mod 4 =? 0) && (negb (y mod 100 =? 0) || (y mod 400 =? 0)).

Definition DAYS_IN_MONTH (m : Z) : Z :=
  match m with
  | 1 => 31 | 2 => 28 | 3 => 31 | 4 => 30 | 5 => 31 | 6 => 30
  | 7 => 31 | 8 => 31 | 9 => 30 | 10 => 31 | 11 => 30 | 12 => 31
  | _ => -1
  end.

Definition DAYS_BEFORE_MONTH (m : Z) : Z :=
  match m with
  | 1 => 0 | 2 => 31 | 3 => 59 | 4 => 90 | 5 => 120 | 6 => 151
  | 7 => 181 | 8 => 212 | 9 => 243 | 10 => 273 | 11 => 304 | 12 => 334
  | _ => -1
  end.

Definition days_before_year (y : Z) : Z :=
  let y := y - 1 in y * 365 + y / 4 - y / 100 + y / 400.

Definition days_in_month (y m : Z) : Z :=
  if (m =? 2) && is_leap y then 29 else DAYS_IN_MONTH m.

Definition days_before_month (y m : Z) : Z :=
  DAYS_BEFORE_MONTH m + (if (2 <? m) && is_leap y then 1 else 0).

Definition ymd2ord (y m d : Z) : Z :=
  days_before_year y + days_before_month y m + d.

Definition ord2ymd (n : Z) : Z * Z * Z :=
  let n := n - 1 in
  let n400 := n / 146097 in
  let n := n mod 146097 in
  let y := n400 * 400 + 1 in
  let n100 := n / 36524 in
  let n := n mod 36524 in
  let n4 := n / 1461 in
  let n := n mod 1461 in
  let n1 := n / 365 in
  let n := n mod 365 in
  let y := y + n100 * 100 + n4 * 4 + n1 in
  if (n1 =? 4) || (n100 =? 4) then (y - 1, 12, 31)
  else
    let leapyear := (n1 =? 3) && (negb (n4 =? 24) || (n100 =? 3)) in
    let m := Z.shiftr (n + 50) 5 in
    let preceding :=
      DAYS_BEFORE_MONTH m + (if (2 <? m) && leapyear then 1 else 0) in
    if n <? preceding then
      let m := m - 1 in
      let preceding :=
        preceding
        - (DAYS_IN_MONTH m + (if (m =? 2) && leapyear then 1 else 0)) in
      (y, m, n - preceding + 1)
    else (y, m, n - preceding + 1).

(** A duration, as the keyword arguments given to [timedelta]. *)
Record timedelta : Type := TimeDelta {
  td_days : Z; td_seconds : Z; td_microseconds : Z
}.

Definition td_total (d : timedelta) : Z :=
  (td_days d * 86400 + td_seconds d) * 1000000 + td_microseconds d.

Definition dt_total (t : datetime) : Z :=
  (ymd2ord (year t) (month t) (day t) * 86400
   + hour t * 3600 + minute t * 60 + second t) * 1000000 + microsecond t.

(** [t + d] (and [t - d] as [t + (-d)]): the sum is normalised to days,
    seconds and microseconds; a day outside [1..MAXORDINAL] overflows.
    The time zone is kept. *)
Definition dt_shift (t : datetime) (us : Z) : res datetime :=
  let total := dt_total t + us in
  let days := total / 86400000000 in
  let rest := total mod 86400000000 in
  let secs := rest / 1000000 in
  if (0 <? days) && (days <=? MAXORDINAL) then
    let '(y, m, d) := ord2ymd days in
    Ok (DateTime y m d (secs / 3600) ((secs mod 3600) / 60) (secs mod 60)
          (rest mod 1000000) (tz t))
  else Raise OverflowError.

Definition dt_add (t : datetime) (d : timedelta) : res datetime :=
  dt_shift t (td_total d).

Definition dt_sub (t : datetime) (d : timedelta) : res datetime :=
  dt_shift t (- td_total d).

(** [t1 <= t2] for two datetimes of the same zone. *)
Definition dt_leb (t1 t2 : datetime) : bool := dt_total t1 <=? dt_total t2.

Definition utcoffset (z : tzinfo) : str :=
  match z with Naive => [] | UTC => lit "+00:00" end.

(** [t.isoformat()] *)
Definition isoformat (t : datetime) : str :=
  zero_pad 4 (year t) ++ lit "-" ++ zero_pad 2 (month t) ++ lit "-"
  ++ zero_pad 2 (day t) ++ lit "T"
  ++ zero_pad 2 (hour t) ++ lit ":" ++ zero_pad 2 (minute t) ++ lit ":"
  ++ zero_pad 2 (second t)
  ++ (if microsecond t =? 0 then [] else lit "." ++ zero_pad 6 (microsecond t))
  ++ utcoffset (tz t).

(** [get_default_date_range], with the clock reading as argument.  The
    fields given to [replace] are in range whatever the date, so [replace]
    is a plain record update. *)
Definition get_default_date_range (today : datetime) : res (str * str) :=
  let start_of_month :=
    DateTime (year today) (month today) 1 0 0 0 0 (tz today) in
  match dt_add start_of_month (TimeDelta 32 0 0) with
  | Raise e => Raise e
  | Ok t =>
      let first_of_next :=
        DateTime (year t) (month t) 1
          (hour t) (minute t) (second t) (microsecond t) (tz t) in
      match dt_sub first_of_next (TimeDelta 0 1 0) with
      | Raise e => Raise e
      | Ok end_of_month =>
          Ok (isoformat start_of_month, isoformat end_of_month)
      end
  end.


(** ** Helpers of the calendar proofs *)

(** The month and day [ord2ymd] derives from the 0-based day of the year. *)
Definition month_day (leapyear : bool) (n : Z) : Z * Z :=
  let m := Z.shiftr (n + 50) 5 in
  let preceding :=
    DAYS_BEFORE_MONTH m + (if (2 <? m) && leapyear then 1 else 0) in
  if n <? preceding then
    let m := m - 1 in
    let preceding :=
      preceding
      - (DAYS_IN_MONTH m + (if (m =? 2) && leapyear then 1 else 0)) in
    (m, n - preceding + 1)
  else (m, n - preceding + 1).

(** The month after [(y, m)]. *)
Definition next_month (y m : Z) : Z * Z :=
  if m =? 12 then (y + 1, 1) else (y, m + 1).

(** ** The world outside the script *)

(** What became of a child process: it ran to an exit code with its two
    captured streams, or launching it or talking to it raised an
    [Exception] (interrupts and cancellation are outside the model). *)
Inductive proc_outcome : Type :=
| Exited (returncode : Z) (stdout stderr : bytes)
| Failed (e : lib_exn).

(** A calendar date, as [strptime] reads it from [%Y-%m-%d]. *)
Record date : Type := Date { d_year : Z; d_month : Z; d_day : Z }.

(** ** The console *)

Inductive box_style : Type := ROUNDED.

Record column : Type := Column {
  header : str; style : option str; justify : option str
}.

Record table : Type := Table {
  title : str; box : box_style; columns : list column;
  rows : list (list value)
}.

Inductive renderable : Type :=
| Line (s : str)
| Tbl (t : table).

Definition is_line (r : renderable) : bool :=
  match r with Line _ => true | Tbl _ => false end.

(** ** State and exceptions *)

Record state : Type := State {
  launched : list str;          (* shell commands started so far *)
  console : list renderable     (* what [console.print] received *)
}.

Definition init : state := State [] [].

Definition M (A : Type) : Type := state -> res A * state.

Definition ret {A} (a : A) : M A := fun st => (Ok a, st).

Definition raise {A} (e : exn) : M A := fun st => (Raise e, st).

Definition bind {A B} (c : M A) (k : A -> M B) : M B :=
  fun st =>
    match c st with
    | (Ok a, st') => k a st'
    | (Raise e, st') => (Raise e, st')
    end.

Definition lift {A} (r : res A) : M A := fun st => (r, st).

Definition bind_res {A B} (r : res A) (k : A -> res B) : res B :=
  match r with
  | Ok a => k a
  | Raise e => Raise e
  end.

Declare Scope prog_scope.
Delimit Scope prog_scope with prog.
Notation "x <- c ;; k" := (bind c (fun x => k))
  (at level 61, c at next level, right associativity) : prog_scope.
Notation "c ;; k" := (bind c (fun _ => k))
  (at level 61, right associativity) : prog_scope.
Notation "x <~ r ;; k" := (bind_res r (fun x => k))
  (at level 61, r at next level, right associativity) : prog_scope.
Local Open Scope prog_scope.

(** [console.print(r)] when the display library prints [r]; [print_rich]
    below is the call that can raise. *)
Definition console_print (r : renderable) : M unit :=
  fun st => (Ok tt, State (launched st) (console st ++ [r])).

(** Rows of a table: the cells of each item, stopping at the first
    exception. *)
Fixpoint mapM {A B} (f : A -> res B) (l : list A) : res (list B) :=
  match l with
  | [] => Ok []
  | a :: l' => b <~ f a;; bs <~ mapM f l';; Ok (b :: bs)
  end.

Definition nl : str := [10%N].

(** ** Literals of the script *)

Definition subscriptions_command : str :=
  lit "az account list --query '[].{name:name, id:id}' -o json".

Definition snapshot_command (subscription_id start_date end_date : str)
  : str :=
  lit "az snapshot list --subscription " ++ subscription_id
  ++ lit " --query '[?timeCreated>=`" ++ start_date
  ++ lit "` && timeCreated<=`" ++ end_date
  ++ lit "`].{name:name, resourceGroup:resourceGroup, timeCreated:timeCreated, diskSizeGb:diskSizeGb, id:id, diskState:diskState, createdBy:managedBy}' -o json".

Definition welcome : str :=
  lit "[bold cyan]Welcome to the Azure Snapshot Finder![/bold cyan]".

Definition invalid_date_warning : str :=
  lit "[bold red]Invalid date format. Using default date range for the current month.[/bold red]".

Definition no_subscriptions : str :=
  lit "[bold red]No subscriptions found. Please make sure you're logged in with 'az login'.[/bold red]".

Definition summary_heading : str :=
  nl ++ lit "[bold green]Snapshot Summary:[/bold green]".

Definition search_complete : str :=
  nl ++ lit "[bold green]Snapshot search complete![/bold green]".

Definition total_line (n : nat) : str :=
  nl ++ lit "[bold green]Total snapshots found: " ++ str_of_nat n
  ++ lit "[/bold green]".

Definition error_occurred (e : lib_exn) : str :=
  lit "[bold red]An error occurred: " ++ exn_text e ++ lit "[/bold red]".

Definition error_running (command : str) : str :=
  lit "[red]Error running command: " ++ command ++ lit "[/red]".

Definition error_message (text : str) : str :=
  lit "[red]Error message: " ++ text ++ lit "[/red]".

Definition detail_columns : list column :=
  [ Column (lit "Name") (Some (lit "cyan")) None;
    Column (lit "Resource Group") (Some (lit "magenta")) None;
    Column (lit "Time Created") (Some (lit "green")) None;
    Column (lit "Size (GB)") None (Some (lit "right"));
    Column (lit "State") (Some (lit "blue")) None;
    Column (lit "Created By") (Some (lit "yellow")) None ].

Definition summary_columns : list column :=
  [ Column (lit "Snapshot Name") (Some (lit "cyan")) None;
    Column (lit "Date Created") (Some (lit "green")) None;
    Column (lit "Status") (Some (lit "magenta")) None;
    Column (lit "Created By") (Some (lit "yellow")) None ].

Definition summary_table (rs : list (list value)) : table :=
  Table (lit "Snapshot Summary") ROUNDED summary_columns rs.

(** ** Reference instances of the library parameters

    They stand for [bytes.decode], [json.loads] and [datetime.strptime]
    when the theorems are run on concrete inputs. *)

Definition code (a : ascii) : N := N_of_ascii a.

Definition hex_digit (n : N) : N :=
  nth (N.to_nat n) (lit "0123456789abcdef") 48%N.

(** *** Strict UTF-8, with CPython's diagnostics *)

Definition is_continuation (b : N) : bool := ((128 <=? b) && (b <=? 191))%N.

(** [(first, last, reason)]: the offending bytes [first..last]. *)
Definition utf8_error : Type := (nat * nat * string)%type.

Definition invalid_start (pos : nat) : utf8_error + str :=
  inl (pos, pos, "invalid start byte"%string).
Definition invalid_continuation (pos : nat) (seen : nat) : utf8_error + str :=
  inl (pos, (pos + seen)%nat, "invalid continuation byte"%string).
Definition unexpected_end (pos : nat) (seen : nat) : utf8_error + str :=
  inl (pos, (pos + seen)%nat, "unexpected end of data"%string).

Definition emit (c : N) (r : utf8_error + str) : utf8_error + str :=
  match r with
  | inr s => inr (c :: s)
  | inl e => inl e
  end.

Fixpoint utf8_scan (pos : nat) (bs : list N) : utf8_error + str :=
  match bs with
  | [] => inr []
  | c :: r1 =>
    if (c <? 128)%N then emit c (utf8_scan (S pos) r1)
    else if (c <? 194)%N then invalid_start pos
    else if (c <? 224)%N then
      match r1 with
      | [] => unexpected_end pos 0
      | c2 :: r2 =>
        if is_continuation c2
        then emit ((c - 192) * 64 + (c2 - 128))%N (utf8_scan (2 + pos) r2)
        else invalid_continuation pos 0
      end
    else if (c <? 240)%N then
      match r1 with
      | [] => unexpected_end pos 0
      | c2 :: r2 =>
        if negb (is_continuation c2)
           || (if (c2 <? 160)%N then (c =? 224)%N else (c =? 237)%N)
        then invalid_continuation pos 0
        else
          match r2 with
          | [] => unexpected_end pos 1
          | c3 :: r3 =>
            if is_continuation c3
            then emit ((c - 224) * 4096 + (c2 - 128) * 64 + (c3 - 128))%N
                      (utf8_scan (3 + pos) r3)
            else invalid_continuation pos 1
          end
      end
    else if (c <? 245)%N then
      match r1 with
      | [] => unexpected_end pos 0
      | c2 :: r2 =>
        if negb (is_continuation c2)
           || (if (c2 <? 144)%N then (c =? 240)%N else (c =? 244)%N)
        then invalid_continuation pos 0
        else
          match r2 with
          | [] => unexpected_end pos 1
          | c3 :: r3 =>
            if negb (is_continuation c3) then invalid_continuation pos 1
            else
              match r3 with
              | [] => unexpected_end pos 2
              | c4 :: r4 =>
                if is_continuation c4
                then emit ((c - 240) * 262144 + (c2 - 128) * 4096
                           + (c3 - 128) * 64 + (c4 - 128))%N
                          (utf8_scan (4 + pos) r4)
                else invalid_continuation pos 2
              end
          end
      end
    else invalid_start pos
  end.

Definition utf8_error_text (bs : list N) (e : utf8_error) : str :=
  let '(first, last, reason) := e in
  let b := nth first bs 0%N in
  lit "'utf-8' codec can't decode "
  ++ (if Nat.eqb first last
      then lit "byte 0x" ++ [hex_digit (b / 16)%N; hex_digit (b mod 16)%N]
           ++ lit " in position " ++ str_of_nat first
      else lit "bytes in position " ++ str_of_nat first ++ lit "-"
           ++ str_of_nat last)
  ++ lit ": " ++ lit reason.

(** [b.decode()] *)
Definition utf8_decode (b : bytes) : lib_exn + str :=
  let bs := map Byte.to_N b in
  match utf8_scan 0 bs with
  | inr s => inr s
  | inl e => inl (LibExn (lit "UnicodeDecodeError") (utf8_error_text bs e))
  end.

(** The UTF-8 bytes of an ASCII literal. *)
Definition ascii_bytes (s : string) : bytes := list_byte_of_string s.

(** *** A JSON decoder

    It follows [json.decoder] on JSON texts whose numbers are integers and
    whose strings use the one-letter escapes only, nested within Python's
    recursion limit; a fraction, an exponent or a [\u] escape is answered
    with a [NotImplementedError] instead of the value Python would
    build. *)

Inductive json_error : Type :=
| JSONDecodeError (msg : string) (pos : nat)
| Unsupported (what : string).

Definition is_ws (c : N) : bool :=
  ((c =? 32) || (c =? 9) || (c =? 10) || (c =? 13))%N.

Definition is_digit (c : N) : bool := ((48 <=? c) && (c <=? 57))%N.

Fixpoint skip_ws (pos : nat) (s : str) : nat * str :=
  match s with
  | c :: r => if is_ws c then skip_ws (S pos) r else (pos, s)
  | [] => (pos, [])
  end.

(** [s.startswith(p)], with what follows the prefix. *)
Fixpoint strip_prefix (p s : str) : option str :=
  match p, s with
  | [], _ => Some s
  | a :: p', b :: s' => if (a =? b)%N then strip_prefix p' s' else None
  | _ :: _, [] => None
  end.

Definition dquote : N := 34.

Definition unescape (c : N) : option N :=
  if (c =? dquote)%N then Some dquote
  else if (c =? code "\")%N then Some (code "\")
  else if (c =? code "/")%N then Some (code "/")
  else if (c =? code "b")%N then Some 8%N
  else if (c =? code "f")%N then Some 12%N
  else if (c =? code "n")%N then Some 10%N
  else if (c =? code "r")%N then Some 13%N
  else if (c =? code "t")%N then Some 9%N
  else None.

(** The body of a string literal, after its opening quote at [start]. *)
Fixpoint scanstring (start pos : nat) (s acc : str)
  : json_error + (str * nat * str) :=
  match s with
  | [] => inl (JSONDecodeError "Unterminated string starting at" start)
  | c :: r =>
    if (c =? dquote)%N then inr (rev acc, S pos, r)
    else if (c =? code "\")%N then
      match r with
      | [] => inl (JSONDecodeError "Unterminated string starting at" start)
      | e :: r' =>
        if (e =? code "u")%N then inl (Unsupported "\u escape")
        else
          match unescape e with
          | Some x => scanstring start (2 + pos) r' (x :: acc)
          | None =>
              inl (JSONDecodeError "Invalid \escape" pos)
          end
      end
    else if (c <? 32)%N then
      inl (JSONDecodeError "Invalid control character at" pos)
    else scanstring start (S pos) r (c :: acc)
  end.

(** The digits of an integer literal, most significant first. *)
Fixpoint scan_digits (pos : nat) (s : str) (acc : Z) : Z * nat * str :=
  match s with
  | c :: r =>
      if is_digit c
      then scan_digits (S pos) r (acc * 10 + Z.of_N (c - 48))
      else (acc, pos, s)
  | [] => (acc, pos, [])
  end.

(** Does a fraction or an exponent follow the integer part? *)
Definition float_follows (s : str) : bool :=
  match s with
  | c :: d :: r =>
      if (c =? code ".")%N then is_digit d
      else if (c =? code "e")%N || (c =? code "E")%N then
        is_digit d
        || (((d =? code "+") || (d =? code "-"))%N
            && match r with x :: _ => is_digit x | [] => false end)
      else false
  | _ => false
  end.

(** An integer literal (optional minus, then 0 or a digit string without
    leading zero) at [pos]; [None] when no number starts there. *)
Definition scan_number (pos : nat) (s : str)
  : option (json_error + (value * nat * str)) :=
  let '(neg, p, body) :=
    match s with
    | c :: r => if (c =? code "-")%N then (true, S pos, r) else (false, pos, s)
    | [] => (false, pos, s)
    end in
  match body with
  | c :: r =>
      if is_digit c then
        let '(n, p', rest) :=
          if (c =? 48)%N then (0, S p, r) else scan_digits p body 0 in
        if float_follows rest then Some (inl (Unsupported "float literal"))
        else Some (inr (VInt (if neg then - n else n), p', rest))
      else None
  | [] => None
  end.

(** [dict(pairs)]: a repeated key keeps its first place and its last
    value. *)
Fixpoint dict_set (k : str) (v : value) (d : list (str * value))
  : list (str * value) :=
  match d with
  | [] => [(k, v)]
  | (k', v') :: d' =>
      if str_eq_dec k' k then (k, v) :: d' else (k', v') :: dict_set k v d'
  end.

Definition dict_of_pairs (pairs : list (str * value)) : list (str * value) :=
  fold_left (fun d kv => dict_set (fst kv) (snd kv) d) pairs [].

Definition keyword (word : string) (v : value) (pos : nat) (s : str)
  : option (value * nat * str) :=
  match strip_prefix (lit word) s with
  | Some rest => Some (v, (pos + String.length word)%nat, rest)
  | None => None
  end.

Definition expecting_value {A} (pos : nat) : json_error + A :=
  inl (JSONDecodeError "Expecting value" pos).

Fixpoint scan_once (fuel : nat) (pos : nat) (s : str) {struct fuel}
  : json_error + (value * nat * str) :=
  match fuel with
  | O => inl (Unsupported "nesting too deep")
  | S fuel' =>
    match s with
    | [] => expecting_value pos
    | c :: r =>
      if (c =? dquote)%N then
        match scanstring pos (S pos) r [] with
        | inr (text, pos', rest) => inr (VStr text, pos', rest)
        | inl e => inl e
        end
      else if (c =? code "{")%N then
        let '(p, body) :=
          match r with
          | x :: _ => if (x =? dquote)%N then (S pos, r)
                      else skip_ws (S pos) r
          | [] => (S pos, r)
          end in
        match body with
        | x :: body' =>
            if (x =? code "}")%N then inr (VDict [], S p, body')
            else if (x =? dquote)%N then scan_members fuel' p body' []
            else inl (JSONDecodeError
                   "Expecting property name enclosed in double quotes" p)
        | [] => inl (JSONDecodeError
                   "Expecting property name enclosed in double quotes" p)
        end
      else if (c =? code "[")%N then
        let '(p, body) := skip_ws (S pos) r in
        match body with
        | x :: body' =>
            if (x =? code "]")%N then inr (VList [], S p, body')
            else scan_elements fuel' p body []
        | [] => expecting_value p
        end
      else
        match keyword "null" VNone pos s with
        | Some x => inr x
        | None =>
        match keyword "true" (VBool true) pos s with
        | Some x => inr x
        | None =>
        match keyword "false" (VBool false) pos s with
        | Some x => inr x
        | None =>
        match scan_number pos s with
        | Some x => x
        | None =>
        match keyword "NaN" (VFloat PrimFloat.nan) pos s with
        | Some x => inr x
        | None =>
        match keyword "Infinity" (VFloat PrimFloat.infinity) pos s with
        | Some x => inr x
        | None =>
        match keyword "-Infinity" (VFloat PrimFloat.neg_infinity) pos s with
        | Some x => inr x
        | None => expecting_value pos
        end end end end end end end
    end
  end

(** The elements of an array, from the start of one element on. *)
with scan_elements (fuel : nat) (pos : nat) (s : str) (acc : list value)
  {struct fuel} : json_error + (value * nat * str) :=
  match fuel with
  | O => inl (Unsupported "nesting too deep")
  | S fuel' =>
    match scan_once fuel' pos s with
    | inl e => inl e
    | inr (v, pos1, rest1) =>
      let '(p, rest) := skip_ws pos1 rest1 in
      match rest with
      | c :: r =>
          if (c =? code "]")%N then inr (VList (rev (v :: acc)), S p, r)
          else if (c =? code ",")%N then
            let '(p', r') := skip_ws (S p) r in
            scan_elements fuel' p' r' (v :: acc)
          else inl (JSONDecodeError "Expecting ',' delimiter" p)
      | [] => inl (JSONDecodeError "Expecting ',' delimiter" p)
      end
    end
  end

(** The members of an object, after the opening quote of a key. *)
with scan_members (fuel : nat) (pos : nat) (s : str)
  (acc : list (str * value)) {struct fuel}
  : json_error + (value * nat * str) :=
  match fuel with
  | O => inl (Unsupported "nesting too deep")
  | S fuel' =>
    match scanstring pos (S pos) s [] with
    | inl e => inl e
    | inr (key, pos1, rest1) =>
      let '(p, rest) := skip_ws pos1 rest1 in
      match rest with
      | c :: r =>
        if (c =? code ":")%N then
          let '(p', r') := skip_ws (S p) r in
          match scan_once fuel' p' r' with
          | inl e => inl e
          | inr (v, pos2, rest2) =>
            let '(q, tail) := skip_ws pos2 rest2 in
            match tail with
            | x :: t =>
              if (x =? code "}")%N
              then inr (VDict (dict_of_pairs (rev ((key, v) :: acc))),
                        S q, t)
              else if (x =? code ",")%N then
                let '(q', t') := skip_ws (S q) t in
                match t' with
                | y :: t'' =>
                    if (y =? dquote)%N
                    then scan_members fuel' q' t'' ((key, v) :: acc)
                    else inl (JSONDecodeError
                      "Expecting property name enclosed in double quotes" q')
                | [] => inl (JSONDecodeError
                      "Expecting property name enclosed in double quotes" q')
                end
              else inl (JSONDecodeError "Expecting ',' delimiter" q)
            | [] => inl (JSONDecodeError "Expecting ',' delimiter" q)
            end
          end
        else inl (JSONDecodeError "Expecting ':' delimiter" p)
      | [] => inl (JSONDecodeError "Expecting ':' delimiter" p)
      end
    end
  end.

(** Line and column of [pos] in [s], both counted from 1. *)
Fixpoint line_column (pos : nat) (s : str) (line col : nat) : nat * nat :=
  match pos, s with
  | S pos', c :: r =>
      if (c =? 10)%N then line_column pos' r (S line) 1%nat
      else line_column pos' r line (S col)
  | _, _ => (line, col)
  end.

Definition json_error_exn (s : str) (e : json_error) : lib_exn :=
  match e with
  | JSONDecodeError msg pos =>
      let '(line, col) := line_column pos s 1%nat 1%nat in
      LibExn (lit "JSONDecodeError")
        (lit msg ++ lit ": line " ++ str_of_nat line ++ lit " column "
         ++ str_of_nat col ++ lit " (char " ++ str_of_nat pos ++ lit ")")
  | Unsupported what => LibExn (lit "NotImplementedError") (lit what)
  end.

(** [json.loads(s)] *)
Definition json_decode (s : str) : lib_exn + value :=
  match s with
  | 65279%N :: _ =>
      inl (json_error_exn s
             (JSONDecodeError "Unexpected UTF-8 BOM (decode using utf-8-sig)"
                0))
  | _ =>
    let '(p, body) := skip_ws 0 s in
    match scan_once (2 * List.length s + 2) p body with
    | inl e => inl (json_error_exn s e)
    | inr (v, pos, rest) =>
        let '(q, tail) := skip_ws pos rest in
        match tail with
        | [] => inr v
        | _ :: _ => inl (json_error_exn s (JSONDecodeError "Extra data" q))
        end
    end
  end.

(** *** [strptime] for [%Y-%m-%d] on ASCII digits *)

Definition digit_value (c : N) : option Z :=
  if is_digit c then Some (Z.of_N (c - 48)) else None.

(** Four digits. *)
Definition scan_year (s : str) : option (Z * str) :=
  match s with
  | a :: b :: c :: d :: r =>
      match digit_value a, digit_value b, digit_value c, digit_value d with
      | Some a, Some b, Some c, Some d =>
          Some (a * 1000 + b * 100 + c * 10 + d, r)
      | _, _, _, _ => None
      end
  | _ => None
  end.

(** The alternatives a regular expression tries for a one- or two-digit
    field, in order: the two-character readings, then the single digit. *)
Definition scan_field (two : Z -> bool) (allow_space : bool) (s : str)
  : list (Z * str) :=
  (match s with
   | a :: b :: r =>
       match digit_value a, digit_value b with
       | Some x, Some y =>
           if two (x * 10 + y) && negb ((x =? 0) && (y =? 0))
           then [(x * 10 + y, r)] else []
       | _, _ => []
       end
   | _ => []
   end)
  ++ (match s with
      | a :: r =>
          match digit_value a with
          | Some x => if 1 <=? x then [(x, r)] else []
          | None => []
          end
      | [] => []
      end)
  ++ (match s with
      | a :: b :: r =>
          if allow_space && (a =? 32)%N then
            match digit_value b with
            | Some y => if 1 <=? y then [(y, r)] else []
            | None => []
            end
          else []
      | _ => []
      end).

Definition expect_dash (s : str) : option str :=
  match s with
  | c :: r => if (c =? code "-")%N then Some r else None
  | [] => None
  end.

(** The first reading of the day that the pattern accepts; text may be
    left over, which makes [strptime] fail. *)
Definition first_day (s : str) : option (Z * str) :=
  match scan_field (fun d => d <=? 31) true s with
  | x :: _ => Some x
  | [] => None
  end.

(** The first reading of the month after which a dash and a day follow. *)
Fixpoint first_month (alts : list (Z * str)) : option (Z * Z * str) :=
  match alts with
  | [] => None
  | (m, r) :: alts' =>
      match expect_dash r with
      | Some r' =>
          match first_day r' with
          | Some (d, rest) => Some (m, d, rest)
          | None => first_month alts'
          end
      | None => first_month alts'
      end
  end.

(** [datetime.strptime(s, "%Y-%m-%d")]: the date, or [None] for
    [ValueError]. *)
Definition strptime_ascii (s : str) : option date :=
  match scan_year s with
  | Some (y, r) =>
      match expect_dash r with
      | Some r' =>
          match first_month (scan_field (fun m => m <=? 12) false r') with
          | Some (m, d, []) =>
              if (1 <=? y) && (d <=? days_in_month y m)
              then Some (Date y m d) else None
          | _ => None
          end
      | None => None
      end
  | None => None
  end.

(** *** A sample session

    Two subscriptions; the first holds two snapshots, the second none. *)

(** A JSON text written with ['] for the double quote. *)
Definition json_bytes (s : string) : bytes :=
  map (fun b => match b with x27 => x22 | _ => b end) (list_byte_of_string s).

Definition sample_today : datetime := DateTime 2024 2 10 12 34 56 789 UTC.

Definition sample_ask (prompt default : str) : str :=
  if str_eqb prompt (lit "Enter start date (YYYY-MM-DD)")
  then lit "2024-02-15" else lit "2024-02-20".

Definition sample_shell (n : nat) (command : str) : proc_outcome :=
  match n with
  | 0%nat =>
      Exited 0
        (json_bytes "[{'name': 'A', 'id': 'sub-a'}, {'name': 'B', 'id': 'sub-b'}]")
        []
  | 1%nat =>
      Exited 0
        (json_bytes "[{'name': 'snap1', 'resourceGroup': 'rg', 'timeCreated': '2024-02-16T10:00:00+00:00', 'diskSizeGb': 128, 'id': '/s/1', 'diskState': 'Attached', 'createdBy': '/vm/1'}, {'name': 'snap2', 'resourceGroup': 'rg', 'timeCreated': '2024-02-17T11:30:00+00:00', 'diskSizeGb': 64, 'id': '/s/2', 'diskState': 'Reserved', 'createdBy': null}]")
        []
  | 2%nat => Exited 0 (json_bytes "[]") []
  | _ => Exited 1 [] (ascii_bytes "unexpected command")
  end.

Definition sample_repr (v : value) : str := lit "<object>".

(** The same text as a [str]. *)
Definition json_text (s : string) : str :=
  map (fun c => if (c =? 39)%N then dquote else c) (lit s).

(** Shells that answer every command alike. *)
Definition failing_shell (n : nat) (command : str) : proc_outcome :=
  Exited 1 [] (ascii_bytes "ERROR: Please run 'az login' to setup account.").

Definition blank_shell (n : nat) (command : str) : proc_outcome :=
  Exited 0 [x20; x0a; x09] [].

Definition garbage_shell (n : nat) (command : str) : proc_outcome :=
  Exited 0 (ascii_bytes "not json") [].

Definition object_shell (n : nat) (command : str) : proc_outcome :=
  Exited 0 (json_bytes "{'a': 1}") [].

Definition binary_shell (n : nat) (command : str) : proc_outcome :=
  Exited 0 [xff] [].

Definition broken_shell (n : nat) (command : str) : proc_outcome :=
  Failed (LibExn (lit "FileNotFoundError")
            (lit "[Errno 2] No such file or directory: '/bin/sh'")).

(** The output is the empty JSON list with white space around it. *)
Definition padded_shell (n : nat) (command : str) : proc_outcome :=
  Exited 0 ([x20; x0a] ++ json_bytes "[]" ++ [x0d; x0a; x09]) [].


(** *** A display library

    It refuses the closing tag [[/x]], which no text of the script
    opens, and prints everything else. *)

(** Where [needle] first occurs in [text]. *)
Fixpoint index_of (needle text : str) : option nat :=
  match strip_prefix needle text with
  | Some _ => Some 0%nat
  | None =>
      match text with
      | [] => None
      | _ :: text' => option_map S (index_of needle text')
      end
  end.

Definition refuses_closing_x (r : renderable) : option lib_exn :=
  match r with
  | Line s =>
      match index_of (lit "[/x]") s with
      | Some i =>
          Some (LibExn (lit "MarkupError")
                  (lit "closing tag '[/x]' at position " ++ str_of_nat i
                   ++ lit " doesn't match any open tag"))
      | None => None
      end
  | Tbl _ => None
  end.

(** Python's name for the type of a value. *)
Definition type_name (v : value) : str :=
  match v with
  | VNone => lit "NoneType"
  | VBool _ => lit "bool"
  | VInt _ => lit "int"
  | VFloat _ => lit "float"
  | VStr _ => lit "str"
  | VList _ => lit "list"
  | VDict _ => lit "dict"
  end.

Definition not_renderable_error (v : value) : lib_exn :=
  LibExn (lit "NotRenderableError")
    (lit "unable to render " ++ type_name v
     ++ lit "; a string or other renderable object is required").

(** The command fails and its error text holds the closing tag. *)
Definition tagged_shell (n : nat) (command : str) : proc_outcome :=
  Exited 1 [] (ascii_bytes "boom [/x] here").

(** A snapshot record with the given [diskState] and [createdBy]. *)
Definition sample_snapshot (disk_state created_by : value) : value :=
  VDict [ (lit "name", VStr (lit "snap1"));
          (lit "resourceGroup", VStr (lit "rg"));
          (lit "timeCreated", VStr (lit "2024-02-16T10:00:00+00:00"));
          (lit "diskSizeGb", VInt 128);
          (lit "id", VStr (lit "/s/1"));
          (lit "diskState", disk_state);
          (lit "createdBy", created_by) ].

Definition sample_subscriptions : list value :=
  [ VDict [(lit "name", VStr (lit "A")); (lit "id", VStr (lit "sub-a"))];
    VDict [(lit "name", VStr (lit "B")); (lit "id", VStr (lit "sub-b"))] ].

Definition sample_results : list (list value) :=
  [ [ sample_snapshot (VStr (lit "Attached")) (VStr (lit "/vm/1"));
      VDict [ (lit "name", VStr (lit "snap2"));
              (lit "resourceGroup", VStr (lit "rg"));
              (lit "timeCreated", VStr (lit "2024-02-17T11:30:00+00:00"));
              (lit "diskSizeGb", VInt 64);
              (lit "id", VStr (lit "/s/2"));
              (lit "diskState", VStr (lit "Reserved"));
              (lit "createdBy", VNone) ] ];
    [] ].


(** A snapshot record whose name is a number and whose [createdBy] is
    null. *)
Definition numbered_snapshot : value :=
  VDict [ (lit "name", VInt 123);
          (lit "resourceGroup", VStr (lit "rg"));
          (lit "timeCreated", VStr (lit "2024-02-16T10:00:00+00:00"));
          (lit "diskSizeGb", VInt 128);
          (lit "id", VStr (lit "/s/1"));
          (lit "diskState", VStr (lit "Unattached"));
          (lit "createdBy", VNone) ].

(** ** The script *)

Section Script.

(** What the [n]-th launched shell command comes to. *)
Variable shell : nat -> str -> proc_outcome.
(** [bytes.decode()] *)
Variable decode : bytes -> lib_exn + str.
(** [json.loads] *)
Variable json_loads : str -> lib_exn + value.
(** [datetime.strptime(_, "%Y-%m-%d")]: the date read, [None] for the
    [ValueError] it raises otherwise.  The format has no time directive,
    so the datetime it stands for is that date at midnight, naive. *)
Variable strptime_Ymd : str -> option date.
(** [Prompt.ask(prompt, default=...)]: what the user answers. *)
Variable ask : str -> str -> str.
(** [repr] of floats, lists and dicts. *)
Variable py_repr : value -> str.
(** [datetime.now(timezone.utc)] *)
Variable today : datetime.
(** [console.print(r)] when the display library does not print [r]: the
    exception it raises on markup it cannot parse, in a line, a title or
    a cell; [None] when it prints [r]. *)
Variable refused : renderable -> option lib_exn.
(** The exception of [Table.add_row] for a cell it cannot render. *)
Variable not_renderable : value -> lib_exn.

(** [str(v)], also what an f-string makes of [{v}]. *)
Definition py_str (v : value) : str :=
  match v with
  | VStr s => s
  | VNone => lit "None"
  | VBool true => lit "True"
  | VBool false => lit "False"
  | VInt z => str_of_Z z
  | _ => py_repr v
  end.

(** [asyncio.create_subprocess_shell] and [communicate]. *)
Definition launch (command : str) : M proc_outcome :=
  fun st =>
    (Ok (shell (List.length (launched st)) command),
     State (launched st ++ [command]) (console st)).

(** The [except Exception] handler of [run_az_command]. *)
Definition on_exception (e : lib_exn) : M (option str) :=
  console_print (Line (error_occurred e));;
  ret None.

Definition run_az_command (command : str) : M (option str) :=
  outcome <- launch command;;
  match outcome with
  | Failed e => on_exception e
  | Exited returncode stdout stderr =>
      if returncode =? 0 then
        match decode stdout with
        | inr text => ret (Some (strip text))
        | inl e => on_exception e
        end
      else
        console_print (Line (error_running command));;
        match decode stderr with
        | inr text =>
            console_print (Line (error_message (strip text)));;
            ret None
        | inl e => on_exception e
        end
  end.

(** [if result: return json.loads(result)] / [return []] *)
Definition parse_result (result : option str) : M value :=
  match result with
  | Some text =>
      if truthy (VStr text) then
        match json_loads text with
        | inr v => ret v
        | inl e => raise (Lib e)
        end
      else ret (VList [])
  | None => ret (VList [])
  end.

Definition get_subscriptions : M value :=
  result <- run_az_command subscriptions_command;;
  parse_result result.

Definition get_snapshots (subscription_id : value)
  (start_date end_date : str) : M value :=
  let command :=
    snapshot_command (py_str subscription_id) start_date end_date in
  result <- run_az_command command;;
  parse_result result.

(** [x if x else "N/A"], for an [x] that is a lookup: evaluating it a
    second time gives the same object. *)
Definition or_na (v : value) : value :=
  if truthy v then v else VStr (lit "N/A").

(** The cells [display_snapshots] gives to [add_row]. *)
Definition detail_row (snapshot : value) : res (list value) :=
  name <~ subscript snapshot (lit "name");;
  resource_group <~ subscript snapshot (lit "resourceGroup");;
  time_created <~ subscript snapshot (lit "timeCreated");;
  disk_size <~ subscript snapshot (lit "diskSizeGb");;
  disk_state <~ subscript snapshot (lit "diskState");;
  created_by <~ subscript snapshot (lit "createdBy");;
  Ok [ name; resource_group; time_created; VStr (py_str disk_size);
       disk_state; or_na created_by ].

Definition no_snapshots_line (subscription_name : value) : str :=
  lit "[yellow]No snapshots found in subscription: "
  ++ py_str subscription_name ++ lit "[/yellow]".

Definition detail_table (subscription_name : value)
  (rs : list (list value)) : table :=
  Table (lit "Snapshots in " ++ py_str subscription_name) ROUNDED
    detail_columns rs.

Definition display_snapshots (snapshots subscription_name : value)
  : M unit :=
  if negb (truthy snapshots) then
    console_print (Line (no_snapshots_line subscription_name))
  else
    items <- lift (iterate snapshots);;
    rs <- lift (mapM detail_row items);;
    console_print (Tbl (detail_table subscription_name rs)).

(** The [try] block of [main] that validates the two dates. *)
Definition validate_dates
  (start_date end_date default_start default_end : str) : M (str * str) :=
  let fallback :=
    console_print (Line invalid_date_warning);;
    ret (default_start, default_end) in
  match strptime_Ymd start_date with
  | None => fallback
  | Some d1 =>
      let start_datetime :=
        DateTime (d_year d1) (d_month d1) (d_day d1) 0 0 0 0 UTC in
      match strptime_Ymd end_date with
      | None => fallback
      | Some d2 =>
          let end_datetime :=
            DateTime (d_year d2) (d_month d2) (d_day d2) 23 59 59 0 UTC in
          ret (isoformat start_datetime, isoformat end_datetime)
      end
  end.

Definition searching_line (subscription_name : value) : str :=
  nl ++ lit "[bold blue]Searching in subscription: "
  ++ py_str subscription_name ++ lit "[/bold blue]".

(** The loop of [main] over the subscriptions; [all_snapshots] is the
    list being extended. *)
Fixpoint search_subscriptions (subscriptions : list value)
  (start_date end_date : str) (all_snapshots : list value)
  : M (list value) :=
  match subscriptions with
  | [] => ret all_snapshots
  | subscription :: rest =>
      name <- lift (subscript subscription (lit "name"));;
      console_print (Line (searching_line name));;
      id <- lift (subscript subscription (lit "id"));;
      snapshots <- get_snapshots id start_date end_date;;
      name' <- lift (subscript subscription (lit "name"));;
      display_snapshots snapshots name';;
      items <- lift (iterate snapshots);;
      search_subscriptions rest start_date end_date (all_snapshots ++ items)
  end.

(** [v == "Attached"] picks the status. *)
Definition status (disk_state : value) : value :=
  if eq_str disk_state (lit "Attached")
  then VStr (lit "Attached") else VStr (lit "Unattached").

(** The cells [main] gives to [summary_table.add_row]. *)
Definition summary_row (snapshot : value) : res (list value) :=
  name <~ subscript snapshot (lit "name");;
  time_created <~ subscript snapshot (lit "timeCreated");;
  disk_state <~ subscript snapshot (lit "diskState");;
  created_by <~ subscript snapshot (lit "createdBy");;
  Ok [ name; time_created; status disk_state; or_na created_by ].

Definition main : M unit :=
  console_print (Line welcome);;
  defaults <- lift (get_default_date_range today);;
  let '(default_start, default_end) := defaults in
  let start_date :=
    ask (lit "Enter start date (YYYY-MM-DD)") (prefix 10 default_start) in
  let end_date :=
    ask (lit "Enter end date (YYYY-MM-DD)") (prefix 10 default_end) in
  dates <- validate_dates start_date end_date default_start default_end;;
  let '(start_date, end_date) := dates in
  subscriptions <- get_subscriptions;;
  if negb (truthy subscriptions) then
    console_print (Line no_subscriptions)
  else
    subs <- lift (iterate subscriptions);;
    all_snapshots <- search_subscriptions subs start_date end_date [];;
    rs <- lift (mapM summary_row all_snapshots);;
    console_print (Line summary_heading);;
    console_print (Tbl (summary_table rs));;
    console_print (Line (total_line (List.length all_snapshots)));;
    console_print (Line search_complete).

(** *** The script with the exceptions of the display library

    The same functions, where [console.print] and [Table.add_row] raise
    what the display library raises.  A text that interpolates data and
    every table go through [print_rich]; the literals of the script are
    well-formed markup, which the library prints. *)

(** [console.print(r)]: [r] is printed, or the library's exception is
    raised and nothing is printed. *)
Definition print_rich (r : renderable) : M unit :=
  fun st =>
    match refused r with
    | None => console_print r st
    | Some e => (Raise (Lib e), st)
    end.

(** The [except Exception] handler of [run_az_command]; its own
    [console.print] is outside the [try]. *)
Definition on_exception_rich (e : lib_exn) : M (option str) :=
  print_rich (Line (error_occurred e));;
  ret None.

(** The two [console.print] of the failure branch are inside the [try]:
    what they raise goes to the handler, like what [decode] raises. *)
Definition run_az_command_rich (command : str) : M (option str) :=
  outcome <- launch command;;
  match outcome with
  | Failed e => on_exception_rich e
  | Exited returncode stdout stderr =>
      if returncode =? 0 then
        match decode stdout with
        | inr text => ret (Some (strip text))
        | inl e => on_exception_rich e
        end
      else
        match refused (Line (error_running command)) with
        | Some e => on_exception_rich e
        | None =>
            console_print (Line (error_running command));;
            match decode stderr with
            | inl e => on_exception_rich e
            | inr text =>
                match refused (Line (error_message (strip text))) with
                | Some e => on_exception_rich e
                | None =>
                    console_print (Line (error_message (strip text)));;
                    ret None
                end
            end
        end
  end.

Definition get_subscriptions_rich : M value :=
  result <- run_az_command_rich subscriptions_command;;
  parse_result result.

Definition get_snapshots_rich (subscription_id : value)
  (start_date end_date : str) : M value :=
  let command :=
    snapshot_command (py_str subscription_id) start_date end_date in
  result <- run_az_command_rich command;;
  parse_result result.

(** What [Table.add_row] takes as a cell: a string or [None]. *)
Definition renderable_cell (v : value) : bool :=
  match v with
  | VStr _ | VNone => true
  | _ => false
  end.

(** [table.add_row(cells)]: the cells are checked from left to right. *)
Definition add_row (cells : list value) : res (list value) :=
  match find (fun v => negb (renderable_cell v)) cells with
  | Some v => Raise (Lib (not_renderable v))
  | None => Ok cells
  end.

(** One turn of the loop of [display_snapshots]: the six arguments are
    evaluated, then [add_row] is called. *)
Definition add_detail_row (snapshot : value) : res (list value) :=
  cells <~ detail_row snapshot;;
  add_row cells.

Definition display_snapshots_rich (snapshots subscription_name : value)
  : M unit :=
  if negb (truthy snapshots) then
    print_rich (Line (no_snapshots_line subscription_name))
  else
    items <- lift (iterate snapshots);;
    rs <- lift (mapM add_detail_row items);;
    print_rich (Tbl (detail_table subscription_name rs)).

Fixpoint search_subscriptions_rich (subscriptions : list value)
  (start_date end_date : str) (all_snapshots : list value)
  : M (list value) :=
  match subscriptions with
  | [] => ret all_snapshots
  | subscription :: rest =>
      name <- lift (subscript subscription (lit "name"));;
      print_rich (Line (searching_line name));;
      id <- lift (subscript subscription (lit "id"));;
      snapshots <- get_snapshots_rich id start_date end_date;;
      name' <- lift (subscript subscription (lit "name"));;
      display_snapshots_rich snapshots name';;
      items <- lift (iterate snapshots);;
      search_subscriptions_rich rest start_date end_date
        (all_snapshots ++ items)
  end.

(** One turn of the loop that fills the summary table. *)
Definition add_summary_row (snapshot : value) : res (list value) :=
  cells <~ summary_row snapshot;;
  add_row cells.

(** The end of [main]: the summary table of [all_snapshots] is built,
    then the heading, the table, the total and the closing line are
    printed. *)
Definition print_summary (all_snapshots : list value) : M unit :=
  rs <- lift (mapM add_summary_row all_snapshots);;
  console_print (Line summary_heading);;
  print_rich (Tbl (summary_table rs));;
  print_rich (Line (total_line (List.length all_snapshots)));;
  console_print (Line search_complete).

Definition main_rich : M unit :=
  console_print (Line welcome);;
  defaults <- lift (get_default_date_range today);;
  let '(default_start, default_end) := defaults in
  let start_date :=
    ask (lit "Enter start date (YYYY-MM-DD)") (prefix 10 default_start) in
  let end_date :=
    ask (lit "Enter end date (YYYY-MM-DD)") (prefix 10 default_end) in
  dates <- validate_dates start_date end_date default_start default_end;;
  let '(start_date, end_date) := dates in
  subscriptions <- get_subscriptions_rich;;
  if negb (truthy subscriptions) then
    console_print (Line no_subscriptions)
  else
    subs <- lift (iterate subscriptions);;
    all_snapshots <- search_subscriptions_rich subs start_date end_date [];;
    print_summary all_snapshots.

(** *** Vocabulary of the statements *)

(** A snapshot record: the six fields the tables show can be read. *)
Definition wf_snapshot (v : value) : Prop :=
  exists name resource_group time_created disk_size disk_state created_by,
    subscript v (lit "name") = Ok name
    /\ subscript v (lit "resourceGroup") = Ok resource_group
    /\ subscript v (lit "timeCreated") = Ok time_created
    /\ subscript v (lit "diskSizeGb") = Ok disk_size
    /\ subscript v (lit "diskState") = Ok disk_state
    /\ subscript v (lit "createdBy") = Ok created_by.

(** What [main] does once the subscriptions are listed. *)
Definition main_tail (start_date end_date : str) (subscriptions : value)
  : M unit :=
  if negb (truthy subscriptions) then
    console_print (Line no_subscriptions)
  else
    subs <- lift (iterate subscriptions);;
    all_snapshots <- search_subscriptions subs start_date end_date [];;
    rs <- lift (mapM summary_row all_snapshots);;
    console_print (Line summary_heading);;
    console_print (Tbl (summary_table rs));;
    console_print (Line (total_line (List.length all_snapshots)));;
    console_print (Line search_complete).

(** The state once [command] was launched and [lines] were printed. *)
Definition after (st : state) (command : str) (lines : list renderable)
  : state :=
  State (launched st ++ [command]) (console st ++ lines).

(** Both retrievers are the executor followed by [parse_result]. *)
Definition retrieve (command : str) : M value :=
  result <- run_az_command command;;
  parse_result result.

(** The executor failed, or the command printed nothing but white
    space. *)
Definition failed_or_blank (command : str) (st : state) : Prop :=
  fst (run_az_command command st) = Ok None
  \/ (exists text,
        fst (run_az_command command st) = Ok (Some text)
        /\ Forall (fun c => isspace c = true) text)
  \/ exists stdout stderr text,
       shell (List.length (launched st)) command = Exited 0 stdout stderr
       /\ decode stdout = inr text
       /\ Forall (fun c => isspace c = true) text.

(** The command ran to exit code 0 and printed [text], which is not
    blank once stripped. *)
Definition printed (command : str) (st : state) (text : str) : Prop :=
  exists stdout stderr raw,
    shell (List.length (launched st)) command = Exited 0 stdout stderr
    /\ decode stdout = inr raw
    /\ strip raw = text /\ text <> [].

(** The fields [display_snapshots] reads from a record, in the order of
    its [add_row] call. *)
Definition detail_fields : list str :=
  [ lit "name"; lit "resourceGroup"; lit "timeCreated"; lit "diskSizeGb";
    lit "diskState"; lit "createdBy" ].

(** The exceptions the script lets through once the default range is
    computed: a failure of [json.loads], a missing field of a record, a
    value of the wrong type. *)
Definition may_escape (x : exn) : Prop :=
  (exists text e, json_loads text = inl e /\ x = Lib e)
  \/ (exists key, x = KeyError key /\ In key (lit "id" :: detail_fields))
  \/ (exists culprit, x = TypeError culprit).

(** Both retrievers are the executor followed by [parse_result]. *)
Definition retrieve_rich (command : str) : M value :=
  result <- run_az_command_rich command;;
  parse_result result.

(** What [main_rich] does once the subscriptions are listed. *)
Definition main_tail_rich (start_date end_date : str) (subscriptions : value)
  : M unit :=
  if negb (truthy subscriptions) then
    console_print (Line no_subscriptions)
  else
    subs <- lift (iterate subscriptions);;
    all_snapshots <- search_subscriptions_rich subs start_date end_date [];;
    print_summary all_snapshots.

(** The executor reaches its handler with the exception [e], having
    printed [before]: launching or communicating raised [e], a stream did
    not decode, or the display library refused one of the two lines of
    the failure branch. *)
Inductive handled (command : str) (st : state)
  : lib_exn -> list renderable -> Prop :=
| handled_launch e :
    shell (List.length (launched st)) command = Failed e ->
    handled command st e []
| handled_stdout stdout stderr e :
    shell (List.length (launched st)) command = Exited 0 stdout stderr ->
    decode stdout = inl e ->
    handled command st e []
| handled_first_line returncode stdout stderr e :
    shell (List.length (launched st)) command
    = Exited returncode stdout stderr ->
    returncode <> 0 ->
    refused (Line (lit "[red]Error running command: " ++ command
                   ++ lit "[/red]")) = Some e ->
    handled command st e []
| handled_stderr returncode stdout stderr e :
    shell (List.length (launched st)) command
    = Exited returncode stdout stderr ->
    returncode <> 0 ->
    refused (Line (lit "[red]Error running command: " ++ command
                   ++ lit "[/red]")) = None ->
    decode stderr = inl e ->
    handled command st e
      [Line (lit "[red]Error running command: " ++ command ++ lit "[/red]")]
| handled_second_line returncode stdout stderr text e :
    shell (List.length (launched st)) command
    = Exited returncode stdout stderr ->
    returncode <> 0 ->
    refused (Line (lit "[red]Error running command: " ++ command
                   ++ lit "[/red]")) = None ->
    decode stderr = inr text ->
    refused (Line (lit "[red]Error message: " ++ strip text
                   ++ lit "[/red]")) = Some e ->
    handled command st e
      [Line (lit "[red]Error running command: " ++ command ++ lit "[/red]")].

(** The launches numbered [k], [k + 1], ... answer the snapshot queries
    of [subscriptions], in order, with the lists [results]. *)
Fixpoint answers_rich (k : nat) (subscriptions : list value)
  (results : list (list value)) (start_date end_date : str) : Prop :=
  match subscriptions, results with
  | [], [] => True
  | subscription :: subscriptions', snaps :: results' =>
      (forall id st,
         subscript subscription (lit "id") = Ok id ->
         List.length (launched st) = k ->
         fst (get_snapshots_rich id start_date end_date st)
         = Ok (VList snaps))
      /\ answers_rich (S k) subscriptions' results' start_date end_date
  | _, _ => False
  end.

(** The cells of a snapshot in the per-subscription table. *)
Definition detail_cells (snapshot : value) (row : list value) : Prop :=
  exists name resource_group time_created disk_size disk_state created_by,
    subscript snapshot (lit "name") = Ok name
    /\ subscript snapshot (lit "resourceGroup") = Ok resource_group
    /\ subscript snapshot (lit "timeCreated") = Ok time_created
    /\ subscript snapshot (lit "diskSizeGb") = Ok disk_size
    /\ subscript snapshot (lit "diskState") = Ok disk_state
    /\ subscript snapshot (lit "createdBy") = Ok created_by
    /\ row = [ name; resource_group; time_created; VStr (py_str disk_size);
               disk_state;
               if truthy created_by then created_by else VStr (lit "N/A") ].

(** The cells of a snapshot in the summary table. *)
Definition summary_cells (snapshot : value) (row : list value) : Prop :=
  exists name time_created disk_state created_by,
    subscript snapshot (lit "name") = Ok name
    /\ subscript snapshot (lit "timeCreated") = Ok time_created
    /\ subscript snapshot (lit "diskState") = Ok disk_state
    /\ subscript snapshot (lit "createdBy") = Ok created_by
    /\ row = [ name; time_created;
               VStr (if eq_str disk_state (lit "Attached")
                     then lit "Attached" else lit "Unattached");
               if truthy created_by then created_by else VStr (lit "N/A") ].

(** The cell at [column] of [row] shows the [createdBy] of [snapshot]:
    the text N/A for null and for the empty string, a non-empty string as
    it is. *)
Definition shows_created_by (column : nat) (snapshot : value)
  (row : list value) : Prop :=
  exists created_by,
    subscript snapshot (lit "createdBy") = Ok created_by
    /\ (created_by = VNone \/ created_by = VStr [] ->
        nth_error row column = Some (VStr (lit "N/A")))
    /\ (forall s, created_by = VStr s -> s <> [] ->
        nth_error row column = Some (VStr s)).

(** What the console receives for one subscription whose query returned
    the list [snaps]: the heading, then, when the list is empty, the
    executor's error lines if its command failed and the line that says
    so, and otherwise the table with one row per snapshot. *)
Inductive section_shown (subscription : value) (snaps : list value)
  : list renderable -> Prop :=
| shown_empty name errors :
    subscript subscription (lit "name") = Ok name ->
    forallb is_line errors = true ->
    snaps = [] ->
    section_shown subscription snaps
      (Line (nl ++ lit "[bold blue]Searching in subscription: "
             ++ py_str name ++ lit "[/bold blue]")
       :: errors
       ++ [Line (lit "[yellow]No snapshots found in subscription: "
                 ++ py_str name ++ lit "[/yellow]")])
| shown_table name rs :
    subscript subscription (lit "name") = Ok name ->
    snaps <> [] ->
    Forall2 detail_cells snaps rs ->
    section_shown subscription snaps
      [ Line (nl ++ lit "[bold blue]Searching in subscription: "
              ++ py_str name ++ lit "[/bold blue]");
        Tbl (Table (lit "Snapshots in " ++ py_str name) ROUNDED
               detail_columns rs) ].

Inductive sections_shown
  : list value -> list (list value) -> list renderable -> Prop :=
| shown_nil : sections_shown [] [] []
| shown_cons subscription snaps subscriptions results here rest :
    section_shown subscription snaps here ->
    sections_shown subscriptions results rest ->
    sections_shown (subscription :: subscriptions) (snaps :: results)
      (here ++ rest).

(** ** The calendar *)

(** Years since year 1, split along the 400/100/4-year cycles. *)
Lemma year_cycles (y : Z) :
  1 <= y ->
  exists a b c e,
    y - 1 = 400 * a + 100 * b + 4 * c + e /\
    0 <= a /\ 0 <= b < 4 /\ 0 <= c < 25 /\ 0 <= e < 4.
Proof.
  intros Hy.
  exists ((y - 1) / 400), ((y - 1) mod 400 / 100),
         ((y - 1) mod 100 / 4), ((y - 1) mod 4).
  Z.div_mod_to_equations. lia.
Qed.

Lemma days_before_year_cycles (a b c e : Z) :
  0 <= a -> 0 <= b < 4 -> 0 <= c < 25 -> 0 <= e < 4 ->
  days_before_year (400 * a + 100 * b + 4 * c + e + 1)
  = 146097 * a + 36524 * b + 1461 * c + 365 * e.
Proof.
  intros Ha Hb Hc He. unfold days_before_year. cbv zeta.
  replace (400 * a + 100 * b + 4 * c + e + 1 - 1)
    with (400 * a + 100 * b + 4 * c + e) by lia.
  assert (H4 : (400 * a + 100 * b + 4 * c + e) / 4 = 100 * a + 25 * b + c)
    by (Z.div_mod_to_equations; lia).
  assert (H100 : (400 * a + 100 * b + 4 * c + e) / 100 = 4 * a + b)
    by (Z.div_mod_to_equations; lia).
  assert (H400 : (400 * a + 100 * b + 4 * c + e) / 400 = a)
    by (Z.div_mod_to_equations; lia).
  rewrite H4, H100, H400. lia.
Qed.

Lemma is_leap_cycles (a b c e : Z) :
  0 <= a -> 0 <= b < 4 -> 0 <= c < 25 -> 0 <= e < 4 ->
  is_leap (400 * a + 100 * b + 4 * c + e + 1)
  = (e =? 3) && (negb (c =? 24) || (b =? 3)).
Proof.
  intros Ha Hb Hc He. unfold is_leap.
  assert (H4 : (400 * a + 100 * b + 4 * c + e + 1) mod 4 = (e + 1) mod 4)
    by (Z.div_mod_to_equations; lia).
  assert (H100 : (400 * a + 100 * b + 4 * c + e + 1) mod 100
                 = (4 * c + e + 1) mod 100)
    by (Z.div_mod_to_equations; lia).
  assert (H400 : (400 * a + 100 * b + 4 * c + e + 1) mod 400
                 = (100 * b + 4 * c + e + 1) mod 400)
    by (Z.div_mod_to_equations; lia).
  rewrite H4, H100, H400.
  destruct (Z.eqb_spec e 3); destruct (Z.eqb_spec c 24);
    destruct (Z.eqb_spec b 3); subst; cbn [andb orb negb];
    repeat match goal with
    | |- context [?x mod ?d =? 0] => destruct (Z.eqb_spec (x mod d) 0)
    end; cbn [andb orb negb]; try reflexivity;
    exfalso; Z.div_mod_to_equations; lia.
Qed.

Lemma div_cycle (d q r : Z) : 0 <= r < d -> (d * q + r) / d = q.
Proof. intros H. symmetry. apply Z.div_unique with r; [left; assumption | reflexivity]. Qed.

Lemma mod_cycle (d q r : Z) : 0 <= r < d -> (d * q + r) mod d = r.
Proof. intros H. symmetry. apply Z.mod_unique with q; [left; assumption | reflexivity]. Qed.

Lemma ord2ymd_cycles (a b c e k : Z) :
  0 <= a -> 0 <= b < 4 -> 0 <= c < 25 -> 0 <= e < 4 -> 0 <= k <= 364 ->
  ord2ymd (146097 * a + (36524 * b + (1461 * c + (365 * e + k))) + 1)
  = let '(m, d) :=
      month_day ((e =? 3) && (negb (c =? 24) || (b =? 3))) k in
    (400 * a + 100 * b + 4 * c + e + 1, m, d).
Proof.
  intros Ha Hb Hc He Hk. unfold ord2ymd, month_day. cbv zeta.
  replace (146097 * a + (36524 * b + (1461 * c + (365 * e + k))) + 1 - 1)
    with (146097 * a + (36524 * b + (1461 * c + (365 * e + k)))) by lia.
  rewrite (@div_cycle 146097), (@mod_cycle 146097) by lia.
  rewrite (@div_cycle 36524), (@mod_cycle 36524) by lia.
  rewrite (@div_cycle 1461), (@mod_cycle 1461) by lia.
  rewrite (@div_cycle 365), (@mod_cycle 365) by lia.
  replace (e =? 4) with false by (symmetry; apply Z.eqb_neq; lia).
  replace (b =? 4) with false by (symmetry; apply Z.eqb_neq; lia).
  cbn [orb].
  replace (a * 400 + 1 + b * 100 + c * 4 + e)
    with (400 * a + 100 * b + 4 * c + e + 1) by lia.
  destruct (k <? _); reflexivity.
Qed.

Lemma ord2ymd_cycles_last (a b c e : Z) :
  0 <= a -> 0 <= b < 4 -> 0 <= c < 25 -> 0 <= e < 4 ->
  (e =? 3) && (negb (c =? 24) || (b =? 3)) = true ->
  ord2ymd (146097 * a + (36524 * b + (1461 * c + (365 * e + 365))) + 1)
  = (400 * a + 100 * b + 4 * c + e + 1, 12, 31).
Proof.
  intros Ha Hb Hc He HL.
  apply andb_true_iff in HL. destruct HL as [He3 HL].
  apply Z.eqb_eq in He3. subst e.
  unfold ord2ymd. cbv zeta.
  replace (146097 * a + (36524 * b + (1461 * c + (365 * 3 + 365))) + 1 - 1)
    with (146097 * a + (36524 * b + (1461 * c + 1460))) by lia.
  rewrite (@div_cycle 146097), (@mod_cycle 146097) by lia.
  destruct (Z.eqb_spec c 24) as [-> | Hc24].
  - cbn [negb orb] in HL. apply Z.eqb_eq in HL. subst b.
    replace (36524 * 3 + (1461 * 24 + 1460)) with (36524 * 4 + 0)
      by reflexivity.
    rewrite (@div_cycle 36524), (@mod_cycle 36524) by lia.
    change (0 / 1461) with 0. change (0 mod 1461) with 0.
    change (0 / 365) with 0. change (4 =? 4) with true.
    rewrite orb_true_r. f_equal. f_equal. lia.
  - rewrite (@div_cycle 36524), (@mod_cycle 36524) by lia.
    rewrite (@div_cycle 1461), (@mod_cycle 1461) by lia.
    change (1460 / 365) with 4. change (4 =? 4) with true.
    cbn [orb]. f_equal. f_equal. lia.
Qed.

(** Evaluate the calendar tables and tests on literal months only. *)
Ltac eval_literals :=
  repeat (progress (
    repeat match goal with
    | |- context [Z.pos ?a =? Z.pos ?b] =>
        let v := eval vm_compute in (Z.pos a =? Z.pos b) in
        change (Z.pos a =? Z.pos b) with v
    | |- context [Z.pos ?a <? Z.pos ?b] =>
        let v := eval vm_compute in (Z.pos a <? Z.pos b) in
        change (Z.pos a <? Z.pos b) with v
    | |- context [Z.pos ?a - 1] =>
        let v := eval vm_compute in (Z.pos a - 1) in
        change (Z.pos a - 1) with v
    | |- context [DAYS_BEFORE_MONTH (Z.pos ?a)] =>
        let v := eval vm_compute in (DAYS_BEFORE_MONTH (Z.pos a)) in
        change (DAYS_BEFORE_MONTH (Z.pos a)) with v
    | |- context [DAYS_IN_MONTH (Z.pos ?a)] =>
        let v := eval vm_compute in (DAYS_IN_MONTH (Z.pos a)) in
        change (DAYS_IN_MONTH (Z.pos a)) with v
    end;
    cbn [andb orb negb]; cbv beta iota)).

Ltac month_case m1 m2 :=
  eval_literals; intros Hd;
  match goal with
  | |- context [?x / 32] =>
      let H := fresh "Hq" in
      assert (H : x / 32 = m1 \/ x / 32 = m2)
        by (Z.div_mod_to_equations; lia);
      destruct H as [H | H]; rewrite H
  end;
  eval_literals;
  repeat match goal with
         | |- context [?a <? ?b] => destruct (Z.ltb_spec a b)
         end;
  first [ f_equal; lia | exfalso; Z.div_mod_to_equations; lia ].

Lemma month_day_spec (L : bool) (m d : Z) :
  1 <= m <= 12 ->
  1 <= d <= (if (m =? 2) && L then 29 else DAYS_IN_MONTH m) ->
  month_day L
    (DAYS_BEFORE_MONTH m + (if (2 <? m) && L then 1 else 0) + d - 1)
  = (m, d).
Proof.
  intros Hm Hd.
  assert (Hcases : m = 1 \/ m = 2 \/ m = 3 \/ m = 4 \/ m = 5 \/ m = 6 \/
                   m = 7 \/ m = 8 \/ m = 9 \/ m = 10 \/ m = 11 \/ m = 12)
    by lia.
  clear Hm. revert Hd.
  unfold month_day. cbv zeta. rewrite Z.shiftr_div_pow2 by lia.
  change (2 ^ 5) with 32.
  destruct Hcases as
    [-> | [-> | [-> | [-> | [-> | [-> | [-> | [-> | [-> | [-> | [-> | ->]]]]]]]]]]];
    destruct L;
    [ month_case 1 2 | month_case 1 2 | month_case 2 3 | month_case 2 3
    | month_case 3 4 | month_case 3 4 | month_case 4 5 | month_case 4 5
    | month_case 5 6 | month_case 5 6 | month_case 6 7 | month_case 6 7
    | month_case 7 8 | month_case 7 8 | month_case 8 9 | month_case 8 9
    | month_case 9 10 | month_case 9 10 | month_case 10 11 | month_case 10 11
    | month_case 11 12 | month_case 11 12
    | month_case 11 12 | month_case 11 12 ].
Qed.

(** [ord2ymd] inverts [ymd2ord] on every calendar date from year 1 on. *)
Lemma ord2ymd_ymd2ord (y m d : Z) :
  1 <= y -> 1 <= m <= 12 -> 1 <= d <= days_in_month y m ->
  ord2ymd (ymd2ord y m d) = (y, m, d).
Proof.
  intros Hy Hm Hd.
  destruct (year_cycles Hy) as (a & b & c & e & Hsplit & Ha & Hb & Hc & He).
  assert (Ey : y = 400 * a + 100 * b + 4 * c + e + 1) by lia.
  clear Hsplit. subst y.
  unfold ymd2ord, days_before_month, days_in_month in *.
  rewrite days_before_year_cycles by assumption.
  rewrite is_leap_cycles in * by assumption.
  set (L := (e =? 3) && (negb (c =? 24) || (b =? 3))) in *.
  set (k := DAYS_BEFORE_MONTH m + (if (2 <? m) && L then 1 else 0) + d - 1).
  assert (Hk : 0 <= k <= 364 \/ (k = 365 /\ L = true /\ m = 12 /\ d = 31)).
  { subst k. clearbody L.
    assert (Hcases : m = 1 \/ m = 2 \/ m = 3 \/ m = 4 \/ m = 5 \/ m = 6 \/
                     m = 7 \/ m = 8 \/ m = 9 \/ m = 10 \/ m = 11 \/ m = 12)
      by lia.
    clear Hm. revert Hd.
    destruct Hcases as
      [-> | [-> | [-> | [-> | [-> | [-> | [-> | [-> | [-> | [-> | [-> | ->]]]]]]]]]]];
      destruct L; eval_literals; intros Hd; lia. }
  replace (146097 * a + 36524 * b + 1461 * c + 365 * e
           + (DAYS_BEFORE_MONTH m + (if (2 <? m) && L then 1 else 0)) + d)
    with (146097 * a + (36524 * b + (1461 * c + (365 * e + k))) + 1)
    by (subst k; lia).
  destruct Hk as [Hk | (Ek & EL & Em & Ed)].
  - rewrite ord2ymd_cycles by assumption. fold L.
    subst k. rewrite month_day_spec by assumption. reflexivity.
  - rewrite Ek, Em, Ed. apply ord2ymd_cycles_last; assumption.
Qed.

Lemma days_before_year_succ (y : Z) :
  days_before_year (y + 1)
  = days_before_year y + 365 + (if is_leap y then 1 else 0).
Proof.
  unfold days_before_year, is_leap. cbv zeta.
  replace (y + 1 - 1) with y by lia.
  destruct (Z.eqb_spec (y mod 4) 0); destruct (Z.eqb_spec (y mod 100) 0);
    destruct (Z.eqb_spec (y mod 400) 0); cbn [andb orb negb];
    Z.div_mod_to_equations; lia.
Qed.

Lemma days_before_year_mono (y1 y2 : Z) :
  y1 <= y2 -> days_before_year y1 <= days_before_year y2.
Proof.
  intros H. unfold days_before_year. cbv zeta.
  Z.div_mod_to_equations. lia.
Qed.

Lemma days_before_year_nonneg (y : Z) : 1 <= y -> 0 <= days_before_year y.
Proof.
  intros H. change 0 with (days_before_year 1).
  apply days_before_year_mono. exact H.
Qed.

Lemma days_in_month_range (y m : Z) :
  1 <= m <= 12 -> 28 <= days_in_month y m <= 31.
Proof.
  intros Hm. unfold days_in_month.
  assert (Hcases : m = 1 \/ m = 2 \/ m = 3 \/ m = 4 \/ m = 5 \/ m = 6 \/
                   m = 7 \/ m = 8 \/ m = 9 \/ m = 10 \/ m = 11 \/ m = 12)
    by lia.
  destruct Hcases as
    [-> | [-> | [-> | [-> | [-> | [-> | [-> | [-> | [-> | [-> | [-> | ->]]]]]]]]]]];
    destruct (is_leap y); eval_literals; lia.
Qed.

(** Day [dim + k] of a month is day [k] of the next one. *)
Lemma ymd2ord_next_month (y m k : Z) :
  1 <= m <= 12 ->
  ymd2ord y m (days_in_month y m + k)
  = let '(y', m') := next_month y m in ymd2ord y' m' k.
Proof.
  intros Hm. unfold next_month, ymd2ord, days_before_month, days_in_month.
  assert (Hcases : m = 1 \/ m = 2 \/ m = 3 \/ m = 4 \/ m = 5 \/ m = 6 \/
                   m = 7 \/ m = 8 \/ m = 9 \/ m = 10 \/ m = 11 \/ m = 12)
    by lia.
  destruct Hcases as
    [-> | [-> | [-> | [-> | [-> | [-> | [-> | [-> | [-> | [-> | [-> | ->]]]]]]]]]]];
    try (eval_literals;
         repeat match goal with
                | |- context [Z.pos ?a + 1] =>
                    let v := eval vm_compute in (Z.pos a + 1) in
                    change (Z.pos a + 1) with v
                end;
         eval_literals; destruct (is_leap y); eval_literals; lia).
  eval_literals. rewrite days_before_year_succ.
  destruct (is_leap y); eval_literals; destruct (is_leap (y + 1)); lia.
Qed.

(** The last day that [datetime] can hold is 9999-12-31. *)
Lemma ymd2ord_max (y m d : Z) :
  1 <= y <= 9999 -> 1 <= m <= 12 -> 1 <= d <= days_in_month y m ->
  1 <= ymd2ord y m d <= MAXORDINAL.
Proof.
  intros Hy Hm Hd.
  pose proof (days_before_year_nonneg (y := y) ltac:(lia)) as H0.
  pose proof (@days_before_year_mono (y + 1) 10000 ltac:(lia)) as H1.
  rewrite days_before_year_succ in H1.
  change (days_before_year 10000) with MAXORDINAL in H1.
  unfold ymd2ord, days_before_month, days_in_month in *.
  assert (Hcases : m = 1 \/ m = 2 \/ m = 3 \/ m = 4 \/ m = 5 \/ m = 6 \/
                   m = 7 \/ m = 8 \/ m = 9 \/ m = 10 \/ m = 11 \/ m = 12)
    by lia.
  clear Hm. revert Hd.
  destruct Hcases as
    [-> | [-> | [-> | [-> | [-> | [-> | [-> | [-> | [-> | [-> | [-> | ->]]]]]]]]]]];
    destruct (is_leap y); eval_literals; intros Hd; lia.
Qed.

(** Shifting a midnight by a whole number of seconds. *)
Lemma dt_shift_midnight (y m d us days secs : Z) (z : tzinfo) :
  ymd2ord y m d * 86400000000 + us = 86400000000 * days + 1000000 * secs ->
  0 <= secs < 86400 -> 1 <= days <= MAXORDINAL ->
  dt_shift (DateTime y m d 0 0 0 0 z) us
  = let '(y', m', d') := ord2ymd days in
    Ok (DateTime y' m' d' (secs / 3600) (secs mod 3600 / 60) (secs mod 60)
          0 z).
Proof.
  intros Htotal Hsecs Hdays. unfold dt_shift, dt_total.
  cbn [year month day hour minute second microsecond tz].
  replace ((ymd2ord y m d * 86400 + 0 * 3600 + 0 * 60 + 0) * 1000000 + 0 + us)
    with (86400000000 * days + (1000000 * secs + 0)) by lia.
  cbv zeta.
  rewrite (@div_cycle 86400000000), (@mod_cycle 86400000000) by lia.
  rewrite (@div_cycle 1000000), (@mod_cycle 1000000) by lia.
  replace (0 <? days) with true by (symmetry; apply Z.ltb_lt; lia).
  replace (days <=? MAXORDINAL) with true by (symmetry; apply Z.leb_le; lia).
  reflexivity.
Qed.

Lemma next_month_valid (y m : Z) :
  1 <= y <= 9999 -> 1 <= m <= 12 -> ~ (y = 9999 /\ m = 12) ->
  let '(y', m') := next_month y m in 1 <= y' <= 9999 /\ 1 <= m' <= 12.
Proof.
  intros Hy Hm Hlast. unfold next_month.
  destruct (Z.eqb_spec m 12); lia.
Qed.

Lemma get_default_date_range_value (clock : datetime) :
  1 <= year clock <= 9999 -> 1 <= month clock <= 12 ->
  ~ (year clock = 9999 /\ month clock = 12) ->
  get_default_date_range clock
  = Ok (isoformat (DateTime (year clock) (month clock) 1 0 0 0 0 (tz clock)),
        isoformat (DateTime (year clock) (month clock)
                     (days_in_month (year clock) (month clock))
                     23 59 59 0 (tz clock))).
Proof.
  destruct clock as [y m d0 h0 mi0 s0 us0 z].
  cbn [year month day hour minute second microsecond tz].
  intros Hy Hm Hlast.
  pose proof (days_in_month_range y Hm) as Hdim.
  pose proof (next_month_valid Hy Hm Hlast) as Hnext.
  pose proof (@ymd2ord_next_month y m (33 - days_in_month y m) Hm) as Hplus.
  pose proof (@ymd2ord_next_month y m 1 Hm) as Hfirst.
  destruct (next_month y m) as [y' m'] eqn:Enext.
  destruct Hnext as [Hy' Hm'].
  pose proof (days_in_month_range y' Hm') as Hdim'.
  replace (days_in_month y m + (33 - days_in_month y m)) with 33 in Hplus
    by lia.
  unfold get_default_date_range, dt_add, dt_sub, td_total.
  cbn [year month day hour minute second microsecond tz
       td_days td_seconds td_microseconds].
  rewrite (@dt_shift_midnight y m 1 _ (ymd2ord y' m' (33 - days_in_month y m))
             0 z).
  2:{ unfold ymd2ord in *. lia. }
  2: lia.
  2:{ apply ymd2ord_max; lia. }
  rewrite ord2ymd_ymd2ord by lia.
  change (0 / 3600) with 0. change (0 mod 3600 / 60) with 0.
  change (0 mod 60) with 0.
  cbn [year month day hour minute second microsecond tz].
  rewrite (@dt_shift_midnight y' m' 1 _
             (ymd2ord y m (days_in_month y m)) 86399 z).
  2:{ unfold ymd2ord in *. lia. }
  2: lia.
  2:{ apply ymd2ord_max; lia. }
  rewrite ord2ymd_ymd2ord by lia.
  reflexivity.
Qed.

(** ** Text *)

Lemma lstrip_blank (s : str) :
  Forall (fun c => isspace c = true) s -> lstrip s = [].
Proof.
  induction 1 as [| c s Hc _ IH]; [reflexivity |].
  cbn [lstrip]. rewrite Hc. exact IH.
Qed.

Lemma lstrip_blank_inv (s : str) :
  Forall (fun c => isspace c = true) (lstrip s) -> lstrip s = [].
Proof.
  induction s as [| c s IH]; [reflexivity |].
  cbn [lstrip]. destruct (isspace c) eqn:Hc; [exact IH |].
  intros H. inversion H. congruence.
Qed.

(** A stripped text made of white space is empty. *)
Lemma strip_blank_inv (s : str) :
  Forall (fun c => isspace c = true) (strip s) -> strip s = [].
Proof.
  unfold strip, rstrip. intros H.
  apply Forall_rev in H. rewrite rev_involutive in H.
  rewrite (lstrip_blank_inv _ H). reflexivity.
Qed.

(** Stripping a text made of white space leaves nothing. *)
Lemma strip_blank (s : str) :
  Forall (fun c => isspace c = true) s -> strip s = [].
Proof.
  intros H. unfold strip, rstrip. rewrite (lstrip_blank H). reflexivity.
Qed.

Lemma str_eqb_eq (a b : str) : str_eqb a b = true <-> a = b.
Proof.
  unfold str_eqb. destruct (str_eq_dec a b); split; congruence.
Qed.

Lemma eq_str_spec (v : value) (s : str) : eq_str v s = true <-> v = VStr s.
Proof.
  destruct v; cbn [eq_str]; try (split; [discriminate | discriminate]).
  rewrite str_eqb_eq. split; congruence.
Qed.

(** ISO 8601 text of a UTC midnight and of the last second of a day. *)
Lemma isoformat_midnight (y m d : Z) :
  isoformat (DateTime y m d 0 0 0 0 UTC)
  = zero_pad 4 y ++ lit "-" ++ zero_pad 2 m ++ lit "-" ++ zero_pad 2 d
    ++ lit "T00:00:00+00:00".
Proof.
  unfold isoformat. cbn [year month day hour minute second microsecond tz].
  repeat (apply (f_equal (app _))). reflexivity.
Qed.

Lemma isoformat_last_second (y m d : Z) :
  isoformat (DateTime y m d 23 59 59 0 UTC)
  = zero_pad 4 y ++ lit "-" ++ zero_pad 2 m ++ lit "-" ++ zero_pad 2 d
    ++ lit "T23:59:59+00:00".
Proof.
  unfold isoformat. cbn [year month day hour minute second microsecond tz].
  repeat (apply (f_equal (app _))). reflexivity.
Qed.

(** ** The command executor *)

Lemma run_exit0 (command : str) (st : state) (stdout stderr : bytes)
  (text : str) :
  shell (List.length (launched st)) command = Exited 0 stdout stderr ->
  decode stdout = inr text ->
  run_az_command command st = (Ok (Some (strip text)), after st command []).
Proof.
  intros Hshell Hdec. unfold run_az_command, bind, launch.
  rewrite Hshell. cbn [Z.eqb]. rewrite Hdec. unfold ret, after.
  cbn [launched console]. rewrite app_nil_r. reflexivity.
Qed.

Lemma run_exit0_undecodable (command : str) (st : state)
  (stdout stderr : bytes) (e : lib_exn) :
  shell (List.length (launched st)) command = Exited 0 stdout stderr ->
  decode stdout = inl e ->
  run_az_command command st
  = (Ok None, after st command [Line (error_occurred e)]).
Proof.
  intros Hshell Hdec. unfold run_az_command, bind, launch.
  rewrite Hshell. cbn [Z.eqb]. rewrite Hdec. reflexivity.
Qed.

Lemma run_nonzero (command : str) (st : state) (returncode : Z)
  (stdout stderr : bytes) (text : str) :
  shell (List.length (launched st)) command
  = Exited returncode stdout stderr ->
  returncode <> 0 ->
  decode stderr = inr text ->
  run_az_command command st
  = (Ok None,
     after st command
       [Line (error_running command); Line (error_message (strip text))]).
Proof.
  intros Hshell Hrc Hdec. unfold run_az_command, bind, launch.
  rewrite Hshell. apply Z.eqb_neq in Hrc. rewrite Hrc.
  unfold console_print. cbn [launched console]. rewrite Hdec.
  unfold ret, after. cbn [launched console].
  rewrite <- app_assoc. reflexivity.
Qed.

Lemma run_nonzero_undecodable (command : str) (st : state) (returncode : Z)
  (stdout stderr : bytes) (e : lib_exn) :
  shell (List.length (launched st)) command
  = Exited returncode stdout stderr ->
  returncode <> 0 ->
  decode stderr = inl e ->
  run_az_command command st
  = (Ok None,
     after st command [Line (error_running command); Line (error_occurred e)]).
Proof.
  intros Hshell Hrc Hdec. unfold run_az_command, bind, launch.
  rewrite Hshell. apply Z.eqb_neq in Hrc. rewrite Hrc.
  unfold console_print. cbn [launched console]. rewrite Hdec.
  unfold on_exception, bind, console_print, ret, after.
  cbn [launched console]. rewrite <- app_assoc. reflexivity.
Qed.

Lemma run_failed (command : str) (st : state) (e : lib_exn) :
  shell (List.length (launched st)) command = Failed e ->
  run_az_command command st
  = (Ok None, after st command [Line (error_occurred e)]).
Proof.
  intros Hshell. unfold run_az_command, bind, launch.
  rewrite Hshell. reflexivity.
Qed.

(** The executor never raises; it records the command and prints lines
    only. *)
Lemma run_az_command_effect (command : str) (st : state) :
  exists result lines,
    run_az_command command st = (Ok result, after st command lines)
    /\ forallb is_line lines = true.
Proof.
  destruct (shell (List.length (launched st)) command)
    as [rc out err | e] eqn:Hshell.
  - destruct (Z.eq_dec rc 0) as [-> | Hrc].
    + destruct (decode out) as [e | text] eqn:Hdec.
      * eexists _, _. split;
          [eapply run_exit0_undecodable; eassumption | reflexivity].
      * eexists _, _. split; [eapply run_exit0; eassumption | reflexivity].
    + destruct (decode err) as [e | text] eqn:Hdec.
      * eexists _, _. split;
          [eapply run_nonzero_undecodable; eassumption | reflexivity].
      * eexists _, _. split; [eapply run_nonzero; eassumption | reflexivity].
  - eexists _, _. split; [eapply run_failed; eassumption | reflexivity].
Qed.

Lemma run_some_inv (command : str) (st : state) (text : str) :
  fst (run_az_command command st) = Ok (Some text) ->
  exists stdout stderr raw,
    shell (List.length (launched st)) command = Exited 0 stdout stderr
    /\ decode stdout = inr raw /\ strip raw = text.
Proof.
  intros H.
  destruct (shell (List.length (launched st)) command)
    as [rc out err | e] eqn:Hshell.
  - destruct (Z.eq_dec rc 0) as [-> | Hrc].
    + destruct (decode out) as [e | raw] eqn:Hdec.
      * rewrite (run_exit0_undecodable _ Hshell Hdec) in H. discriminate.
      * rewrite (run_exit0 _ Hshell Hdec) in H. cbn [fst] in H.
        exists out, err, raw. repeat split; congruence.
    + destruct (decode err) as [e | raw] eqn:Hdec.
      * rewrite (run_nonzero_undecodable _ Hshell Hrc Hdec) in H.
        discriminate.
      * rewrite (run_nonzero _ Hshell Hrc Hdec) in H. discriminate.
  - rewrite (run_failed _ Hshell) in H. discriminate.
Qed.

(** ** The retrievers *)

Lemma parse_result_none (st : state) :
  parse_result None st = (Ok (VList []), st).
Proof. reflexivity. Qed.

Lemma parse_result_empty (st : state) :
  parse_result (Some []) st = (Ok (VList []), st).
Proof. reflexivity. Qed.

Lemma parse_result_text (text : str) (st : state) :
  text <> [] ->
  parse_result (Some text) st
  = match json_loads text with
    | inr v => (Ok v, st)
    | inl e => (Raise (Lib e), st)
    end.
Proof.
  intros H. unfold parse_result. destruct text as [| c text]; [congruence |].
  cbn [truthy]. destruct (json_loads (c :: text)); reflexivity.
Qed.

Lemma retrieve_blank (command : str) (st : state) :
  failed_or_blank command st -> fst (retrieve command st) = Ok (VList []).
Proof.
  intros H. unfold retrieve, bind.
  destruct (run_az_command_effect command st) as (r & lines & Hrun & _).
  assert (Hr : r = None \/ r = Some []).
  { destruct H as [H | [H | (out & err & text & Hshell & Hdec & Hblank)]].
    - rewrite Hrun in H. cbn [fst] in H. left. congruence.
    - destruct H as (text & H & Hblank).
      destruct (run_some_inv _ _ H) as (out & err & raw & _ & _ & <-).
      rewrite (strip_blank_inv _ Hblank) in H.
      rewrite Hrun in H. cbn [fst] in H. right.
      inversion H. reflexivity.
    - rewrite (run_exit0 _ Hshell Hdec) in Hrun.
      rewrite (strip_blank Hblank) in Hrun. right.
      inversion Hrun. reflexivity. }
  rewrite Hrun. destruct Hr as [-> | ->]; reflexivity.
Qed.

Lemma retrieve_printed (command : str) (st : state) (text : str) :
  printed command st text ->
  retrieve command st
  = match json_loads text with
    | inr v => (Ok v, after st command [])
    | inl e => (Raise (Lib e), after st command [])
    end.
Proof.
  intros (out & err & raw & Hshell & Hdec & Hstrip & Hne).
  unfold retrieve, bind. rewrite (run_exit0 _ Hshell Hdec).
  rewrite Hstrip. apply parse_result_text. exact Hne.
Qed.

Lemma retrieve_raises (command : str) (st : state) (x : exn) :
  fst (retrieve command st) = Raise x
  <-> exists text e,
        printed command st text /\ json_loads text = inl e /\ x = Lib e.
Proof.
  split.
  - intros H. unfold retrieve, bind in H.
    destruct (run_az_command_effect command st) as (r & lines & Hrun & _).
    pose proof (f_equal fst Hrun) as Hfst. cbn [fst] in Hfst.
    rewrite Hrun in H. destruct r as [text |]; [| discriminate].
    destruct text as [| c text]; [discriminate |].
    destruct (run_some_inv _ _ Hfst) as (out & err & raw & Hs & Hd & Hstrip).
    rewrite parse_result_text in H by discriminate.
    destruct (json_loads (c :: text)) as [e | v] eqn:Hjson;
      cbn [fst] in H; [| discriminate].
    exists (c :: text), e. split; [| split; [exact Hjson | congruence]].
    exists out, err, raw. repeat split; [assumption .. | discriminate].
  - intros (text & e & Hprinted & Hjson & ->).
    rewrite (retrieve_printed Hprinted), Hjson. reflexivity.
Qed.

(** The retriever launches its command and prints lines only. *)
Lemma retrieve_effect (command : str) (st : state) :
  exists r lines,
    retrieve command st = (r, after st command lines)
    /\ forallb is_line lines = true.
Proof.
  unfold retrieve, bind.
  destruct (run_az_command_effect command st) as (res & lines & Hrun & Hl).
  rewrite Hrun. unfold parse_result.
  destruct res as [text |]; [| eexists _, _; split; [reflexivity | exact Hl]].
  destruct (truthy (VStr text));
    [| eexists _, _; split; [reflexivity | exact Hl]].
  destruct (json_loads text);
    eexists _, _; (split; [reflexivity | exact Hl]).
Qed.

(** C1.  Whenever the command executor returns [None] or a string that is
    empty or made of white space, and whenever the command printed nothing
    or white space only, [get_subscriptions] and [get_snapshots] return
    the empty list: neither [None] nor an exception. *)
Theorem retrievers_empty_on_failure (st : state) (subscription_id : value)
  (start_date end_date : str) :
  (failed_or_blank subscriptions_command st ->
   fst (get_subscriptions st) = Ok (VList []))
  /\ (failed_or_blank
        (snapshot_command (py_str subscription_id) start_date end_date) st ->
      fst (get_snapshots subscription_id start_date end_date st)
      = Ok (VList [])).
Proof.
  split; intros H; exact (retrieve_blank H).
Qed.

(** C10.  When the command succeeds and its output parses, the retrievers
    hand back the parsed object as it is, whatever its type; when that
    object is not a list, neither is the result. *)
Theorem retrievers_return_parsed_value (st : state) (subscription_id : value)
  (start_date end_date text : str) (v : value) :
  json_loads text = inr v ->
  (printed subscriptions_command st text ->
   fst (get_subscriptions st) = Ok v
   /\ ((forall l, v <> VList l) ->
       forall l, fst (get_subscriptions st) <> Ok (VList l)))
  /\ (printed (snapshot_command (py_str subscription_id) start_date end_date)
        st text ->
      fst (get_snapshots subscription_id start_date end_date st) = Ok v
      /\ ((forall l, v <> VList l) ->
          forall l,
            fst (get_snapshots subscription_id start_date end_date st)
            <> Ok (VList l))).
Proof.
  intros Hjson.
  assert (Hany : forall command,
             printed command st text ->
             fst (retrieve command st) = Ok v
             /\ ((forall l, v <> VList l) ->
                 forall l, fst (retrieve command st) <> Ok (VList l))).
  { intros command H.
    assert (E : fst (retrieve command st) = Ok v)
      by (rewrite (retrieve_printed H), Hjson; reflexivity).
    split; [exact E |].
    intros Hv l Heq. rewrite E in Heq. apply (Hv l). congruence. }
  split; intros H; exact (Hany _ H).
Qed.

(** ** Table rows *)

Lemma summary_row_value (snapshot name time_created disk_state created_by
  : value) :
  subscript snapshot (lit "name") = Ok name ->
  subscript snapshot (lit "timeCreated") = Ok time_created ->
  subscript snapshot (lit "diskState") = Ok disk_state ->
  subscript snapshot (lit "createdBy") = Ok created_by ->
  summary_row snapshot
  = Ok [name; time_created; status disk_state; or_na created_by].
Proof.
  intros H1 H2 H3 H4. unfold summary_row, bind_res.
  rewrite H1, H2, H3, H4. reflexivity.
Qed.

Lemma detail_row_value (snapshot name resource_group time_created disk_size
  disk_state created_by : value) :
  subscript snapshot (lit "name") = Ok name ->
  subscript snapshot (lit "resourceGroup") = Ok resource_group ->
  subscript snapshot (lit "timeCreated") = Ok time_created ->
  subscript snapshot (lit "diskSizeGb") = Ok disk_size ->
  subscript snapshot (lit "diskState") = Ok disk_state ->
  subscript snapshot (lit "createdBy") = Ok created_by ->
  detail_row snapshot
  = Ok [name; resource_group; time_created; VStr (py_str disk_size);
        disk_state; or_na created_by].
Proof.
  intros H1 H2 H3 H4 H5 H6. unfold detail_row, bind_res.
  rewrite H1, H2, H3, H4, H5, H6. reflexivity.
Qed.

(** C6.  In a row of the summary table the Status cell is the text
    "Attached" exactly when the record's [diskState] equals "Attached",
    and the text "Unattached" for any other value: the raw state is never
    passed through. *)
Theorem summary_status_is_binary (snapshot name time_created disk_state
  created_by : value) :
  subscript snapshot (lit "name") = Ok name ->
  subscript snapshot (lit "timeCreated") = Ok time_created ->
  subscript snapshot (lit "diskState") = Ok disk_state ->
  subscript snapshot (lit "createdBy") = Ok created_by ->
  exists shown,
    summary_row snapshot
    = Ok [name; time_created; VStr shown; or_na created_by]
    /\ (shown = lit "Attached" <-> disk_state = VStr (lit "Attached"))
    /\ (disk_state <> VStr (lit "Attached") -> shown = lit "Unattached")
    /\ (shown = lit "Attached" \/ shown = lit "Unattached").
Proof.
  intros H1 H2 H3 H4. rewrite (summary_row_value snapshot H1 H2 H3 H4).
  unfold status.
  destruct (eq_str disk_state (lit "Attached")) eqn:E.
  - apply eq_str_spec in E. exists (lit "Attached").
    repeat split; auto. intros Hne. contradiction.
  - assert (Hne : disk_state <> VStr (lit "Attached")).
    { intros Heq. apply eq_str_spec in Heq. congruence. }
    exists (lit "Unattached"). repeat split; auto.
    + intros Habs. discriminate Habs.
    + intros Heq. contradiction.
Qed.

(** ** Date validation *)

(** C3.  When both answers parse as [%Y-%m-%d] dates, the window starts
    on the first date at 00:00:00 UTC and ends on the second at 23:59:59
    UTC, both in ISO 8601 and nothing is printed; when either fails to
    parse, both bounds are the defaults and the one line printed is the
    warning that the date format is invalid and that the default range of
    the current month is used. *)
Theorem validate_dates_window (start_date end_date default_start
  default_end : str) (st : state) :
  (forall d1 d2,
     strptime_Ymd start_date = Some d1 ->
     strptime_Ymd end_date = Some d2 ->
     validate_dates start_date end_date default_start default_end st
     = (Ok (zero_pad 4 (d_year d1) ++ lit "-" ++ zero_pad 2 (d_month d1)
            ++ lit "-" ++ zero_pad 2 (d_day d1) ++ lit "T00:00:00+00:00",
            zero_pad 4 (d_year d2) ++ lit "-" ++ zero_pad 2 (d_month d2)
            ++ lit "-" ++ zero_pad 2 (d_day d2) ++ lit "T23:59:59+00:00"),
        st))
  /\ (strptime_Ymd start_date = None \/ strptime_Ymd end_date = None ->
      validate_dates start_date end_date default_start default_end st
      = (Ok (default_start, default_end),
         State (launched st)
           (console st
            ++ [ Line (lit "[bold red]Invalid date format. Using default date range for the current month.[/bold red]") ]))).
Proof.
  split.
  - intros d1 d2 H1 H2. unfold validate_dates. rewrite H1, H2.
    rewrite isoformat_midnight, isoformat_last_second. reflexivity.
  - intros H. unfold validate_dates.
    destruct (strptime_Ymd start_date) as [d1 |];
      [destruct (strptime_Ymd end_date) as [d2 |] |]; try reflexivity.
    destruct H; discriminate.
Qed.

(** Validation prints at most the warning and launches nothing. *)
Lemma validate_dates_effect (start_date end_date default_start default_end
  : str) (st : state) :
  exists dates lines,
    validate_dates start_date end_date default_start default_end st
    = (Ok dates, State (launched st) (console st ++ lines))
    /\ forallb is_line lines = true.
Proof.
  unfold validate_dates.
  destruct (strptime_Ymd start_date) as [d1 |];
    [destruct (strptime_Ymd end_date) as [d2 |] |].
  - eexists _, []. rewrite app_nil_r. destruct st. split; reflexivity.
  - eexists _, [_]. split; reflexivity.
  - eexists _, [_]. split; reflexivity.
Qed.

(** ** The default range *)

(** C4, amended.  For every clock reading earlier than December 9999 the
    default range starts at 00:00:00 on the first day of the current UTC
    month and ends at 23:59:59 on the last day of the same month, whatever
    the length of the month: the day after that last day is the first of
    the next month, and the start is not after the end. *)
Theorem default_range_is_current_month (clock : datetime) :
  1 <= year clock <= 9999 -> 1 <= month clock <= 12 ->
  ~ (year clock = 9999 /\ month clock = 12) ->
  tz clock = UTC ->
  let y := year clock in
  let m := month clock in
  let last := days_in_month y m in
  let start_of_month := DateTime y m 1 0 0 0 0 UTC in
  let end_of_month := DateTime y m last 23 59 59 0 UTC in
  get_default_date_range clock
  = Ok (isoformat start_of_month, isoformat end_of_month)
  /\ isoformat start_of_month
     = zero_pad 4 y ++ lit "-" ++ zero_pad 2 m ++ lit "-01T00:00:00+00:00"
  /\ isoformat end_of_month
     = zero_pad 4 y ++ lit "-" ++ zero_pad 2 m ++ lit "-"
       ++ zero_pad 2 last ++ lit "T23:59:59+00:00"
  /\ 28 <= last <= 31
  /\ ord2ymd (ymd2ord y m last + 1)
     = (let '(y', m') := next_month y m in (y', m', 1))
  /\ dt_leb start_of_month end_of_month = true.
Proof.
  intros Hy Hm Hlast Htz. cbv zeta.
  pose proof (get_default_date_range_value clock Hy Hm Hlast) as Hvalue.
  set (y := year clock) in *. set (m := month clock) in *.
  pose proof (days_in_month_range y Hm) as Hrange.
  set (last := days_in_month y m) in *.
  split; [| split; [| split; [| split; [| split]]]].
  - rewrite Hvalue, Htz. reflexivity.
  - rewrite isoformat_midnight.
    repeat (apply (f_equal (app _))). reflexivity.
  - apply isoformat_last_second.
  - exact Hrange.
  - pose proof (next_month_valid Hy Hm Hlast) as Hvalid.
    fold y m in Hvalid.
    replace (ymd2ord y m last + 1) with (ymd2ord y m (days_in_month y m + 1))
      by (unfold ymd2ord, last; lia).
    rewrite ymd2ord_next_month by exact Hm.
    destruct (next_month y m) as [y' m'].
    destruct Hvalid as [Hy' Hm'].
    pose proof (days_in_month_range y' Hm') as Hrange'.
    apply (@ord2ymd_ymd2ord y' m' 1); lia.
  - apply Z.leb_le. unfold dt_total.
    cbn [year month day hour minute second microsecond]. unfold ymd2ord.
    lia.
Qed.

(** ** The run of [main] *)

Lemma mapM_ok {A B} (f : A -> res B) (l : list A) :
  Forall (fun a => exists b, f a = Ok b) l -> exists bs, mapM f l = Ok bs.
Proof.
  induction 1 as [| a l (b & Hb) _ (bs & IH)].
  - exists []. reflexivity.
  - exists (b :: bs). cbn [mapM]. unfold bind_res. rewrite Hb, IH.
    reflexivity.
Qed.

Lemma mapM_Forall2 {A B} (f : A -> res B) (l : list A) (bs : list B) :
  mapM f l = Ok bs -> Forall2 (fun a b => f a = Ok b) l bs.
Proof.
  revert bs. induction l as [| a l IH]; intros bs H; cbn [mapM] in H.
  - injection H as <-. constructor.
  - unfold bind_res in H. destruct (f a) as [b |] eqn:Hb; [| discriminate].
    destruct (mapM f l) as [bs' |]; [| discriminate].
    injection H as <-. constructor; [exact Hb | apply IH; reflexivity].
Qed.

Lemma wf_snapshot_rows (v : value) :
  wf_snapshot v ->
  (exists r, detail_row v = Ok r) /\ (exists r, summary_row v = Ok r).
Proof.
  intros (name & rg & tc & size & state & cb & H1 & H2 & H3 & H4 & H5 & H6).
  split; eexists.
  - exact (detail_row_value v H1 H2 H3 H4 H5 H6).
  - exact (summary_row_value v H1 H3 H5 H6).
Qed.

Lemma validate_dates_value (start_date end_date default_start default_end
  : str) (st st' : state) :
  fst (validate_dates start_date end_date default_start default_end st)
  = fst (validate_dates start_date end_date default_start default_end st').
Proof.
  unfold validate_dates.
  destruct (strptime_Ymd start_date); [destruct (strptime_Ymd end_date) |];
    reflexivity.
Qed.

(** [main] up to the listing of the subscriptions. *)
Lemma main_steps (default_start default_end : str) :
  get_default_date_range today = Ok (default_start, default_end) ->
  exists start_date end_date lines,
    forallb is_line lines = true
    /\ fst (validate_dates
              (ask (lit "Enter start date (YYYY-MM-DD)")
                 (prefix 10 default_start))
              (ask (lit "Enter end date (YYYY-MM-DD)")
                 (prefix 10 default_end))
              default_start default_end init)
       = Ok (start_date, end_date)
    /\ main init
       = bind get_subscriptions (main_tail start_date end_date)
           (State [] (Line welcome :: lines)).
Proof.
  intros Hdefault.
  destruct (validate_dates_effect
              (ask (lit "Enter start date (YYYY-MM-DD)")
                 (prefix 10 default_start))
              (ask (lit "Enter end date (YYYY-MM-DD)")
                 (prefix 10 default_end))
              default_start default_end (State [] [Line welcome]))
    as ([start_date end_date] & lines & Hv & Hlines).
  exists start_date, end_date, lines. split; [exact Hlines |]. split.
  - rewrite (validate_dates_value _ _ _ _ init (State [] [Line welcome])).
    rewrite Hv. reflexivity.
  - unfold main. unfold bind at 1. unfold console_print at 1.
    unfold bind at 1. unfold lift at 1. rewrite Hdefault.
    unfold bind at 1. cbn [launched console init app].
    rewrite Hv. reflexivity.
Qed.

Lemma bind_ok {A B} (c : M A) (k : A -> M B) (st st' : state) (a : A) :
  c st = (Ok a, st') -> bind c k st = k a st'.
Proof. intros H. unfold bind. rewrite H. reflexivity. Qed.

Lemma bind_raise {A B} (c : M A) (k : A -> M B) (st st' : state) (x : exn) :
  c st = (Raise x, st') -> bind c k st = (Raise x, st').
Proof. intros H. unfold bind. rewrite H. reflexivity. Qed.

Lemma bind_lift_ok {A B} (r : res A) (k : A -> M B) (st : state) (a : A) :
  r = Ok a -> bind (lift r) k st = k a st.
Proof. intros ->. reflexivity. Qed.

Lemma bind_print {B} (r : renderable) (k : unit -> M B) (st : state) :
  bind (console_print r) k st
  = k tt (State (launched st) (console st ++ [r])).
Proof. reflexivity. Qed.

Lemma get_snapshots_retrieve (subscription_id : value)
  (start_date end_date : str) :
  get_snapshots subscription_id start_date end_date
  = retrieve (snapshot_command (py_str subscription_id) start_date end_date).
Proof. reflexivity. Qed.

(** ** Further properties of the script *)

Lemma lstrip_head (s : str) (c : N) (r : str) :
  lstrip s = c :: r -> isspace c = false.
Proof.
  induction s as [| a s IH]; cbn [lstrip]; [discriminate |].
  destruct (isspace a) eqn:Ha; [exact IH |].
  intros H. injection H as <- _. exact Ha.
Qed.

Lemma lstrip_fixed (s : str) :
  (forall c r, s = c :: r -> isspace c = false) -> lstrip s = s.
Proof.
  destruct s as [| a s]; [reflexivity |].
  intros H. cbn [lstrip]. rewrite (H a s eq_refl). reflexivity.
Qed.

Lemma lstrip_suffix (s : str) : exists ws, s = ws ++ lstrip s.
Proof.
  induction s as [| a s (ws & IH)]; [exists []; reflexivity |].
  cbn [lstrip]. destruct (isspace a).
  - exists (a :: ws). cbn [app]. rewrite <- IH. reflexivity.
  - exists []. reflexivity.
Qed.

Lemma rstrip_prefix (s : str) : exists ws, s = rstrip s ++ ws.
Proof.
  unfold rstrip. destruct (lstrip_suffix (rev s)) as (ws & H).
  exists (rev ws). rewrite <- rev_app_distr, <- H, rev_involutive.
  reflexivity.
Qed.

Lemma rstrip_last (s front : str) (c : N) :
  rstrip s = front ++ [c] -> isspace c = false.
Proof.
  unfold rstrip. intros H. apply (f_equal (@rev N)) in H.
  rewrite rev_involutive, rev_app_distr in H. cbn [rev app] in H.
  exact (lstrip_head _ H).
Qed.

Lemma strip_head (s : str) (c : N) (r : str) :
  strip s = c :: r -> isspace c = false.
Proof.
  unfold strip. intros H.
  destruct (rstrip_prefix (lstrip s)) as (ws & Hws).
  rewrite H in Hws. cbn [app] in Hws. exact (lstrip_head _ Hws).
Qed.

Lemma strip_last (s front : str) (c : N) :
  strip s = front ++ [c] -> isspace c = false.
Proof.
  unfold strip. apply rstrip_last.
Qed.

Lemma strip_fixed (t : str) :
  (forall c r, t = c :: r -> isspace c = false) ->
  (forall c front, t = front ++ [c] -> isspace c = false) ->
  strip t = t.
Proof.
  intros Hhead Hlast. unfold strip. rewrite (lstrip_fixed Hhead).
  unfold rstrip. rewrite lstrip_fixed; [apply rev_involutive |].
  intros c r H. apply (f_equal (@rev N)) in H.
  rewrite rev_involutive in H. cbn [rev] in H. exact (Hlast c (rev r) H).
Qed.

(** X1.  No exception of the child process or of the decoding of its
    output leaves [run_az_command] ([console.print] itself is taken not to
    fail).  Whatever the child process does, the command is recorded as
    launched, at most two lines and no table are printed, and something
    is printed exactly when the result is [None]. *)
Theorem run_az_command_never_raises (command : str) (st : state) :
  exists result lines,
    run_az_command command st
    = (Ok result,
       State (launched st ++ [command]) (console st ++ lines))
    /\ forallb is_line lines = true
    /\ (List.length lines <= 2)%nat
    /\ (result = None <-> lines <> []).
Proof.
  destruct (shell (List.length (launched st)) command)
    as [rc out err | e] eqn:Hshell.
  - destruct (Z.eq_dec rc 0) as [-> | Hrc].
    + destruct (decode out) as [e | text] eqn:Hdec.
      * eexists _, _. split; [exact (run_exit0_undecodable _ Hshell Hdec) |].
        cbn. repeat split; try lia; discriminate.
      * eexists _, _. split; [exact (run_exit0 _ Hshell Hdec) |].
        cbn. repeat split; try lia; try discriminate. congruence.
    + destruct (decode err) as [e | text] eqn:Hdec.
      * eexists _, _.
        split; [exact (run_nonzero_undecodable _ Hshell Hrc Hdec) |].
        cbn. repeat split; try lia; discriminate.
      * eexists _, _. split; [exact (run_nonzero _ Hshell Hrc Hdec) |].
        cbn. repeat split; try lia; discriminate.
  - eexists _, _. split; [exact (run_failed _ Hshell) |].
    cbn. repeat split; try lia; discriminate.
Qed.

(** X2.  A text returned by [run_az_command] is stripped: it neither
    starts nor ends with white space, and stripping it again changes
    nothing. *)
Theorem run_az_command_result_is_stripped (command : str) (st : state)
  (text : str) :
  fst (run_az_command command st) = Ok (Some text) ->
  strip text = text
  /\ (forall c rest, text = c :: rest -> isspace c = false)
  /\ (forall c front, text = front ++ [c] -> isspace c = false).
Proof.
  intros H.
  destruct (run_some_inv _ _ H) as (out & err & raw & _ & _ & <-).
  assert (Hhead : forall c rest, strip raw = c :: rest -> isspace c = false)
    by (intros c rest; apply strip_head).
  assert (Hlast : forall c front,
             strip raw = front ++ [c] -> isspace c = false)
    by (intros c front; apply strip_last).
  split; [exact (strip_fixed Hhead Hlast) |]. split; assumption.
Qed.


Lemma subscript_raise (v : value) (key : str) (x : exn) :
  subscript v key = Raise x -> x = KeyError key \/ x = TypeError v.
Proof.
  unfold subscript.
  destruct v as [| b | z | f | s | l | d];
    try (intros H; injection H as <-; right; reflexivity).
  destruct (lookup key d); [discriminate |].
  intros H. injection H as <-. left. reflexivity.
Qed.

Lemma iterate_raise (v : value) (x : exn) :
  iterate v = Raise x -> x = TypeError v.
Proof.
  destruct v; cbn [iterate]; try discriminate;
    intros H; injection H as <-; reflexivity.
Qed.

Lemma mapM_raise {A B} (f : A -> res B) (l : list A) (x : exn) :
  mapM f l = Raise x -> exists a, In a l /\ f a = Raise x.
Proof.
  induction l as [| a l IH]; cbn [mapM]; [discriminate |].
  unfold bind_res. destruct (f a) as [b | y] eqn:Ha.
  - destruct (mapM f l) as [bs | y]; [discriminate |].
    intros H. destruct (IH H) as (a' & Hin & Ha').
    exists a'. split; [right; exact Hin | exact Ha'].
  - intros H. injection H as <-. exists a. split; [left; reflexivity | exact Ha].
Qed.

(** A field that cannot be read raises [KeyError] with its name or
    [TypeError]. *)
Lemma field_raise (v : value) (key : str) (x : exn) (fields : list str) :
  In key fields ->
  subscript v key = Raise x ->
  (exists k, x = KeyError k /\ In k fields)
  \/ (exists culprit, x = TypeError culprit).
Proof.
  intros Hin H. destruct (subscript_raise _ _ H) as [-> | ->].
  - left. exists key. split; [reflexivity | exact Hin].
  - right. exists v. reflexivity.
Qed.

Lemma detail_row_raise (snapshot : value) (x : exn) :
  detail_row snapshot = Raise x ->
  (exists key, x = KeyError key /\ In key detail_fields)
  \/ (exists culprit, x = TypeError culprit).
Proof.
  unfold detail_row, bind_res. intros H.
  repeat
    match type of H with
    | match subscript snapshot ?key with _ => _ end = _ =>
        let Hkey := fresh "Hkey" in
        destruct (subscript snapshot key) eqn:Hkey;
        [| injection H as <-;
           apply (field_raise snapshot key detail_fields);
           [unfold detail_fields; cbn [In];
            repeat (try (left; reflexivity); right)
           | exact Hkey]]
    end.
  discriminate.
Qed.

Lemma summary_row_raise (snapshot : value) (x : exn) :
  summary_row snapshot = Raise x ->
  (exists key, x = KeyError key /\ In key detail_fields)
  \/ (exists culprit, x = TypeError culprit).
Proof.
  unfold summary_row, bind_res. intros H.
  repeat
    match type of H with
    | match subscript snapshot ?key with _ => _ end = _ =>
        let Hkey := fresh "Hkey" in
        destruct (subscript snapshot key) eqn:Hkey;
        [| injection H as <-;
           apply (field_raise snapshot key detail_fields);
           [unfold detail_fields; cbn [In];
            repeat (try (left; reflexivity); right)
           | exact Hkey]]
    end.
  discriminate.
Qed.

Lemma detail_row_inv (snapshot : value) (row : list value) :
  detail_row snapshot = Ok row -> wf_snapshot snapshot.
Proof.
  intros H. unfold detail_row, bind_res in H.
  destruct (subscript snapshot (lit "name")) as [a1 |] eqn:H1;
    [| discriminate].
  destruct (subscript snapshot (lit "resourceGroup")) as [a2 |] eqn:H2;
    [| discriminate].
  destruct (subscript snapshot (lit "timeCreated")) as [a3 |] eqn:H3;
    [| discriminate].
  destruct (subscript snapshot (lit "diskSizeGb")) as [a4 |] eqn:H4;
    [| discriminate].
  destruct (subscript snapshot (lit "diskState")) as [a5 |] eqn:H5;
    [| discriminate].
  destruct (subscript snapshot (lit "createdBy")) as [a6 |] eqn:H6;
    [| discriminate].
  exists a1, a2, a3, a4, a5, a6. repeat split; assumption.
Qed.

Lemma subscript_dict (d : list (str * value)) (key : str) :
  subscript (VDict d) key
  = match lookup key d with
    | Some x => Ok x
    | None => Raise (KeyError key)
    end.
Proof. reflexivity. Qed.

Lemma subscript_other (v : value) (key : str) :
  (forall d, v <> VDict d) -> subscript v key = Raise (TypeError v).
Proof.
  intros H. destruct v; try reflexivity. exfalso. exact (H _ eq_refl).
Qed.

(** X5.  A row of the detail table needs all six fields of the record.
    [detail_row] succeeds exactly on the records whose six fields can be
    read; on a dict it raises [KeyError] for the first field, in the order
    name, resourceGroup, timeCreated, diskSizeGb, diskState, createdBy,
    that is missing; on anything that is not a dict it raises
    [TypeError]. *)
Theorem detail_row_needs_six_fields (snapshot : value) :
  ((exists row, detail_row snapshot = Ok row) <-> wf_snapshot snapshot)
  /\ (forall d before key rest,
        snapshot = VDict d ->
        detail_fields = before ++ key :: rest ->
        Forall (fun k => lookup k d <> None) before ->
        lookup key d = None ->
        detail_row snapshot = Raise (KeyError key))
  /\ ((forall d, snapshot <> VDict d) ->
      detail_row snapshot = Raise (TypeError snapshot)).
Proof.
  split; [split |].
  - intros (row & H). exact (detail_row_inv _ H).
  - intros H. exact (proj1 (wf_snapshot_rows H)).
  - split.
    + intros d before key rest -> Hfields Hbefore Hkey.
      assert (Hread : forall k, lookup k d <> None ->
                exists x, subscript (VDict d) k = Ok x).
      { intros k Hk. rewrite subscript_dict.
        destruct (lookup k d) as [x |]; [exists x; reflexivity | congruence]. }
      assert (Hmiss : subscript (VDict d) key = Raise (KeyError key))
        by (rewrite subscript_dict, Hkey; reflexivity).
      unfold detail_fields in Hfields. unfold detail_row, bind_res.
      repeat
        (destruct before as [| k before];
         [ cbn [app] in Hfields; injection Hfields as <- _;
           rewrite Hmiss; reflexivity
         | cbn [app] in Hfields; injection Hfields as <- Hfields;
           let Hk := fresh "Hk" in
           let x := fresh "x" in
           let Hx := fresh "Hx" in
           pose proof (Forall_inv Hbefore) as Hk;
           apply Forall_inv_tail in Hbefore;
           destruct (Hread _ Hk) as (x & Hx); rewrite Hx ]).
      destruct before; discriminate.
    + intros H. unfold detail_row, bind_res.
      rewrite (subscript_other _ H). reflexivity.
Qed.


(** X6.  [get_default_date_range] fails in one month only: for a clock
    reading in the years 1 to 9999 it raises [OverflowError] exactly in
    December 9999.  [main] does not catch it: in that month the run ends
    with the exception right after the welcome line, before any prompt is
    validated and before any command is launched. *)
Theorem default_range_fails_only_in_december_9999 :
  1 <= year today <= 9999 -> 1 <= month today <= 12 ->
  (get_default_date_range today = Raise OverflowError
   <-> year today = 9999 /\ month today = 12)
  /\ ((exists range, get_default_date_range today = Ok range)
      <-> ~ (year today = 9999 /\ month today = 12))
  /\ (year today = 9999 /\ month today = 12 ->
      main init = (Raise OverflowError, State [] [Line welcome])).
Proof.
  intros Hy Hm.
  assert (Hlast : year today = 9999 /\ month today = 12 ->
                  get_default_date_range today = Raise OverflowError).
  { destruct today as [y m d0 h0 mi0 s0 us0 z].
    cbn [year month]. intros [-> ->]. vm_compute. reflexivity. }
  split; [| split].
  - split; [| exact Hlast].
    intros H.
    destruct (Z.eq_dec (year today) 9999) as [Ey | Ey];
      [destruct (Z.eq_dec (month today) 12) as [Em | Em];
       [exact (conj Ey Em) |] |];
      rewrite get_default_date_range_value in H by lia; discriminate.
  - split.
    + intros (range & H) Hdec. rewrite (Hlast Hdec) in H. discriminate.
    + intros H. eexists. exact (get_default_date_range_value today Hy Hm H).
  - intros Hdec. unfold main. unfold bind at 1. unfold console_print at 1.
    unfold bind at 1. unfold lift at 1. rewrite (Hlast Hdec). reflexivity.
Qed.

Lemma zero_pad_4_length (y : Z) :
  0 <= y <= 9999 -> List.length (zero_pad 4 y) = 4%nat.
Proof.
  intros H.
  assert (Hall : forallb
                   (fun n =>
                      Nat.eqb (List.length (zero_pad 4 (Z.of_nat n))) 4)
                   (seq 0 (Z.to_nat 10000)) = true)
    by (vm_compute; reflexivity).
  rewrite forallb_forall in Hall.
  specialize (Hall (Z.to_nat y)). rewrite Z2Nat.id in Hall by lia.
  apply Nat.eqb_eq, Hall, in_seq. lia.
Qed.

Lemma zero_pad_2_length (m : Z) :
  0 <= m <= 99 -> List.length (zero_pad 2 m) = 2%nat.
Proof.
  intros H.
  assert (Hall : forallb
                   (fun n =>
                      Nat.eqb (List.length (zero_pad 2 (Z.of_nat n))) 2)
                   (seq 0 (Z.to_nat 100)) = true)
    by (vm_compute; reflexivity).
  rewrite forallb_forall in Hall.
  specialize (Hall (Z.to_nat m)). rewrite Z2Nat.id in Hall by lia.
  apply Nat.eqb_eq, Hall, in_seq. lia.
Qed.

Lemma prefix_exact (l r : str) (n : nat) :
  List.length l = n -> prefix n (l ++ r) = l.
Proof.
  intros <-. unfold prefix.
  rewrite firstn_app, Nat.sub_diag, firstn_all, firstn_O.
  apply app_nil_r.
Qed.

(** The first ten characters of an ISO 8601 text are its date. *)
Lemma isoformat_date_part (t : datetime) :
  0 <= year t <= 9999 -> 0 <= month t <= 99 -> 0 <= day t <= 99 ->
  prefix 10 (isoformat t)
  = zero_pad 4 (year t) ++ lit "-" ++ zero_pad 2 (month t) ++ lit "-"
    ++ zero_pad 2 (day t).
Proof.
  intros Hy Hm Hd. unfold isoformat.
  set (time := lit "T" ++ _).
  replace (zero_pad 4 (year t) ++ lit "-" ++ zero_pad 2 (month t) ++ lit "-"
           ++ zero_pad 2 (day t) ++ time)
    with ((zero_pad 4 (year t) ++ lit "-" ++ zero_pad 2 (month t) ++ lit "-"
           ++ zero_pad 2 (day t)) ++ time)
    by (rewrite <- !app_assoc; reflexivity).
  apply prefix_exact.
  rewrite !length_app, (zero_pad_4_length Hy), (zero_pad_2_length Hm),
    (zero_pad_2_length Hd).
  reflexivity.
Qed.

(** X7.  The defaults offered at the two prompts are the date parts of
    the default range, [YYYY-MM-01] and [YYYY-MM-DD] with the last day of
    the month, zero-padded.  A user who accepts both gets exactly the
    default range back from the validation, without a warning, provided
    [strptime] reads the two dates as written. *)
Theorem accepting_defaults_keeps_default_range (clock : datetime)
  (st : state) :
  1 <= year clock <= 9999 -> 1 <= month clock <= 12 ->
  ~ (year clock = 9999 /\ month clock = 12) ->
  tz clock = UTC ->
  let y := year clock in
  let m := month clock in
  let last := days_in_month y m in
  exists default_start default_end,
    get_default_date_range clock = Ok (default_start, default_end)
    /\ prefix 10 default_start
       = zero_pad 4 y ++ lit "-" ++ zero_pad 2 m ++ lit "-" ++ zero_pad 2 1
    /\ prefix 10 default_end
       = zero_pad 4 y ++ lit "-" ++ zero_pad 2 m ++ lit "-"
         ++ zero_pad 2 last
    /\ (strptime_Ymd (prefix 10 default_start) = Some (Date y m 1) ->
        strptime_Ymd (prefix 10 default_end) = Some (Date y m last) ->
        validate_dates (prefix 10 default_start) (prefix 10 default_end)
          default_start default_end st
        = (Ok (default_start, default_end), st)).
Proof.
  intros Hy Hm Hlast Htz. cbv zeta.
  pose proof (days_in_month_range (year clock) Hm) as Hdim.
  rewrite (get_default_date_range_value clock Hy Hm Hlast), Htz.
  eexists _, _. split; [reflexivity |].
  split; [| split].
  - rewrite isoformat_date_part;
      cbn [year month day]; [reflexivity | lia ..].
  - rewrite isoformat_date_part;
      cbn [year month day]; [reflexivity | lia ..].
  - intros Hstart Hend. unfold validate_dates.
    rewrite Hstart, Hend. reflexivity.
Qed.


(** ** The commands of a run *)

Lemma bind_lift_raise {A B} (k : A -> M B) (st : state) (x : exn) :
  bind (lift (Raise x)) k st = (Raise x, st).
Proof. reflexivity. Qed.

(** What the executor returns depends on the state only through the
    number of commands launched before. *)
Lemma run_az_command_value (command : str) (st st' : state) :
  List.length (launched st) = List.length (launched st') ->
  fst (run_az_command command st) = fst (run_az_command command st').
Proof.
  intros H. unfold run_az_command, bind, launch. rewrite H.
  destruct (shell (List.length (launched st')) command)
    as [rc out err | e]; [| reflexivity].
  destruct (rc =? 0).
  - destruct (decode out); reflexivity.
  - unfold console_print. destruct (decode err); reflexivity.
Qed.

Lemma retrieve_value (command : str) (st st' : state) :
  List.length (launched st) = List.length (launched st') ->
  fst (retrieve command st) = fst (retrieve command st').
Proof.
  intros H. pose proof (run_az_command_value command st st' H) as Hrun.
  unfold retrieve, bind.
  destruct (run_az_command_effect command st) as (r & lines & Hr & _).
  destruct (run_az_command_effect command st') as (r' & lines' & Hr' & _).
  rewrite Hr, Hr' in Hrun. cbn [fst] in Hrun. injection Hrun as <-.
  rewrite Hr, Hr'. unfold parse_result.
  destruct r as [text |]; [| reflexivity].
  destruct (truthy (VStr text)); [| reflexivity].
  destruct (json_loads text); reflexivity.
Qed.

Lemma display_snapshots_launched (snapshots name : value) (st : state) :
  launched (snd (display_snapshots snapshots name st)) = launched st.
Proof.
  unfold display_snapshots.
  destruct (truthy snapshots); cbn [negb]; [| reflexivity].
  unfold bind, lift. destruct (iterate snapshots); [| reflexivity].
  destruct (mapM detail_row _); reflexivity.
Qed.

(** The loop launches one snapshot query per subscription, in order, for
    as long as it runs; all of them carry the same two dates. *)
Lemma search_subscriptions_launches (subscriptions : list value) :
  forall (start_date end_date : str) (all_snapshots : list value)
         (st : state),
  exists ids,
    launched
      (snd (search_subscriptions subscriptions start_date end_date
              all_snapshots st))
    = launched st
      ++ map (fun id => snapshot_command (py_str id) start_date end_date)
           ids
    /\ Forall2 (fun subscription id =>
                  subscript subscription (lit "id") = Ok id)
         (firstn (List.length ids) subscriptions) ids
    /\ (forall all,
          fst (search_subscriptions subscriptions start_date end_date
                 all_snapshots st) = Ok all ->
          List.length ids = List.length subscriptions).
Proof.
  induction subscriptions as [| sub subs IH]; intros s e acc st.
  - exists []. cbn [search_subscriptions ret snd fst map List.length firstn].
    rewrite app_nil_r. repeat split. constructor.
  - cbn [search_subscriptions].
    destruct (subscript sub (lit "name")) as [name | x] eqn:Hname.
    2:{ rewrite bind_lift_raise. exists [].
        cbn [snd fst map List.length firstn]. rewrite app_nil_r.
        repeat split; [constructor | discriminate]. }
    rewrite bind_lift_ok with (a := name) by reflexivity.
    rewrite bind_print.
    destruct (subscript sub (lit "id")) as [id | x] eqn:Hid.
    2:{ rewrite bind_lift_raise. exists [].
        cbn [snd fst map List.length firstn launched]. rewrite app_nil_r.
        repeat split; [constructor | discriminate]. }
    rewrite bind_lift_ok with (a := id) by reflexivity.
    rewrite get_snapshots_retrieve.
    destruct (retrieve_effect (snapshot_command (py_str id) s e)
                (State (launched st)
                   (console st ++ [Line (searching_line name)])))
      as (r & errors & Hr & _).
    unfold after in Hr. cbn [launched console] in Hr.
    assert (Hone : Forall2 (fun subscription id =>
                              subscript subscription (lit "id") = Ok id)
                     (firstn (List.length [id]) (sub :: subs)) [id])
      by (cbn [List.length firstn]; constructor; [exact Hid | constructor]).
    destruct r as [v | x].
    2:{ rewrite (@bind_raise _ _ _ _ _ _ _ Hr). exists [id].
        cbn [snd fst map launched].
        repeat split; [exact Hone | discriminate]. }
    rewrite (@bind_ok _ _ _ _ _ _ _ Hr).
    rewrite bind_lift_ok with (a := name) by reflexivity.
    match goal with
    | |- context [bind (display_snapshots v name) ?k ?st2] =>
        pose proof (display_snapshots_launched v name st2) as Hl;
        destruct (display_snapshots v name st2) as [[[] | x] st3] eqn:Hd
    end.
    2:{ rewrite (@bind_raise _ _ _ _ _ _ _ Hd). exists [id].
        cbn [snd fst map launched] in *. rewrite Hl.
        repeat split; [exact Hone | discriminate]. }
    rewrite (@bind_ok _ _ _ _ _ _ _ Hd).
    cbn [snd launched] in Hl.
    destruct (iterate v) as [items | x].
    2:{ rewrite bind_lift_raise. exists [id].
        cbn [snd fst map]. rewrite Hl.
        repeat split; [exact Hone | discriminate]. }
    rewrite bind_lift_ok with (a := items) by reflexivity.
    destruct (IH s e (acc ++ items) st3) as (ids & Hlaunched & Hids & Hall).
    exists (id :: ids). split; [| split].
    + rewrite Hlaunched, Hl. cbn [map]. rewrite <- app_assoc. reflexivity.
    + cbn [List.length firstn]. constructor; [exact Hid | exact Hids].
    + intros all H. cbn [List.length]. rewrite (Hall all H). reflexivity.
Qed.

Lemma get_subscriptions_retrieve :
  get_subscriptions = retrieve subscriptions_command.
Proof. reflexivity. Qed.

(** X8.  The commands of a run.  [main] launches nothing when the default
    range cannot be computed.  Otherwise it launches the account listing
    first and after it snapshot queries only, all with the one validated
    date window: one per listed subscription, in the order of the
    listing, for as long as the run lasts, and for every subscription
    when the run completes.  No query is launched unless the listing
    returned a truthy value. *)
Theorem main_launches_listing_then_queries :
  (forall x,
     get_default_date_range today = Raise x ->
     launched (snd (main init)) = [])
  /\ (forall default_start default_end,
        get_default_date_range today = Ok (default_start, default_end) ->
        exists start_date end_date ids,
          fst (validate_dates
                 (ask (lit "Enter start date (YYYY-MM-DD)")
                    (prefix 10 default_start))
                 (ask (lit "Enter end date (YYYY-MM-DD)")
                    (prefix 10 default_end))
                 default_start default_end init)
          = Ok (start_date, end_date)
          /\ launched (snd (main init))
             = subscriptions_command
               :: map (fun id =>
                         snapshot_command (py_str id) start_date end_date)
                    ids
          /\ (ids <> [] ->
              exists subscriptions,
                fst (get_subscriptions init) = Ok subscriptions
                /\ truthy subscriptions = true)
          /\ (forall subscriptions items,
                fst (get_subscriptions init) = Ok subscriptions ->
                truthy subscriptions = true ->
                iterate subscriptions = Ok items ->
                Forall2 (fun subscription id =>
                           subscript subscription (lit "id") = Ok id)
                  (firstn (List.length ids) items) ids
                /\ (fst (main init) = Ok tt ->
                    List.length ids = List.length items))).
Proof.
  split.
  - intros x H. unfold main. unfold bind at 1. unfold console_print at 1.
    unfold bind at 1. unfold lift at 1. rewrite H. reflexivity.
  - intros ds de Hdefault.
    destruct (main_steps Hdefault) as (s & e & lines & _ & Hdates & Hmain).
    exists s, e. rewrite Hmain. clear Hmain.
    set (st0 := State [] (Line welcome :: lines)).
    assert (Hvalue : fst (get_subscriptions st0) = fst (get_subscriptions init))
      by (rewrite get_subscriptions_retrieve; apply retrieve_value;
          reflexivity).
    rewrite get_subscriptions_retrieve in *.
    destruct (retrieve_effect subscriptions_command st0)
      as (r & errors & Hr & _).
    unfold after in Hr. cbn [launched console st0 app] in Hr.
    rewrite Hr in Hvalue. cbn [fst] in Hvalue. rewrite <- Hvalue.
    assert (Hnone : forall (result : res unit) (st' : state),
              launched st' = [subscriptions_command] ->
              (forall v, r = Ok v -> truthy v = true ->
               forall items, iterate v = Ok items -> False) ->
              exists ids,
                fst (validate_dates
                       (ask (lit "Enter start date (YYYY-MM-DD)")
                          (prefix 10 ds))
                       (ask (lit "Enter end date (YYYY-MM-DD)")
                          (prefix 10 de))
                       ds de init)
                = Ok (s, e)
                /\ launched (snd (result, st'))
                   = subscriptions_command
                     :: map (fun id => snapshot_command (py_str id) s e) ids
                /\ (ids <> [] ->
                    exists subscriptions,
                      r = Ok subscriptions /\ truthy subscriptions = true)
                /\ (forall subscriptions items,
                      r = Ok subscriptions ->
                      truthy subscriptions = true ->
                      iterate subscriptions = Ok items ->
                      Forall2 (fun subscription id =>
                                 subscript subscription (lit "id") = Ok id)
                        (firstn (List.length ids) items) ids
                      /\ (fst (result, st') = Ok tt ->
                          List.length ids = List.length items))).
    { intros result st' Hst' Hno. exists [].
      split; [exact Hdates |]. split; [exact Hst' |].
      split; [congruence |].
      intros v items Hv Ht Hi. destruct (Hno v Hv Ht items Hi). }
    destruct r as [v | x].
    2:{ rewrite (@bind_raise _ _ _ _ _ _ _ Hr).
        apply Hnone; [reflexivity | discriminate]. }
    rewrite (@bind_ok _ _ _ _ _ _ _ Hr). unfold main_tail.
    destruct (truthy v) eqn:Htruthy; cbn [negb].
    2:{ apply Hnone; [reflexivity |].
        intros v' Hv' Ht. injection Hv' as <-. congruence. }
    destruct (iterate v) as [items | x] eqn:Hitems.
    2:{ rewrite bind_lift_raise. apply Hnone; [reflexivity |].
        intros v' Hv' _ items Hi. injection Hv' as <-. congruence. }
    clear Hnone.
    rewrite bind_lift_ok with (a := items) by reflexivity.
    match goal with
    | |- context [bind (search_subscriptions items s e []) ?k ?st1] =>
        destruct (search_subscriptions_launches items s e [] st1)
          as (ids & Hlaunched & Hids & Hall);
        destruct (search_subscriptions items s e [] st1)
          as [[all | x] st2] eqn:Hloop
    end;
      cbn [snd fst launched app] in Hlaunched, Hall; exists ids.
    + rewrite (@bind_ok _ _ _ _ _ _ _ Hloop).
      assert (Hfinal :
                forall result : res unit * state,
                  launched (snd result) = launched st2 ->
                  launched (snd result)
                  = subscriptions_command
                    :: map (fun id => snapshot_command (py_str id) s e) ids)
        by (intros result ->; exact Hlaunched).
      split; [exact Hdates |]. split.
      * apply Hfinal. unfold bind, lift.
        destruct (mapM summary_row all); reflexivity.
      * split; [intros _; exists v; split; [reflexivity | exact Htruthy] |].
        intros v' items' Hv' _ Hi. injection Hv' as <-.
        rewrite Hitems in Hi. injection Hi as <-.
        split; [exact Hids |]. intros _. exact (Hall all eq_refl).
    + rewrite (@bind_raise _ _ _ _ _ _ _ Hloop). cbn [snd fst].
      split; [exact Hdates |]. split; [exact Hlaunched |].
      split; [intros _; exists v; split; [reflexivity | exact Htruthy] |].
      intros v' items' Hv' _ Hi. injection Hv' as <-.
      rewrite Hitems in Hi. injection Hi as <-.
      split; [exact Hids | discriminate].
Qed.



(** ** What the loop gathers *)

(** What [display_snapshots] has shown without an exception is made of
    records with the six fields. *)
Lemma display_snapshots_ok_items (snapshots name : value) (st : state)
  (items : list value) :
  fst (display_snapshots snapshots name st) = Ok tt ->
  iterate snapshots = Ok items ->
  Forall wf_snapshot items.
Proof.
  unfold display_snapshots. intros H Hitems.
  destruct (truthy snapshots) eqn:Htruthy; cbn [negb] in H.
  - unfold bind, lift in H. rewrite Hitems in H.
    destruct (mapM detail_row items) as [rs | x] eqn:Hrs; [| discriminate].
    pose proof (mapM_Forall2 _ _ Hrs) as Hall. clear - Hall.
    induction Hall as [| snapshot row items rs Hrow _ IH]; constructor;
      [exact (detail_row_inv _ Hrow) | exact IH].
  - destruct snapshots as [| b | z | f | s | l | d]; try discriminate.
    + destruct s; [| discriminate]. injection Hitems as <-. constructor.
    + destruct l; [| discriminate]. injection Hitems as <-. constructor.
    + destruct d; [| discriminate]. injection Hitems as <-. constructor.
Qed.

Lemma search_subscriptions_records (subscriptions : list value) :
  forall (start_date end_date : str) (all_snapshots : list value)
         (st : state) (all : list value),
    fst (search_subscriptions subscriptions start_date end_date
           all_snapshots st) = Ok all ->
    Forall wf_snapshot all_snapshots ->
    Forall wf_snapshot all.
Proof.
  induction subscriptions as [| sub subs IH]; intros s e acc st all H Hacc.
  - cbn in H. injection H as <-. exact Hacc.
  - cbn [search_subscriptions] in H.
    destruct (subscript sub (lit "name")) as [name | x] eqn:Hname;
      [| discriminate].
    rewrite bind_lift_ok with (a := name) in H by reflexivity.
    rewrite bind_print in H.
    destruct (subscript sub (lit "id")) as [id | x] eqn:Hid;
      [| discriminate].
    rewrite bind_lift_ok with (a := id) in H by reflexivity.
    rewrite get_snapshots_retrieve in H.
    match type of H with
    | context [bind (retrieve ?c) _ ?st1] =>
        destruct (retrieve c st1) as [[v | x] st2] eqn:Hr
    end.
    2:{ rewrite (@bind_raise _ _ _ _ _ _ _ Hr) in H. discriminate. }
    rewrite (@bind_ok _ _ _ _ _ _ _ Hr) in H.
    rewrite bind_lift_ok with (a := name) in H by reflexivity.
    destruct (display_snapshots v name st2) as [[[] | x] st3] eqn:Hd.
    2:{ rewrite (@bind_raise _ _ _ _ _ _ _ Hd) in H. discriminate. }
    rewrite (@bind_ok _ _ _ _ _ _ _ Hd) in H.
    destruct (iterate v) as [items | x] eqn:Hitems; [| discriminate].
    rewrite bind_lift_ok with (a := items) in H by reflexivity.
    apply (IH s e (acc ++ items) st3 all H).
    apply Forall_app. split; [exact Hacc |].
    apply (@display_snapshots_ok_items v name st2 items);
      [rewrite Hd; reflexivity | exact Hitems].
Qed.

(** X10.  Whatever the commands answer, what the loop of [main] has
    gathered when it returns are records with the six fields of the
    detail table: each one went through [display_snapshots] first.  So
    the rows of the summary table can always be built; the summary never
    raises [KeyError] or [TypeError]. *)
Theorem gathered_snapshots_have_summary_rows (subscriptions : list value)
  (start_date end_date : str) (st : state) (all : list value) :
  fst (search_subscriptions subscriptions start_date end_date [] st)
  = Ok all ->
  Forall wf_snapshot all
  /\ exists rs,
       mapM summary_row all = Ok rs
       /\ Forall2 (fun snapshot row => summary_row snapshot = Ok row) all rs.
Proof.
  intros H.
  assert (Hwf : Forall wf_snapshot all)
    by (eapply search_subscriptions_records; [exact H | constructor]).
  split; [exact Hwf |].
  destruct (@mapM_ok _ _ summary_row all) as (rs & Hrs).
  { eapply Forall_impl; [| exact Hwf].
    intros v Hv. exact (proj2 (wf_snapshot_rows Hv)). }
  exists rs. split; [exact Hrs | exact (mapM_Forall2 _ _ Hrs)].
Qed.

(** ** The exceptions of a run *)

Lemma dt_shift_raise (t : datetime) (us : Z) (x : exn) :
  dt_shift t us = Raise x -> x = OverflowError.
Proof.
  unfold dt_shift. cbv zeta.
  destruct ((0 <? (dt_total t + us) / 86400000000)
            && ((dt_total t + us) / 86400000000 <=? MAXORDINAL)).
  - destruct (ord2ymd ((dt_total t + us) / 86400000000)) as [[y m] d].
    discriminate.
  - intros H. injection H as <-. reflexivity.
Qed.

Lemma get_default_date_range_raise (clock : datetime) (x : exn) :
  get_default_date_range clock = Raise x -> x = OverflowError.
Proof.
  unfold get_default_date_range, dt_add, dt_sub. cbv zeta.
  destruct (dt_shift _ (td_total (TimeDelta 32 0 0))) as [t | y] eqn:Hadd.
  - destruct (dt_shift _ (- td_total (TimeDelta 0 1 0))) as [t' | y] eqn:Hsub;
      [discriminate |].
    intros H. injection H as <-. exact (dt_shift_raise _ _ Hsub).
  - intros H. injection H as <-. exact (dt_shift_raise _ _ Hadd).
Qed.

Lemma rows_may_escape (x : exn) :
  (exists key, x = KeyError key /\ In key detail_fields)
  \/ (exists culprit, x = TypeError culprit) ->
  may_escape x.
Proof.
  intros [(key & -> & Hin) | (culprit & ->)].
  - right. left. exists key. split; [reflexivity | right; exact Hin].
  - right. right. exists culprit. reflexivity.
Qed.

Lemma retrieve_may_escape (command : str) (st : state) (x : exn) :
  fst (retrieve command st) = Raise x -> may_escape x.
Proof.
  intros H. apply retrieve_raises in H.
  destruct H as (text & e & _ & Hjson & ->).
  left. exists text, e. split; [exact Hjson | reflexivity].
Qed.

Lemma display_snapshots_may_escape (snapshots name : value) (st : state)
  (x : exn) :
  fst (display_snapshots snapshots name st) = Raise x -> may_escape x.
Proof.
  unfold display_snapshots.
  destruct (truthy snapshots); cbn [negb]; [| discriminate].
  unfold bind, lift.
  destruct (iterate snapshots) as [items | y] eqn:Hitems.
  2:{ intros H. injection H as <-. right. right.
      exists snapshots. exact (iterate_raise _ Hitems). }
  destruct (mapM detail_row items) as [rs | y] eqn:Hrs; [discriminate |].
  intros H. injection H as <-.
  destruct (mapM_raise _ _ Hrs) as (item & _ & Hitem).
  exact (rows_may_escape (detail_row_raise _ Hitem)).
Qed.

Lemma search_subscriptions_may_escape (subscriptions : list value) :
  forall (start_date end_date : str) (all_snapshots : list value)
         (st : state) (x : exn),
    fst (search_subscriptions subscriptions start_date end_date
           all_snapshots st) = Raise x ->
    may_escape x.
Proof.
  induction subscriptions as [| sub subs IH]; intros s e acc st x H.
  - discriminate.
  - cbn [search_subscriptions] in H.
    destruct (subscript sub (lit "name")) as [name | y] eqn:Hname.
    2:{ rewrite bind_lift_raise in H. injection H as <-.
        apply rows_may_escape.
        apply (field_raise sub (lit "name") detail_fields);
          [left; reflexivity | exact Hname]. }
    rewrite bind_lift_ok with (a := name) in H by reflexivity.
    rewrite bind_print in H.
    destruct (subscript sub (lit "id")) as [id | y] eqn:Hid.
    2:{ rewrite bind_lift_raise in H. injection H as <-.
        destruct (subscript_raise _ _ Hid) as [-> | ->].
        - right. left. exists (lit "id").
          split; [reflexivity | left; reflexivity].
        - right. right. exists sub. reflexivity. }
    rewrite bind_lift_ok with (a := id) in H by reflexivity.
    rewrite get_snapshots_retrieve in H.
    match type of H with
    | context [bind (retrieve ?c) _ ?st1] =>
        pose proof (@retrieve_may_escape c st1) as Hescape;
        destruct (retrieve c st1) as [[v | y] st2] eqn:Hr
    end.
    2:{ rewrite (@bind_raise _ _ _ _ _ _ _ Hr) in H. injection H as <-.
        exact (Hescape y eq_refl). }
    clear Hescape.
    rewrite (@bind_ok _ _ _ _ _ _ _ Hr) in H.
    rewrite bind_lift_ok with (a := name) in H by reflexivity.
    pose proof (@display_snapshots_may_escape v name st2) as Hescape.
    destruct (display_snapshots v name st2) as [[[] | y] st3] eqn:Hd.
    2:{ rewrite (@bind_raise _ _ _ _ _ _ _ Hd) in H. injection H as <-.
        exact (Hescape y eq_refl). }
    clear Hescape.
    rewrite (@bind_ok _ _ _ _ _ _ _ Hd) in H.
    destruct (iterate v) as [items | y] eqn:Hitems.
    2:{ rewrite bind_lift_raise in H. injection H as <-.
        right. right. exists v. exact (iterate_raise _ Hitems). }
    rewrite bind_lift_ok with (a := items) in H by reflexivity.
    exact (IH s e (acc ++ items) st3 x H).
Qed.

(** X12.  The exceptions that end a run.  [main] can raise
    [OverflowError], and then from the default range only, before any
    command is launched.  Later it can raise only what [json.loads]
    raised on the output of a command, [KeyError] for a field of a record
    ([id] or one of the six fields of a snapshot), or [TypeError].  An
    exception of the child process or of the decoding of its output
    never ends a run: the executor has reported it.  Failures of the
    display library itself are outside the model. *)
Theorem main_raises_few_exceptions (x : exn) :
  fst (main init) = Raise x ->
  (x = OverflowError
   /\ get_default_date_range today = Raise OverflowError
   /\ snd (main init) = State [] [Line welcome])
  \/ ((exists range, get_default_date_range today = Ok range)
      /\ may_escape x).
Proof.
  destruct (get_default_date_range today) as [[ds de] | y] eqn:Hdefault.
  - intros H. right. split; [eexists; reflexivity |]. revert H.
    destruct (main_steps Hdefault) as (s & e & lines & _ & _ & Hmain).
    rewrite Hmain. clear Hmain.
    set (st0 := State [] (Line welcome :: lines)).
    rewrite get_subscriptions_retrieve.
    pose proof (@retrieve_may_escape subscriptions_command st0) as Hescape.
    destruct (retrieve subscriptions_command st0) as [[v | y] st1] eqn:Hr.
    2:{ rewrite (@bind_raise _ _ _ _ _ _ _ Hr). intros H.
        injection H as <-. exact (Hescape y eq_refl). }
    clear Hescape.
    rewrite (@bind_ok _ _ _ _ _ _ _ Hr). unfold main_tail.
    destruct (truthy v); cbn [negb]; [| discriminate].
    destruct (iterate v) as [items | y] eqn:Hitems.
    2:{ rewrite bind_lift_raise. intros H. injection H as <-.
        right. right. exists v. exact (iterate_raise _ Hitems). }
    rewrite bind_lift_ok with (a := items) by reflexivity.
    pose proof (fun y => @search_subscriptions_may_escape items s e [] st1 y)
      as Hescape.
    destruct (search_subscriptions items s e [] st1)
      as [[all | y] st2] eqn:Hloop.
    2:{ rewrite (@bind_raise _ _ _ _ _ _ _ Hloop). intros H.
        injection H as <-. exact (Hescape y eq_refl). }
    clear Hescape.
    rewrite (@bind_ok _ _ _ _ _ _ _ Hloop).
    destruct (mapM summary_row all) as [rs | y] eqn:Hrs.
    + rewrite bind_lift_ok with (a := rs) by reflexivity. discriminate.
    + rewrite bind_lift_raise. intros H. injection H as <-.
      destruct (mapM_raise _ _ Hrs) as (item & _ & Hitem).
      exact (rows_may_escape (summary_row_raise _ Hitem)).
  - pose proof (get_default_date_range_raise _ Hdefault) as ->.
    assert (Hmain : main init = (Raise OverflowError, State [] [Line welcome])).
    { unfold main. unfold bind at 1. unfold console_print at 1.
      unfold bind at 1. unfold lift at 1. rewrite Hdefault. reflexivity. }
    rewrite Hmain. intros H. injection H as <-. left.
    repeat split.
Qed.

(** ** The display library *)

Lemma print_rich_accepted (r : renderable) (st : state) :
  refused r = None ->
  print_rich r st = (Ok tt, State (launched st) (console st ++ [r])).
Proof. intros H. unfold print_rich. rewrite H. reflexivity. Qed.

Lemma print_rich_refused (r : renderable) (e : lib_exn) (st : state) :
  refused r = Some e -> print_rich r st = (Raise (Lib e), st).
Proof. intros H. unfold print_rich. rewrite H. reflexivity. Qed.

Lemma print_rich_ok (r : renderable) (st st' : state) (u : unit) :
  print_rich r st = (Ok u, st') ->
  refused r = None /\ st' = State (launched st) (console st ++ [r]).
Proof.
  unfold print_rich. destruct (refused r); [discriminate |].
  unfold console_print. intros H. injection H as _ <-. split; reflexivity.
Qed.

Lemma bind_print_rich_accepted {B} (r : renderable) (k : unit -> M B)
  (st : state) :
  refused r = None ->
  bind (print_rich r) k st
  = k tt (State (launched st) (console st ++ [r])).
Proof.
  intros H. unfold bind. rewrite (print_rich_accepted _ H). reflexivity.
Qed.

Lemma bind_print_rich_refused {B} (r : renderable) (k : unit -> M B)
  (st : state) (e : lib_exn) :
  refused r = Some e -> bind (print_rich r) k st = (Raise (Lib e), st).
Proof.
  intros H. unfold bind. rewrite (print_rich_refused _ H). reflexivity.
Qed.

Lemma on_exception_rich_accepted (e : lib_exn) (st : state) :
  refused (Line (error_occurred e)) = None ->
  on_exception_rich e st
  = (Ok None, State (launched st) (console st ++ [Line (error_occurred e)])).
Proof.
  intros H. unfold on_exception_rich.
  rewrite (bind_print_rich_accepted _ _ H). reflexivity.
Qed.

Lemma on_exception_rich_refused (e e' : lib_exn) (st : state) :
  refused (Line (error_occurred e)) = Some e' ->
  on_exception_rich e st = (Raise (Lib e'), st).
Proof.
  intros H. unfold on_exception_rich.
  exact (bind_print_rich_refused _ _ H).
Qed.

(** ** The command executor and the display library *)

Lemma run_rich_exit0 (command : str) (st : state) (stdout stderr : bytes)
  (text : str) :
  shell (List.length (launched st)) command = Exited 0 stdout stderr ->
  decode stdout = inr text ->
  run_az_command_rich command st
  = (Ok (Some (strip text)), after st command []).
Proof.
  intros Hshell Hdec. unfold run_az_command_rich, bind, launch.
  rewrite Hshell. cbn [Z.eqb]. rewrite Hdec. unfold ret, after.
  cbn [launched console]. rewrite app_nil_r. reflexivity.
Qed.

Lemma run_rich_nonzero (command : str) (st : state) (returncode : Z)
  (stdout stderr : bytes) (text : str) :
  shell (List.length (launched st)) command
  = Exited returncode stdout stderr ->
  returncode <> 0 ->
  decode stderr = inr text ->
  refused (Line (error_running command)) = None ->
  refused (Line (error_message (strip text))) = None ->
  run_az_command_rich command st
  = (Ok None,
     after st command
       [Line (error_running command); Line (error_message (strip text))]).
Proof.
  intros Hshell Hrc Hdec H1 H2.
  unfold run_az_command_rich, bind, launch. rewrite Hshell.
  replace (returncode =? 0) with false
    by (symmetry; apply Z.eqb_neq; exact Hrc).
  rewrite H1. unfold console_print at 1. rewrite Hdec, H2.
  unfold console_print, ret, after. cbn [launched console].
  rewrite <- app_assoc. reflexivity.
Qed.

(** Every other outcome goes through the handler. *)
Lemma run_rich_handled (command : str) (st : state) (e : lib_exn)
  (before : list renderable) :
  handled command st e before ->
  run_az_command_rich command st
  = on_exception_rich e (after st command before).
Proof.
  intros H. unfold run_az_command_rich, bind, launch, after.
  destruct H as [e Hshell | out err e Hshell Hdec
                | rc out err e Hshell Hrc H1
                | rc out err e Hshell Hrc H1 Hdec
                | rc out err text e Hshell Hrc H1 Hdec H2];
    rewrite Hshell.
  - rewrite app_nil_r. reflexivity.
  - cbn [Z.eqb]. rewrite Hdec, app_nil_r. reflexivity.
  - replace (rc =? 0) with false by (symmetry; apply Z.eqb_neq; exact Hrc).
    change (refused (Line (error_running command)) = Some e) in H1.
    rewrite H1, app_nil_r. reflexivity.
  - replace (rc =? 0) with false by (symmetry; apply Z.eqb_neq; exact Hrc).
    change (refused (Line (error_running command)) = None) in H1.
    rewrite H1. unfold console_print at 1. rewrite Hdec. reflexivity.
  - replace (rc =? 0) with false by (symmetry; apply Z.eqb_neq; exact Hrc).
    change (refused (Line (error_running command)) = None) in H1.
    change (refused (Line (error_message (strip text))) = Some e) in H2.
    rewrite H1. unfold console_print at 1. rewrite Hdec, H2. reflexivity.
Qed.

(** The three ways of the executor. *)
Lemma run_rich_cases (command : str) (st : state) :
  (exists stdout stderr text,
     shell (List.length (launched st)) command = Exited 0 stdout stderr
     /\ decode stdout = inr text
     /\ run_az_command_rich command st
        = (Ok (Some (strip text)), after st command []))
  \/ (exists text,
        run_az_command_rich command st
        = (Ok None,
           after st command
             [ Line (error_running command);
               Line (error_message (strip text)) ]))
  \/ (exists e before,
        handled command st e before
        /\ forallb is_line before = true
        /\ (List.length before <= 1)%nat
        /\ run_az_command_rich command st
           = on_exception_rich e (after st command before)).
Proof.
  destruct (shell (List.length (launched st)) command)
    as [rc out err | e] eqn:Hshell.
  - destruct (Z.eq_dec rc 0) as [-> | Hrc].
    + destruct (decode out) as [e | text] eqn:Hdec.
      * right. right. exists e, [].
        assert (H : handled command st e [])
          by (eapply handled_stdout; eassumption).
        repeat split; [exact H | cbn; lia | exact (run_rich_handled H)].
      * left. exists out, err, text.
        repeat split; [exact Hdec | exact (run_rich_exit0 _ Hshell Hdec)].
    + destruct (refused (Line (error_running command))) as [e |] eqn:H1.
      * right. right. exists e, [].
        assert (H : handled command st e [])
          by (eapply handled_first_line; eassumption).
        repeat split; [exact H | cbn; lia | exact (run_rich_handled H)].
      * destruct (decode err) as [e | text] eqn:Hdec.
        -- right. right. exists e, [Line (error_running command)].
           assert (H : handled command st e [Line (error_running command)])
             by (eapply handled_stderr; eassumption).
           repeat split; [exact H | cbn; lia | exact (run_rich_handled H)].
        -- destruct (refused (Line (error_message (strip text))))
             as [e |] eqn:H2.
           ++ right. right. exists e, [Line (error_running command)].
              assert (H : handled command st e
                            [Line (error_running command)])
                by (eapply handled_second_line; eassumption).
              repeat split;
                [exact H | cbn; lia | exact (run_rich_handled H)].
           ++ right. left. exists text.
              exact (run_rich_nonzero _ Hshell Hrc Hdec H1 H2).
  - right. right. exists e, [].
    assert (H : handled command st e [])
      by (eapply handled_launch; eassumption).
    repeat split; [exact H | cbn; lia | exact (run_rich_handled H)].
Qed.

(** ** The retrievers and the display library *)

Lemma retrieve_rich_printed (command : str) (st : state) (text : str) :
  printed command st text ->
  retrieve_rich command st
  = match json_loads text with
    | inr v => (Ok v, after st command [])
    | inl e => (Raise (Lib e), after st command [])
    end.
Proof.
  intros (out & err & raw & Hshell & Hdec & Hstrip & Hne).
  unfold retrieve_rich, bind. rewrite (run_rich_exit0 _ Hshell Hdec).
  rewrite Hstrip. apply parse_result_text. exact Hne.
Qed.

(** The retriever launches its command and prints lines only, two at
    most; when it printed, it returns the empty list, unless the display
    library refused the line of the handler. *)
Lemma retrieve_rich_cases (command : str) (st : state) :
  exists r lines,
    retrieve_rich command st = (r, after st command lines)
    /\ forallb is_line lines = true
    /\ (List.length lines <= 2)%nat
    /\ (lines <> [] ->
        r = Ok (VList [])
        \/ exists e before e',
             handled command st e before
             /\ refused (Line (error_occurred e)) = Some e'
             /\ r = Raise (Lib e')).
Proof.
  unfold retrieve_rich, bind.
  destruct (run_rich_cases command st)
    as [(out & err & text & _ & _ & Hrun)
       | [(text & Hrun) | (e & before & Hh & Hlines & Hlen & Hrun)]];
    rewrite Hrun.
  - unfold parse_result.
    destruct (truthy (VStr (strip text)));
      [destruct (json_loads (strip text)) |];
      eexists _, []; (split; [reflexivity |]);
      (split; [reflexivity |]); (split; [cbn; lia | congruence]).
  - eexists _, _. split; [reflexivity |]. split; [reflexivity |].
    split; [cbn; lia |]. intros _. left. reflexivity.
  - destruct (refused (Line (error_occurred e))) as [e' |] eqn:Hhandler.
    + rewrite (on_exception_rich_refused _ Hhandler).
      eexists _, before. split; [reflexivity |]. split; [exact Hlines |].
      split; [lia |]. intros _. right. exists e, before, e'.
      repeat split; assumption.
    + rewrite (on_exception_rich_accepted _ Hhandler).
      unfold after. cbn [launched console].
      eexists _, (before ++ [Line (error_occurred e)]).
      rewrite <- app_assoc. split; [reflexivity |].
      split; [rewrite forallb_app, Hlines; reflexivity |].
      split; [rewrite length_app; cbn [List.length]; lia |].
      intros _. left. reflexivity.
Qed.

Lemma retrieve_rich_raises (command : str) (st : state) (x : exn) :
  fst (retrieve_rich command st) = Raise x
  <-> (exists text e,
         printed command st text /\ json_loads text = inl e /\ x = Lib e)
      \/ (exists e before e',
            handled command st e before
            /\ refused (Line (error_occurred e)) = Some e'
            /\ x = Lib e').
Proof.
  split.
  - unfold retrieve_rich, bind.
    destruct (run_rich_cases command st)
      as [(out & err & raw & Hshell & Hdec & Hrun)
         | [(text & Hrun) | (e & before & Hh & _ & _ & Hrun)]];
      rewrite Hrun.
    + destruct (strip raw) as [| c text] eqn:Hstrip; [discriminate |].
      rewrite parse_result_text by discriminate.
      destruct (json_loads (c :: text)) as [e | v] eqn:Hjson;
        cbn [fst]; [| discriminate].
      intros H. left. exists (c :: text), e.
      split; [| split; [exact Hjson | congruence]].
      exists out, err, raw. repeat split; [assumption .. | discriminate].
    + discriminate.
    + destruct (refused (Line (error_occurred e))) as [e' |] eqn:Hhandler.
      * rewrite (on_exception_rich_refused _ Hhandler). cbn [fst].
        intros H. right. exists e, before, e'.
        repeat split; [assumption .. | congruence].
      * rewrite (on_exception_rich_accepted _ Hhandler). discriminate.
  - intros [(text & e & Hprinted & Hjson & ->)
           | (e & before & e' & Hh & Hhandler & ->)].
    + rewrite (retrieve_rich_printed Hprinted), Hjson. reflexivity.
    + unfold retrieve_rich, bind. rewrite (run_rich_handled Hh).
      rewrite (on_exception_rich_refused _ Hhandler). reflexivity.
Qed.

Lemma get_subscriptions_rich_retrieve :
  get_subscriptions_rich = retrieve_rich subscriptions_command.
Proof. reflexivity. Qed.

Lemma get_snapshots_rich_retrieve (subscription_id : value)
  (start_date end_date : str) :
  get_snapshots_rich subscription_id start_date end_date
  = retrieve_rich
      (snapshot_command (py_str subscription_id) start_date end_date).
Proof. reflexivity. Qed.

(** C2, amended.  For every invocation of [run_az_command]: when the child
    exits with code 0 and its standard output decodes, the result is that
    text stripped and nothing is printed.  When it exits with another code,
    its standard error decodes and the display library prints the two
    lines, the result is [None] and the command and the stripped error
    text are printed.  When launching, communicating or decoding a stream
    raises [e], and likewise when the display library raises [e] on one of
    these two lines, the handler prints the line that carries the text of
    [e] and the result is [None]; when the display library refuses that
    line too, its exception leaves [run_az_command]. *)
Theorem run_az_command_contract (command : str) (st : state) :
  (forall stdout stderr text,
     shell (List.length (launched st)) command = Exited 0 stdout stderr ->
     decode stdout = inr text ->
     run_az_command_rich command st
     = (Ok (Some (strip text)),
        State (launched st ++ [command]) (console st)))
  /\ (forall returncode stdout stderr text,
        shell (List.length (launched st)) command
        = Exited returncode stdout stderr ->
        returncode <> 0 ->
        decode stderr = inr text ->
        refused (Line (lit "[red]Error running command: " ++ command
                       ++ lit "[/red]")) = None ->
        refused (Line (lit "[red]Error message: " ++ strip text
                       ++ lit "[/red]")) = None ->
        run_az_command_rich command st
        = (Ok None,
           State (launched st ++ [command])
             (console st
              ++ [ Line (lit "[red]Error running command: " ++ command
                         ++ lit "[/red]");
                   Line (lit "[red]Error message: " ++ strip text
                         ++ lit "[/red]") ])))
  /\ (forall e,
        shell (List.length (launched st)) command = Failed e
        \/ (exists stdout stderr,
              shell (List.length (launched st)) command
              = Exited 0 stdout stderr
              /\ decode stdout = inl e)
        \/ (exists returncode stdout stderr,
              shell (List.length (launched st)) command
              = Exited returncode stdout stderr
              /\ returncode <> 0
              /\ refused (Line (lit "[red]Error running command: "
                                ++ command ++ lit "[/red]")) = None
              /\ decode stderr = inl e) ->
        refused (Line (lit "[bold red]An error occurred: " ++ exn_text e
                       ++ lit "[/bold red]")) = None ->
        exists before,
          run_az_command_rich command st
          = (Ok None,
             State (launched st ++ [command])
               (console st ++ before
                ++ [ Line (lit "[bold red]An error occurred: "
                           ++ exn_text e ++ lit "[/bold red]") ])))
  /\ (forall e before,
        handled command st e before ->
        (refused (Line (lit "[bold red]An error occurred: " ++ exn_text e
                        ++ lit "[/bold red]")) = None ->
         run_az_command_rich command st
         = (Ok None,
            State (launched st ++ [command])
              (console st ++ before
               ++ [ Line (lit "[bold red]An error occurred: "
                          ++ exn_text e ++ lit "[/bold red]") ])))
        /\ (forall e',
              refused (Line (lit "[bold red]An error occurred: "
                             ++ exn_text e ++ lit "[/bold red]")) = Some e' ->
              run_az_command_rich command st
              = (Raise (Lib e'),
                 State (launched st ++ [command]) (console st ++ before)))).
Proof.
  assert (Hhandled :
            forall e before,
              handled command st e before ->
              (refused (Line (error_occurred e)) = None ->
               run_az_command_rich command st
               = (Ok None,
                  State (launched st ++ [command])
                    (console st ++ before ++ [Line (error_occurred e)])))
              /\ (forall e',
                    refused (Line (error_occurred e)) = Some e' ->
                    run_az_command_rich command st
                    = (Raise (Lib e'),
                       State (launched st ++ [command])
                         (console st ++ before)))).
  { intros e before Hh. rewrite (run_rich_handled Hh). split.
    - intros H. rewrite (on_exception_rich_accepted _ H).
      unfold after. cbn [launched console]. rewrite <- app_assoc.
      reflexivity.
    - intros e' H. rewrite (on_exception_rich_refused _ H). reflexivity. }
  split; [| split; [| split]].
  - intros out err text Hshell Hdec. rewrite (run_rich_exit0 _ Hshell Hdec).
    unfold after. rewrite app_nil_r. reflexivity.
  - intros rc out err text Hshell Hrc Hdec H1 H2.
    exact (run_rich_nonzero _ Hshell Hrc Hdec H1 H2).
  - intros e Hcases Haccepted.
    destruct Hcases
      as [Hshell | [(out & err & Hshell & Hdec)
                   | (rc & out & err & Hshell & Hrc & H1 & Hdec)]].
    + exists []. apply (Hhandled e []); [| exact Haccepted].
      eapply handled_launch; eassumption.
    + exists []. apply (Hhandled e []); [| exact Haccepted].
      eapply handled_stdout; eassumption.
    + exists [Line (error_running command)].
      apply (Hhandled e [Line (error_running command)]);
        [| exact Haccepted].
      eapply handled_stderr; eassumption.
  - exact Hhandled.
Qed.

(** X3.  Each retriever launches exactly one command, its own:
    [get_subscriptions] the account listing, [get_snapshots] the snapshot
    listing for the given subscription id and date window.  It hands
    lines only to the console, two at most.  When it has printed
    anything it returns the empty list, unless the display library
    refused the line of the executor's handler: then that exception
    leaves the retriever. *)
Theorem retrievers_launch_one_command (st : state) (subscription_id : value)
  (start_date end_date : str) :
  (exists r lines,
     get_subscriptions_rich st
     = (r, State (launched st ++ [subscriptions_command])
             (console st ++ lines))
     /\ forallb is_line lines = true
     /\ (List.length lines <= 2)%nat
     /\ (lines <> [] ->
         r = Ok (VList [])
         \/ exists e before e',
              handled subscriptions_command st e before
              /\ refused (Line (lit "[bold red]An error occurred: "
                                ++ exn_text e ++ lit "[/bold red]"))
                 = Some e'
              /\ r = Raise (Lib e')))
  /\ (exists r lines,
        get_snapshots_rich subscription_id start_date end_date st
        = (r, State (launched st
                     ++ [snapshot_command (py_str subscription_id)
                           start_date end_date])
                (console st ++ lines))
        /\ forallb is_line lines = true
        /\ (List.length lines <= 2)%nat
        /\ (lines <> [] ->
            r = Ok (VList [])
            \/ exists e before e',
                 handled
                   (snapshot_command (py_str subscription_id)
                      start_date end_date) st e before
                 /\ refused (Line (lit "[bold red]An error occurred: "
                                   ++ exn_text e ++ lit "[/bold red]"))
                    = Some e'
                 /\ r = Raise (Lib e'))).
Proof.
  split.
  - exact (retrieve_rich_cases subscriptions_command st).
  - exact (retrieve_rich_cases
             (snapshot_command (py_str subscription_id) start_date end_date)
             st).
Qed.

(** ** Rows and tables *)

Lemma add_row_ok (cells row : list value) :
  add_row cells = Ok row ->
  row = cells /\ forallb renderable_cell cells = true.
Proof.
  unfold add_row.
  destruct (find (fun v => negb (renderable_cell v)) cells) as [v |] eqn:Hfind;
    [discriminate |].
  intros H. injection H as <-. split; [reflexivity |].
  apply forallb_forall. intros v Hv.
  pose proof (find_none _ _ Hfind v Hv) as Hcell. cbn beta in Hcell.
  destruct (renderable_cell v); [reflexivity | discriminate].
Qed.

Lemma add_row_raise (cells : list value) (x : exn) :
  add_row cells = Raise x ->
  exists v,
    In v cells /\ renderable_cell v = false /\ x = Lib (not_renderable v).
Proof.
  unfold add_row.
  destruct (find (fun v => negb (renderable_cell v)) cells) as [v |] eqn:Hfind;
    [| discriminate].
  intros H. injection H as <-.
  destruct (find_some _ _ Hfind) as [Hin Hcell]. cbn beta in Hcell.
  exists v. split; [exact Hin |]. split; [| reflexivity].
  destruct (renderable_cell v); [discriminate | reflexivity].
Qed.

Lemma detail_row_cells (snapshot : value) (row : list value) :
  detail_row snapshot = Ok row -> detail_cells snapshot row.
Proof.
  intros H. unfold detail_row, bind_res in H.
  destruct (subscript snapshot (lit "name")) as [a1 |] eqn:H1;
    [| discriminate].
  destruct (subscript snapshot (lit "resourceGroup")) as [a2 |] eqn:H2;
    [| discriminate].
  destruct (subscript snapshot (lit "timeCreated")) as [a3 |] eqn:H3;
    [| discriminate].
  destruct (subscript snapshot (lit "diskSizeGb")) as [a4 |] eqn:H4;
    [| discriminate].
  destruct (subscript snapshot (lit "diskState")) as [a5 |] eqn:H5;
    [| discriminate].
  destruct (subscript snapshot (lit "createdBy")) as [a6 |] eqn:H6;
    [| discriminate].
  injection H as <-. exists a1, a2, a3, a4, a5, a6.
  repeat split; assumption.
Qed.

Lemma summary_row_cells (snapshot : value) (row : list value) :
  summary_row snapshot = Ok row -> summary_cells snapshot row.
Proof.
  intros H. unfold summary_row, bind_res in H.
  destruct (subscript snapshot (lit "name")) as [a1 |] eqn:H1;
    [| discriminate].
  destruct (subscript snapshot (lit "timeCreated")) as [a3 |] eqn:H3;
    [| discriminate].
  destruct (subscript snapshot (lit "diskState")) as [a5 |] eqn:H5;
    [| discriminate].
  destruct (subscript snapshot (lit "createdBy")) as [a6 |] eqn:H6;
    [| discriminate].
  injection H as <-. exists a1, a3, a5, a6.
  repeat split; try assumption.
  unfold status, or_na. destruct (eq_str a5 (lit "Attached")); reflexivity.
Qed.

Lemma detail_cells_created_by (snapshot : value) (row : list value) :
  detail_cells snapshot row -> shows_created_by 5 snapshot row.
Proof.
  intros (a1 & a2 & a3 & a4 & a5 & a6 & _ & _ & _ & _ & _ & H6 & ->).
  exists a6. split; [exact H6 |]. split.
  - intros [-> | ->]; reflexivity.
  - intros s -> Hs. destruct s as [| c s]; [congruence | reflexivity].
Qed.

Lemma summary_cells_created_by (snapshot : value) (row : list value) :
  summary_cells snapshot row -> shows_created_by 3 snapshot row.
Proof.
  intros (a1 & a3 & a5 & a6 & _ & _ & _ & H6 & ->).
  exists a6. split; [exact H6 |]. split.
  - intros [-> | ->]; reflexivity.
  - intros s -> Hs. destruct s as [| c s]; [congruence | reflexivity].
Qed.

(** The rows that [add_row] has taken, one per record, in order. *)
Lemma add_detail_rows_ok (items : list value) (rs : list (list value)) :
  mapM add_detail_row items = Ok rs ->
  Forall2 detail_cells items rs
  /\ Forall (fun row => forallb renderable_cell row = true) rs.
Proof.
  intros H. apply mapM_Forall2 in H.
  induction H as [| item row items rs Hrow _ [IH1 IH2]];
    [split; constructor |].
  unfold add_detail_row, bind_res in Hrow.
  destruct (detail_row item) as [cells |] eqn:Hcells; [| discriminate].
  destruct (add_row_ok _ Hrow) as [-> Hrenderable].
  split; constructor;
    [exact (detail_row_cells _ Hcells) | exact IH1
    | exact Hrenderable | exact IH2].
Qed.

Lemma add_summary_rows_ok (items : list value) (rs : list (list value)) :
  mapM add_summary_row items = Ok rs ->
  Forall2 summary_cells items rs
  /\ Forall (fun row => forallb renderable_cell row = true) rs.
Proof.
  intros H. apply mapM_Forall2 in H.
  induction H as [| item row items rs Hrow _ [IH1 IH2]];
    [split; constructor |].
  unfold add_summary_row, bind_res in Hrow.
  destruct (summary_row item) as [cells |] eqn:Hcells; [| discriminate].
  destruct (add_row_ok _ Hrow) as [-> Hrenderable].
  split; constructor;
    [exact (summary_row_cells _ Hcells) | exact IH1
    | exact Hrenderable | exact IH2].
Qed.

(** What stops the filling of a table. *)
Lemma add_detail_rows_raise (items : list value) (x : exn) :
  mapM add_detail_row items = Raise x ->
  (exists key, x = KeyError key /\ In key detail_fields)
  \/ (exists culprit, x = TypeError culprit)
  \/ (exists cell,
        renderable_cell cell = false /\ x = Lib (not_renderable cell)).
Proof.
  intros H. destruct (mapM_raise _ _ H) as (item & _ & Hitem).
  unfold add_detail_row, bind_res in Hitem.
  destruct (detail_row item) as [cells | y] eqn:Hcells.
  - destruct (add_row_raise _ Hitem) as (cell & _ & Hcell & ->).
    right. right. exists cell. split; [exact Hcell | reflexivity].
  - injection Hitem as <-.
    destruct (detail_row_raise _ Hcells) as [Hkey | Htype];
      [left; exact Hkey | right; left; exact Htype].
Qed.

Lemma display_rich_falsy (snapshots name : value) (st : state) :
  truthy snapshots = false ->
  display_snapshots_rich snapshots name st
  = print_rich (Line (no_snapshots_line name)) st.
Proof.
  intros H. unfold display_snapshots_rich. rewrite H. reflexivity.
Qed.

Lemma display_rich_truthy (snapshots name : value) (st : state) :
  truthy snapshots = true ->
  display_snapshots_rich snapshots name st
  = match iterate snapshots with
    | Raise x => (Raise x, st)
    | Ok items =>
        match mapM add_detail_row items with
        | Raise x => (Raise x, st)
        | Ok rs => print_rich (Tbl (detail_table name rs)) st
        end
    end.
Proof.
  intros H. unfold display_snapshots_rich. rewrite H. cbn [negb].
  unfold bind, lift. destruct (iterate snapshots) as [items | x];
    [| reflexivity].
  destruct (mapM add_detail_row items); reflexivity.
Qed.

(** What [display_snapshots] has printed when it returns. *)
Lemma display_rich_ok (snapshots name : value) (st st' : state) (u : unit) :
  display_snapshots_rich snapshots name st = (Ok u, st') ->
  (truthy snapshots = false
   /\ st' = State (launched st)
              (console st ++ [Line (no_snapshots_line name)]))
  \/ (truthy snapshots = true
      /\ exists items rs,
           iterate snapshots = Ok items
           /\ Forall2 detail_cells items rs
           /\ Forall (fun row => forallb renderable_cell row = true) rs
           /\ st' = State (launched st)
                      (console st ++ [Tbl (detail_table name rs)])).
Proof.
  destruct (truthy snapshots) eqn:Htruthy.
  - rewrite display_rich_truthy by exact Htruthy.
    destruct (iterate snapshots) as [items | x]; [| discriminate].
    destruct (mapM add_detail_row items) as [rs | x] eqn:Hrs;
      [| discriminate].
    intros H. destruct (print_rich_ok _ _ H) as [_ ->].
    destruct (add_detail_rows_ok _ Hrs) as [Hcells Hrenderable].
    right. split; [reflexivity |]. exists items, rs. repeat split; assumption.
  - rewrite display_rich_falsy by exact Htruthy.
    intros H. destruct (print_rich_ok _ _ H) as [_ ->].
    left. split; reflexivity.
Qed.

(** X4.  [display_snapshots] prints exactly one thing or nothing at all,
    and launches no command.  For a falsy value (empty list, [None],
    empty dict or string, zero) it prints the "no snapshots found" line,
    or raises what the display library raises on that line.  For any
    other value it either prints one table, titled after the
    subscription, whose rows are the cells of the items, one row per
    item, in order, every cell a string or [None]; or it raises, having
    printed nothing: [TypeError] for a value or an item of the wrong
    type, [KeyError] for one of the six fields missing in an item, the
    exception of [add_row] for a cell that is neither a string nor
    [None], or what the display library raises on the table. *)
Theorem display_snapshots_prints_once (snapshots subscription_name : value)
  (st : state) :
  (truthy snapshots = false ->
   (refused (Line (lit "[yellow]No snapshots found in subscription: "
                   ++ py_str subscription_name ++ lit "[/yellow]")) = None ->
    display_snapshots_rich snapshots subscription_name st
    = (Ok tt,
       State (launched st)
         (console st
          ++ [Line (lit "[yellow]No snapshots found in subscription: "
                    ++ py_str subscription_name ++ lit "[/yellow]")])))
   /\ (forall e,
         refused (Line (lit "[yellow]No snapshots found in subscription: "
                        ++ py_str subscription_name ++ lit "[/yellow]"))
         = Some e ->
         display_snapshots_rich snapshots subscription_name st
         = (Raise (Lib e), st)))
  /\ (truthy snapshots = true ->
      (exists x,
         display_snapshots_rich snapshots subscription_name st
         = (Raise x, st)
         /\ ((exists key, x = KeyError key /\ In key detail_fields)
             \/ (exists culprit, x = TypeError culprit)
             \/ (exists cell,
                   renderable_cell cell = false
                   /\ x = Lib (not_renderable cell))
             \/ (exists t e, refused (Tbl t) = Some e /\ x = Lib e)))
      \/ (exists items rs,
            iterate snapshots = Ok items
            /\ Forall2 detail_cells items rs
            /\ Forall (fun row => forallb renderable_cell row = true) rs
            /\ display_snapshots_rich snapshots subscription_name st
               = (Ok tt,
                  State (launched st)
                    (console st
                     ++ [Tbl (Table
                                (lit "Snapshots in "
                                 ++ py_str subscription_name)
                                ROUNDED detail_columns rs)])))).
Proof.
  split.
  - intros Hfalsy. rewrite display_rich_falsy by exact Hfalsy. split.
    + intros H. exact (print_rich_accepted _ H).
    + intros e H. exact (print_rich_refused _ H).
  - intros Htruthy. rewrite display_rich_truthy by exact Htruthy.
    destruct (iterate snapshots) as [items | x] eqn:Hitems.
    2:{ left. exists x. split; [reflexivity |]. right. left.
        exists snapshots. exact (iterate_raise _ Hitems). }
    destruct (mapM add_detail_row items) as [rs | x] eqn:Hrs.
    2:{ left. exists x. split; [reflexivity |].
        destruct (add_detail_rows_raise _ Hrs) as [Hk | [Ht | Hc]];
          [left; exact Hk | right; left; exact Ht
          | right; right; left; exact Hc]. }
    destruct (add_detail_rows_ok _ Hrs) as [Hcells Hrenderable].
    destruct (refused (Tbl (detail_table subscription_name rs)))
      as [e |] eqn:Htable.
    + left. exists (Lib e). split; [exact (print_rich_refused _ Htable) |].
      right. right. right. eexists _, e. split; [exact Htable | reflexivity].
    + right. exists items, rs. split; [reflexivity |].
      split; [exact Hcells |]. split; [exact Hrenderable |].
      exact (print_rich_accepted _ Htable).
Qed.

(** What [print_summary] has printed when it returns. *)
Lemma print_summary_ok (all_snapshots : list value) (st st' : state)
  (u : unit) :
  print_summary all_snapshots st = (Ok u, st') ->
  exists rs,
    Forall2 summary_cells all_snapshots rs
    /\ Forall (fun row => forallb renderable_cell row = true) rs
    /\ st' = State (launched st)
               (console st
                ++ [ Line summary_heading; Tbl (summary_table rs);
                     Line (total_line (List.length all_snapshots));
                     Line search_complete ]).
Proof.
  unfold print_summary. unfold bind at 1. unfold lift at 1.
  destruct (mapM add_summary_row all_snapshots) as [rs | x] eqn:Hrs;
    [| discriminate].
  rewrite bind_print.
  destruct (refused (Tbl (summary_table rs))) as [e |] eqn:Htable;
    [rewrite (bind_print_rich_refused _ _ Htable); discriminate |].
  rewrite (bind_print_rich_accepted _ _ Htable).
  destruct (refused (Line (total_line (List.length all_snapshots))))
    as [e |] eqn:Htotal;
    [rewrite (bind_print_rich_refused _ _ Htotal); discriminate |].
  rewrite (bind_print_rich_accepted _ _ Htotal).
  unfold console_print. cbn [launched console]. intros H.
  injection H as _ <-.
  destruct (add_summary_rows_ok _ Hrs) as [Hcells Hrenderable].
  exists rs. split; [exact Hcells |]. split; [exact Hrenderable |].
  rewrite <- !app_assoc. reflexivity.
Qed.

(** ** The loop and [main] with the display library *)

(** The loop that returns has queried every subscription, gathered the
    answers in order and printed one section per subscription. *)
Lemma search_subscriptions_rich_ok (subscriptions : list value) :
  forall (results : list (list value)) (start_date end_date : str)
         (all_snapshots : list value) (st st' : state) (all : list value),
    search_subscriptions_rich subscriptions start_date end_date
      all_snapshots st = (Ok all, st') ->
    answers_rich (List.length (launched st)) subscriptions results
      start_date end_date ->
    all = all_snapshots ++ List.concat results
    /\ exists shown,
         console st' = console st ++ shown
         /\ sections_shown subscriptions results shown.
Proof.
  induction subscriptions as [| sub subs IH];
    intros results s e acc st st' all H Hans.
  - destruct results as [| snaps results]; [| contradiction].
    cbn in H. injection H as <- <-. cbn [List.concat].
    rewrite app_nil_r. split; [reflexivity |].
    exists []. rewrite app_nil_r. split; [reflexivity | constructor].
  - destruct results as [| snaps results]; [contradiction |].
    destruct Hans as [Hfirst Hrest].
    cbn [search_subscriptions_rich] in H.
    destruct (subscript sub (lit "name")) as [name | x] eqn:Hname;
      [| discriminate].
    rewrite bind_lift_ok with (a := name) in H by reflexivity.
    destruct (refused (Line (searching_line name))) as [e0 |] eqn:Hheading;
      [rewrite bind_print_rich_refused with (e := e0) in H by exact Hheading;
       discriminate |].
    rewrite bind_print_rich_accepted in H by exact Hheading.
    set (st1 := State (launched st)
                  (console st ++ [Line (searching_line name)])) in *.
    destruct (subscript sub (lit "id")) as [id | x] eqn:Hid;
      [| discriminate].
    rewrite bind_lift_ok with (a := id) in H by reflexivity.
    specialize (Hfirst id st1 eq_refl eq_refl).
    rewrite get_snapshots_rich_retrieve in H, Hfirst.
    destruct (retrieve_rich_cases (snapshot_command (py_str id) s e) st1)
      as (r & errors & Hr & Herrors & _ & Hprinted).
    rewrite Hr in Hfirst. cbn [fst] in Hfirst. subst r.
    rewrite (@bind_ok _ _ _ _ _ _ _ Hr) in H.
    rewrite bind_lift_ok with (a := name) in H by reflexivity.
    set (st2 := after st1 (snapshot_command (py_str id) s e) errors) in *.
    destruct (display_snapshots_rich (VList snaps) name st2)
      as [[[] | x] st3] eqn:Hdisplay.
    2:{ rewrite (@bind_raise _ _ _ _ _ _ _ Hdisplay) in H. discriminate. }
    rewrite (@bind_ok _ _ _ _ _ _ _ Hdisplay) in H.
    rewrite bind_lift_ok with (a := snaps) in H by reflexivity.
    assert (Hnext : answers_rich (List.length (launched st3)) subs results
                      s e).
    { destruct (@display_rich_ok _ _ _ _ _ Hdisplay)
        as [[_ ->] | [_ (items & rs & _ & _ & _ & ->)]];
        unfold st2, after, st1; cbn [launched];
        rewrite length_app; cbn [List.length];
        (replace (List.length (launched st) + 1)%nat
           with (S (List.length (launched st))) by lia);
        exact Hrest. }
    destruct (IH results s e (acc ++ snaps) st3 st' all H Hnext)
      as (-> & shown & Hconsole & Hsections).
    split; [cbn [List.concat]; rewrite app_assoc; reflexivity |].
    destruct (@display_rich_ok _ _ _ _ _ Hdisplay)
      as [[Hfalsy Hst3] | [Htruthy (items & rs & Hitems & Hcells & _ & Hst3)]].
    + destruct snaps as [| snap snaps]; [| discriminate].
      exists ((Line (searching_line name) :: errors
               ++ [Line (no_snapshots_line name)]) ++ shown).
      split.
      * rewrite Hconsole, Hst3. unfold st2, after, st1. cbn [console].
        rewrite <- !app_assoc. f_equal. cbn [app].
        rewrite <- !app_assoc. reflexivity.
      * constructor; [| exact Hsections].
        eapply shown_empty; [exact Hname | exact Herrors | reflexivity].
    + destruct snaps as [| snap snaps]; [discriminate |].
      cbn [iterate] in Hitems. injection Hitems as <-.
      destruct errors as [| line errors].
      2:{ destruct Hprinted as [Hp | (e1 & b1 & e2 & _ & _ & Hp)];
            discriminate. }
      exists ([Line (searching_line name); Tbl (detail_table name rs)]
              ++ shown).
      split.
      * rewrite Hconsole, Hst3. unfold st2, after, st1. cbn [console].
        rewrite app_nil_r, <- !app_assoc. reflexivity.
      * constructor; [| exact Hsections].
        eapply shown_table; [exact Hname | discriminate | exact Hcells].
Qed.

(** [main] up to the listing of the subscriptions. *)
Lemma main_rich_steps (default_start default_end : str) :
  get_default_date_range today = Ok (default_start, default_end) ->
  exists start_date end_date lines,
    forallb is_line lines = true
    /\ fst (validate_dates
              (ask (lit "Enter start date (YYYY-MM-DD)")
                 (prefix 10 default_start))
              (ask (lit "Enter end date (YYYY-MM-DD)")
                 (prefix 10 default_end))
              default_start default_end init)
       = Ok (start_date, end_date)
    /\ main_rich init
       = bind get_subscriptions_rich (main_tail_rich start_date end_date)
           (State [] (Line welcome :: lines)).
Proof.
  intros Hdefault.
  destruct (validate_dates_effect
              (ask (lit "Enter start date (YYYY-MM-DD)")
                 (prefix 10 default_start))
              (ask (lit "Enter end date (YYYY-MM-DD)")
                 (prefix 10 default_end))
              default_start default_end (State [] [Line welcome]))
    as ([start_date end_date] & lines & Hv & Hlines).
  exists start_date, end_date, lines. split; [exact Hlines |]. split.
  - rewrite (validate_dates_value _ _ _ _ init (State [] [Line welcome])).
    rewrite Hv. reflexivity.
  - unfold main_rich. unfold bind at 1. unfold console_print at 1.
    unfold bind at 1. unfold lift at 1. rewrite Hdefault.
    unfold bind at 1. cbn [launched console init app].
    rewrite Hv. reflexivity.
Qed.

(** The steps of a run that returns. *)
Lemma main_rich_completed (default_start default_end : str) (st' : state) :
  get_default_date_range today = Ok (default_start, default_end) ->
  main_rich init = (Ok tt, st') ->
  exists start_date end_date lines subscriptions errors,
    forallb is_line lines = true
    /\ forallb is_line errors = true
    /\ fst (validate_dates
              (ask (lit "Enter start date (YYYY-MM-DD)")
                 (prefix 10 default_start))
              (ask (lit "Enter end date (YYYY-MM-DD)")
                 (prefix 10 default_end))
              default_start default_end init)
       = Ok (start_date, end_date)
    /\ get_subscriptions_rich (State [] (Line welcome :: lines))
       = (Ok subscriptions,
          State [subscriptions_command] (Line welcome :: lines ++ errors))
    /\ ((truthy subscriptions = false
         /\ st' = State [subscriptions_command]
                    (Line welcome :: lines ++ errors
                     ++ [Line no_subscriptions]))
        \/ (truthy subscriptions = true
            /\ exists items all st2,
                 iterate subscriptions = Ok items
                 /\ search_subscriptions_rich items start_date end_date []
                      (State [subscriptions_command]
                         (Line welcome :: lines ++ errors))
                    = (Ok all, st2)
                 /\ print_summary all st2 = (Ok tt, st'))).
Proof.
  intros Hdefault Hmain.
  destruct (@main_rich_steps _ _ Hdefault) as (s & e & lines & Hlines & Hv & Hsteps).
  rewrite Hsteps in Hmain. clear Hsteps.
  rewrite get_subscriptions_rich_retrieve in *.
  destruct (retrieve_rich_cases subscriptions_command
              (State [] (Line welcome :: lines)))
    as (r & errors & Hr & Herrors & _ & _).
  unfold after in Hr. cbn [launched console app] in Hr.
  destruct r as [subscriptions | x];
    [| rewrite (@bind_raise _ _ _ _ _ _ _ Hr) in Hmain; discriminate].
  rewrite (@bind_ok _ _ _ _ _ _ _ Hr) in Hmain.
  exists s, e, lines, subscriptions, errors.
  split; [exact Hlines |]. split; [exact Herrors |]. split; [exact Hv |].
  split; [exact Hr |].
  unfold main_tail_rich in Hmain.
  destruct (truthy subscriptions); cbn [negb] in Hmain.
  - right. split; [reflexivity |].
    destruct (iterate subscriptions) as [items | x]; [| discriminate].
    rewrite bind_lift_ok with (a := items) in Hmain by reflexivity.
    match type of Hmain with
    | context [bind (search_subscriptions_rich items s e []) _ ?st1] =>
        destruct (search_subscriptions_rich items s e [] st1)
          as [[all | x] st2] eqn:Hloop
    end.
    2:{ rewrite (@bind_raise _ _ _ _ _ _ _ Hloop) in Hmain. discriminate. }
    rewrite (@bind_ok _ _ _ _ _ _ _ Hloop) in Hmain.
    exists items, all, st2. repeat split; assumption.
  - left. split; [reflexivity |].
    unfold console_print in Hmain. cbn [launched console] in Hmain.
    injection Hmain as <-. cbn [app]. rewrite <- app_assoc. reflexivity.
Qed.

(** X11.  How a run ends.  Once the default range is computed, [main]
    returns in two ways only.  Either the listing gave a falsy value: the
    last thing printed is the message that points to [az login] and the
    listing is the only command launched.  Or the loop over the listed
    subscriptions returned the list it gathered: then the console of the
    loop is followed by the summary heading, the summary table with the
    cells of each gathered snapshot, one row per snapshot, in order, the
    total, which is their number, and the closing line. *)
Theorem completed_run_ends_with_summary (default_start default_end : str)
  (st' : state) :
  get_default_date_range today = Ok (default_start, default_end) ->
  main_rich init = (Ok tt, st') ->
  exists start_date end_date lines subscriptions st1,
    fst (validate_dates
           (ask (lit "Enter start date (YYYY-MM-DD)")
              (prefix 10 default_start))
           (ask (lit "Enter end date (YYYY-MM-DD)")
              (prefix 10 default_end))
           default_start default_end init)
    = Ok (start_date, end_date)
    /\ get_subscriptions_rich (State [] (Line welcome :: lines))
       = (Ok subscriptions, st1)
    /\ ((truthy subscriptions = false
         /\ launched st' = [subscriptions_command]
         /\ console st'
            = console st1
              ++ [Line (lit "[bold red]No subscriptions found. Please make sure you're logged in with 'az login'.[/bold red]")])
        \/ (exists items all st2 rs,
              iterate subscriptions = Ok items
              /\ search_subscriptions_rich items start_date end_date [] st1
                 = (Ok all, st2)
              /\ Forall2 summary_cells all rs
              /\ console st'
                 = console st2
                   ++ [ Line (nl
                              ++ lit "[bold green]Snapshot Summary:[/bold green]");
                        Tbl (Table (lit "Snapshot Summary") ROUNDED
                               summary_columns rs);
                        Line (nl ++ lit "[bold green]Total snapshots found: "
                              ++ str_of_nat (List.length all)
                              ++ lit "[/bold green]");
                        Line (nl
                              ++ lit "[bold green]Snapshot search complete![/bold green]") ])).
Proof.
  intros Hdefault Hmain.
  destruct (@main_rich_completed _ _ _ Hdefault Hmain)
    as (s & e & lines & subscriptions & errors & _ & _ & Hv & Hsubs & Hend).
  exists s, e, lines, subscriptions.
  eexists. split; [exact Hv |]. split; [exact Hsubs |].
  destruct Hend as [[Hfalsy ->]
                   | [_ (items & all & st2 & Hitems & Hloop & Hsummary)]].
  - left. split; [exact Hfalsy |]. split; [reflexivity |].
    cbn [console app]. rewrite <- app_assoc. reflexivity.
  - right. destruct (@print_summary_ok _ _ _ _ Hsummary) as (rs & Hcells & _ & ->).
    exists items, all, st2, rs. repeat split; assumption.
Qed.


(** C7, amended.  In every table that is printed, for a snapshot record
    whose [createdBy] is null or the empty string the cell under Created
    By is the text "N/A", and a non-empty string is shown as it is: in
    the table that [display_snapshots] prints for a subscription, and in
    the summary table that [main] prints for the snapshots it has
    gathered.  A table is printed only when the display library takes
    every cell of every record. *)
Theorem created_by_or_na :
  (forall (snapshots : list value) (subscription_name : value)
          (st st' : state),
     snapshots <> [] ->
     display_snapshots_rich (VList snapshots) subscription_name st
     = (Ok tt, st') ->
     exists rs,
       console st'
       = console st
         ++ [Tbl (Table (lit "Snapshots in " ++ py_str subscription_name)
                    ROUNDED detail_columns rs)]
       /\ nth_error (map header detail_columns) 5 = Some (lit "Created By")
       /\ Forall2 (shows_created_by 5) snapshots rs)
  /\ (forall (all_snapshots : list value) (st st' : state),
        print_summary all_snapshots st = (Ok tt, st') ->
        exists rs,
          console st'
          = console st
            ++ [ Line (nl
                       ++ lit "[bold green]Snapshot Summary:[/bold green]");
                 Tbl (Table (lit "Snapshot Summary") ROUNDED
                        summary_columns rs);
                 Line (nl ++ lit "[bold green]Total snapshots found: "
                       ++ str_of_nat (List.length all_snapshots)
                       ++ lit "[/bold green]");
                 Line (nl
                       ++ lit "[bold green]Snapshot search complete![/bold green]") ]
          /\ nth_error (map header summary_columns) 3
             = Some (lit "Created By")
          /\ Forall2 (shows_created_by 3) all_snapshots rs)
  /\ (forall (default_start default_end : str) (st' : state),
        get_default_date_range today = Ok (default_start, default_end) ->
        main_rich init = (Ok tt, st') ->
        (exists before,
           console st'
           = before
             ++ [Line (lit "[bold red]No subscriptions found. Please make sure you're logged in with 'az login'.[/bold red]")])
        \/ (exists items start_date end_date st1 all st2 rs,
              search_subscriptions_rich items start_date end_date [] st1
              = (Ok all, st2)
              /\ console st'
                 = console st2
                   ++ [ Line (nl
                              ++ lit "[bold green]Snapshot Summary:[/bold green]");
                        Tbl (Table (lit "Snapshot Summary") ROUNDED
                               summary_columns rs);
                        Line (nl ++ lit "[bold green]Total snapshots found: "
                              ++ str_of_nat (List.length all)
                              ++ lit "[/bold green]");
                        Line (nl
                              ++ lit "[bold green]Snapshot search complete![/bold green]") ]
              /\ Forall2 (shows_created_by 3) all rs)).
Proof.
  assert (Hsummary :
            forall all st st',
              print_summary all st = (Ok tt, st') ->
              exists rs,
                console st'
                = console st
                  ++ [ Line summary_heading; Tbl (summary_table rs);
                       Line (total_line (List.length all));
                       Line search_complete ]
                /\ Forall2 (shows_created_by 3) all rs).
  { intros all st st' H.
    destruct (@print_summary_ok _ _ _ _ H) as (rs & Hcells & _ & ->).
    exists rs. split; [reflexivity |].
    eapply Forall2_impl; [| exact Hcells].
    intros snapshot row. apply summary_cells_created_by. }
  split; [| split].
  - intros snapshots name st st' Hne H.
    destruct (@display_rich_ok _ _ _ _ _ H)
      as [[Hfalsy _] | [_ (items & rs & Hitems & Hcells & _ & ->)]].
    { destruct snapshots; [congruence | discriminate]. }
    cbn [iterate] in Hitems. injection Hitems as <-.
    exists rs. split; [reflexivity |]. split; [reflexivity |].
    eapply Forall2_impl; [| exact Hcells].
    intros snapshot row. apply detail_cells_created_by.
  - intros all st st' H. destruct (Hsummary all st st' H) as (rs & Hc & Hrs).
    exists rs. split; [exact Hc |]. split; [reflexivity | exact Hrs].
  - intros ds de st' Hdefault Hmain.
    destruct (@main_rich_completed _ _ _ Hdefault Hmain)
      as (s & e & lines & v & errors & _ & _ & _ & _ & Hend).
    destruct Hend as [[_ ->]
                     | [_ (items & all & st2 & _ & Hloop & Hprint)]].
    + left. exists (Line welcome :: lines ++ errors).
      cbn [console app]. rewrite <- app_assoc. reflexivity.
    + right. destruct (Hsummary all st2 st' Hprint) as (rs & Hc & Hrs).
      exists items, s, e. eexists. exists all, st2, rs.
      split; [exact Hloop |]. split; [exact Hc | exact Hrs].
Qed.

(** C8.  When the listing of the subscriptions comes back empty, [main]
    prints the message that no subscriptions were found and that points to
    [az login], and returns at once: the subscriptions command is the only
    one launched, the message is the last thing on the console and before
    it the console holds lines only, no table. *)
Theorem no_subscriptions_stops (default_start default_end : str)
  (subscriptions : value) :
  get_default_date_range today = Ok (default_start, default_end) ->
  (forall st, launched st = [] ->
              fst (get_subscriptions_rich st) = Ok subscriptions) ->
  truthy subscriptions = false ->
  exists before,
    main_rich init
    = (Ok tt,
       State [subscriptions_command]
         (before
          ++ [ Line (lit "[bold red]No subscriptions found. Please make sure you're logged in with 'az login'.[/bold red]") ]))
    /\ forallb is_line before = true.
Proof.
  intros Hdefault Hsubs Hfalsy.
  destruct (@main_rich_steps _ _ Hdefault)
    as (s & e & lines & Hlines & _ & Hmain).
  specialize (Hsubs (State [] (Line welcome :: lines)) eq_refl).
  rewrite get_subscriptions_rich_retrieve in Hsubs, Hmain.
  destruct (retrieve_rich_cases subscriptions_command
              (State [] (Line welcome :: lines)))
    as (r & errors & Hr & Herrors & _ & _).
  rewrite Hr in Hsubs. cbn [fst] in Hsubs. subst r.
  exists ((Line welcome :: lines) ++ errors). split.
  - rewrite Hmain. rewrite (@bind_ok _ _ _ _ _ _ _ Hr).
    unfold main_tail_rich. rewrite Hfalsy. reflexivity.
  - rewrite forallb_app, Herrors. cbn [forallb is_line andb].
    rewrite Hlines. reflexivity.
Qed.

(** C9, amended.  Nothing guards the parsing: [get_subscriptions] and
    [get_snapshots] raise the exception of [json.loads] exactly when
    their command exited with code 0 and its output decodes, is not blank
    once stripped, and is rejected by [json.loads]; neither the loop over
    the subscriptions nor [main] catches it.  The only other exception
    that leaves a retriever is the one of the display library when it
    refuses the line of the executor's handler. *)
Theorem malformed_json_is_unhandled (st : state) (subscription_id : value)
  (start_date end_date : str) :
  (forall x,
     fst (get_subscriptions_rich st) = Raise x
     <-> (exists text e,
            printed subscriptions_command st text
            /\ json_loads text = inl e /\ x = Lib e)
         \/ (exists e before e',
               handled subscriptions_command st e before
               /\ refused (Line (lit "[bold red]An error occurred: "
                                 ++ exn_text e ++ lit "[/bold red]"))
                  = Some e'
               /\ x = Lib e'))
  /\ (forall x,
        fst (get_snapshots_rich subscription_id start_date end_date st)
        = Raise x
        <-> (exists text e,
               printed
                 (snapshot_command (py_str subscription_id)
                    start_date end_date) st text
               /\ json_loads text = inl e /\ x = Lib e)
            \/ (exists e before e',
                  handled
                    (snapshot_command (py_str subscription_id)
                       start_date end_date) st e before
                  /\ refused (Line (lit "[bold red]An error occurred: "
                                    ++ exn_text e ++ lit "[/bold red]"))
                     = Some e'
                  /\ x = Lib e'))
  /\ (forall subscription rest all_snapshots name text e,
        subscript subscription (lit "name") = Ok name ->
        subscript subscription (lit "id") = Ok subscription_id ->
        refused (Line (nl ++ lit "[bold blue]Searching in subscription: "
                       ++ py_str name ++ lit "[/bold blue]")) = None ->
        printed
          (snapshot_command (py_str subscription_id) start_date end_date)
          st text ->
        json_loads text = inl e ->
        fst (search_subscriptions_rich (subscription :: rest)
               start_date end_date all_snapshots st)
        = Raise (Lib e))
  /\ (forall default_start default_end text e,
        get_default_date_range today = Ok (default_start, default_end) ->
        printed subscriptions_command init text ->
        json_loads text = inl e ->
        fst (main_rich init) = Raise (Lib e)).
Proof.
  split; [| split; [| split]].
  - intros x. exact (retrieve_rich_raises subscriptions_command st x).
  - intros x.
    exact (retrieve_rich_raises
             (snapshot_command (py_str subscription_id) start_date end_date)
             st x).
  - intros subscription rest acc name text e Hname Hid Hheading Hprinted
           Hjson.
    cbn [search_subscriptions_rich].
    rewrite bind_lift_ok with (a := name) by exact Hname.
    rewrite bind_print_rich_accepted by exact Hheading.
    rewrite bind_lift_ok with (a := subscription_id) by exact Hid.
    rewrite get_snapshots_rich_retrieve.
    erewrite bind_raise; [reflexivity |].
    erewrite retrieve_rich_printed by exact Hprinted.
    rewrite Hjson. reflexivity.
  - intros ds de text e Hdefault Hprinted Hjson.
    destruct (@main_rich_steps _ _ Hdefault) as (s & e' & lines & _ & _ & Hmain).
    rewrite Hmain. unfold bind.
    rewrite get_subscriptions_rich_retrieve.
    rewrite (@retrieve_rich_printed _ (State [] (Line welcome :: lines)) text
               Hprinted), Hjson.
    reflexivity.
Qed.

End Script.

(** ** The theorems on concrete runs *)

(** C1 on two runs: a command that prints white space only, and one that
    fails. *)
Lemma retrievers_empty_on_failure_witness :
  fst (get_subscriptions blank_shell utf8_decode json_decode init)
  = Ok (VList [])
  /\ fst (get_snapshots failing_shell utf8_decode json_decode sample_repr
            (VStr (lit "sub-a")) (lit "2024-02-15T00:00:00+00:00")
            (lit "2024-02-20T23:59:59+00:00") init)
     = Ok (VList []).
Proof.
  split.
  - apply (proj1 (@retrievers_empty_on_failure blank_shell utf8_decode
                    json_decode sample_repr init VNone [] [])).
    right. right. exists [x20; x0a; x09], [], [32; 10; 9]%N.
    split; [reflexivity |]. split; [reflexivity |].
    repeat constructor.
  - apply (proj2 (@retrievers_empty_on_failure failing_shell utf8_decode
                    json_decode sample_repr init (VStr (lit "sub-a"))
                    (lit "2024-02-15T00:00:00+00:00")
                    (lit "2024-02-20T23:59:59+00:00"))).
    left. vm_compute. reflexivity.
Defined.

(** C3 on the dates of the example, and on an answer that is no date. *)
Lemma validate_dates_window_witness :
  strptime_ascii (lit "2024-02-15") = Some (Date 2024 2 15)
  /\ strptime_ascii (lit "2024-02-20") = Some (Date 2024 2 20)
  /\ strptime_ascii (lit "not-a-date") = None
  /\ validate_dates strptime_ascii (lit "2024-02-15") (lit "2024-02-20")
       (lit "2024-11-01T00:00:00+00:00") (lit "2024-11-30T23:59:59+00:00")
       init
     = (Ok (lit "2024-02-15T00:00:00+00:00",
            lit "2024-02-20T23:59:59+00:00"), init)
  /\ validate_dates strptime_ascii (lit "2024-02-15") (lit "not-a-date")
       (lit "2024-11-01T00:00:00+00:00") (lit "2024-11-30T23:59:59+00:00")
       init
     = (Ok (lit "2024-11-01T00:00:00+00:00",
            lit "2024-11-30T23:59:59+00:00"),
        State []
          [ Line (lit "[bold red]Invalid date format. Using default date range for the current month.[/bold red]") ]).
Proof.
  split; [reflexivity |]. split; [reflexivity |]. split; [reflexivity |].
  split.
  - exact (proj1 (@validate_dates_window strptime_ascii
                    (lit "2024-02-15") (lit "2024-02-20")
                    (lit "2024-11-01T00:00:00+00:00")
                    (lit "2024-11-30T23:59:59+00:00") init)
             (Date 2024 2 15) (Date 2024 2 20) eq_refl eq_refl).
  - apply (proj2 (@validate_dates_window strptime_ascii
                    (lit "2024-02-15") (lit "not-a-date")
                    (lit "2024-11-01T00:00:00+00:00")
                    (lit "2024-11-30T23:59:59+00:00") init)).
    right. reflexivity.
Defined.

(** C4 as stated fails in December 9999: the 32 days added to the first
    of the month leave the range of [datetime]. *)
Lemma default_range_overflows_in_december_9999 :
  get_default_date_range (DateTime 9999 12 15 8 30 0 0 UTC)
  = Raise OverflowError.
Proof.
  vm_compute. reflexivity.
Qed.

(** The amended C4 in a leap February. *)
Lemma default_range_is_current_month_witness :
  get_default_date_range sample_today
  = Ok (lit "2024-02-01T00:00:00+00:00", lit "2024-02-29T23:59:59+00:00")
  /\ days_in_month 2024 2 = 29
  /\ ord2ymd (ymd2ord 2024 2 29 + 1) = (2024, 3, 1).
Proof.
  assert (Hy : 1 <= year sample_today <= 9999) by (cbn; lia).
  assert (Hm : 1 <= month sample_today <= 12) by (cbn; lia).
  assert (Hlast : ~ (year sample_today = 9999 /\ month sample_today = 12))
    by (cbn; lia).
  destruct (@default_range_is_current_month sample_today Hy Hm Hlast eq_refl)
    as (Hrange & Hstart & Hend & _ & Hnext & _).
  split; [| split].
  - rewrite Hrange. reflexivity.
  - reflexivity.
  - exact Hnext.
Defined.

(** C6 on a record whose state is neither of the two texts. *)
Lemma summary_status_is_binary_witness :
  summary_row (sample_snapshot (VStr (lit "Reserved")) VNone)
  = Ok [ VStr (lit "snap1"); VStr (lit "2024-02-16T10:00:00+00:00");
         VStr (lit "Unattached"); VStr (lit "N/A") ]
  /\ summary_row (sample_snapshot (VStr (lit "Attached")) VNone)
     = Ok [ VStr (lit "snap1"); VStr (lit "2024-02-16T10:00:00+00:00");
            VStr (lit "Attached"); VStr (lit "N/A") ].
Proof.
  split.
  - destruct (@summary_status_is_binary
                (sample_snapshot (VStr (lit "Reserved")) VNone)
                _ _ _ _ eq_refl eq_refl eq_refl eq_refl)
      as (shown & Hrow & _ & Hother & _).
    rewrite Hrow, Hother by discriminate. reflexivity.
  - destruct (@summary_status_is_binary
                (sample_snapshot (VStr (lit "Attached")) VNone)
                _ _ _ _ eq_refl eq_refl eq_refl eq_refl)
      as (shown & Hrow & Hiff & _).
    rewrite Hrow, (proj2 Hiff eq_refl). reflexivity.
Defined.

(** C10 on a command that prints a JSON object. *)
Lemma retrievers_return_parsed_value_witness :
  fst (get_subscriptions object_shell utf8_decode json_decode init)
  = Ok (VDict [(lit "a", VInt 1)])
  /\ forall l,
       fst (get_subscriptions object_shell utf8_decode json_decode init)
       <> Ok (VList l).
Proof.
  assert (Hprinted : printed object_shell utf8_decode subscriptions_command
                       init (json_text "{'a': 1}")).
  { exists (json_bytes "{'a': 1}"), [], (json_text "{'a': 1}").
    repeat split; try reflexivity. discriminate. }
  destruct (proj1 (@retrievers_return_parsed_value object_shell utf8_decode
                     json_decode sample_repr init VNone [] []
                     (json_text "{'a': 1}") (VDict [(lit "a", VInt 1)])
                     eq_refl) Hprinted)
    as [Hvalue Hnot_list].
  split; [exact Hvalue |].
  apply Hnot_list. intros l. discriminate.
Defined.

(** C2 as stated fails twice.  The child exits with code 0, its output is
    not UTF-8, and the executor returns [None] after printing the decoding
    error.  The child exits with code 1, its error text holds a closing
    tag that the display library refuses, in the second line and again in
    the line of the handler, and the exception of the display library
    leaves the executor. *)
Lemma run_az_command_exit0_none :
  binary_shell 0 subscriptions_command = Exited 0 [xff] []
  /\ run_az_command_rich binary_shell utf8_decode refuses_closing_x
       subscriptions_command init
     = (Ok None,
        State [subscriptions_command]
          [ Line (lit "[bold red]An error occurred: 'utf-8' codec can't decode byte 0xff in position 0: invalid start byte[/bold red]") ])
  /\ tagged_shell 0 subscriptions_command
     = Exited 1 [] (ascii_bytes "boom [/x] here")
  /\ run_az_command_rich tagged_shell utf8_decode refuses_closing_x
       subscriptions_command init
     = (Raise (Lib (LibExn (lit "MarkupError")
                      (lit "closing tag '[/x]' at position 42 doesn't match any open tag"))),
        State [subscriptions_command]
          [ Line (lit "[red]Error running command: az account list --query '[].{name:name, id:id}' -o json[/red]") ]).
Proof.
  repeat split; vm_compute; reflexivity.
Qed.

(** The amended C2 on four runs: output decoded and stripped, a failing
    command, a shell that cannot be launched, and an error text that the
    display library refuses. *)
Lemma run_az_command_contract_witness :
  run_az_command_rich object_shell utf8_decode refuses_closing_x
    subscriptions_command init
  = (Ok (Some (json_text "{'a': 1}")), State [subscriptions_command] [])
  /\ run_az_command_rich failing_shell utf8_decode refuses_closing_x
       subscriptions_command init
     = (Ok None,
        State [subscriptions_command]
          [ Line (lit "[red]Error running command: az account list --query '[].{name:name, id:id}' -o json[/red]");
            Line (lit "[red]Error message: ERROR: Please run 'az login' to setup account.[/red]") ])
  /\ (exists before,
        run_az_command_rich broken_shell utf8_decode refuses_closing_x
          subscriptions_command init
        = (Ok None,
           State [subscriptions_command]
             (before
              ++ [ Line (lit "[bold red]An error occurred: [Errno 2] No such file or directory: '/bin/sh'[/bold red]") ])))
  /\ run_az_command_rich tagged_shell utf8_decode refuses_closing_x
       subscriptions_command init
     = (Raise (Lib (LibExn (lit "MarkupError")
                      (lit "closing tag '[/x]' at position 42 doesn't match any open tag"))),
        State [subscriptions_command]
          [ Line (lit "[red]Error running command: az account list --query '[].{name:name, id:id}' -o json[/red]") ]).
Proof.
  split; [| split; [| split]].
  - exact (proj1 (@run_az_command_contract object_shell utf8_decode
                    refuses_closing_x subscriptions_command init)
             (json_bytes "{'a': 1}") [] (json_text "{'a': 1}")
             eq_refl eq_refl).
  - assert (Hrc : 1 <> 0) by discriminate.
    exact (proj1 (proj2 (@run_az_command_contract failing_shell utf8_decode
                           refuses_closing_x subscriptions_command init))
             1 [] (ascii_bytes "ERROR: Please run 'az login' to setup account.")
             (lit "ERROR: Please run 'az login' to setup account.")
             eq_refl Hrc eq_refl eq_refl eq_refl).
  - apply (proj1 (proj2 (proj2 (@run_az_command_contract broken_shell
                                  utf8_decode refuses_closing_x
                                  subscriptions_command init)))
             (LibExn (lit "FileNotFoundError")
                (lit "[Errno 2] No such file or directory: '/bin/sh'"))).
    + left. reflexivity.
    + reflexivity.
  - assert (Hrc : 1 <> 0) by discriminate.
    assert (Hhandled :
              handled tagged_shell utf8_decode refuses_closing_x
                subscriptions_command init
                (LibExn (lit "MarkupError")
                   (lit "closing tag '[/x]' at position 25 doesn't match any open tag"))
                [ Line (lit "[red]Error running command: " ++ subscriptions_command ++ lit "[/red]") ]).
    { apply (@handled_second_line tagged_shell utf8_decode refuses_closing_x
               subscriptions_command init 1 [] (ascii_bytes "boom [/x] here")
               (lit "boom [/x] here") _ eq_refl Hrc eq_refl eq_refl).
      reflexivity. }
    exact (proj2 (proj2 (proj2 (proj2 (@run_az_command_contract tagged_shell
                                         utf8_decode refuses_closing_x
                                         subscriptions_command init)))
                    _ _ Hhandled)
             (LibExn (lit "MarkupError")
                (lit "closing tag '[/x]' at position 42 doesn't match any open tag"))
             eq_refl).
Defined.

(** C9 as stated fails in both directions.  A command that exits with
    code 0 and prints white space only, which is no JSON text, makes the
    retriever return the empty list; so does an output that is not UTF-8.
    A command that failed makes the retriever raise, when its error text
    holds a tag that the display library refuses. *)
Lemma retrievers_raise_on_other_outputs :
  blank_shell 0 subscriptions_command = Exited 0 [x20; x0a; x09] []
  /\ utf8_decode [x20; x0a; x09] = inr [32; 10; 9]%N
  /\ json_decode [32; 10; 9]%N
     = inl (LibExn (lit "JSONDecodeError")
              (lit "Expecting value: line 2 column 2 (char 3)"))
  /\ get_subscriptions_rich blank_shell utf8_decode json_decode
       refuses_closing_x init
     = (Ok (VList []), State [subscriptions_command] [])
  /\ binary_shell 0 subscriptions_command = Exited 0 [xff] []
  /\ fst (get_subscriptions_rich binary_shell utf8_decode json_decode
            refuses_closing_x init)
     = Ok (VList [])
  /\ tagged_shell 0 subscriptions_command
     = Exited 1 [] (ascii_bytes "boom [/x] here")
  /\ fst (get_subscriptions_rich tagged_shell utf8_decode json_decode
            refuses_closing_x init)
     = Raise (Lib (LibExn (lit "MarkupError")
                     (lit "closing tag '[/x]' at position 42 doesn't match any open tag"))).
Proof.
  repeat split; vm_compute; reflexivity.
Qed.

(** The amended C9 on a command that prints text that is no JSON, and on
    a failed command whose error text the display library refuses. *)
Lemma malformed_json_is_unhandled_witness :
  fst (get_subscriptions_rich garbage_shell utf8_decode json_decode
         refuses_closing_x init)
  = Raise (Lib (LibExn (lit "JSONDecodeError")
                  (lit "Expecting value: line 1 column 1 (char 0)")))
  /\ fst (main_rich garbage_shell utf8_decode json_decode strptime_ascii
            sample_ask sample_repr sample_today refuses_closing_x
            not_renderable_error init)
     = Raise (Lib (LibExn (lit "JSONDecodeError")
                     (lit "Expecting value: line 1 column 1 (char 0)")))
  /\ (forall x,
        fst (get_subscriptions_rich tagged_shell utf8_decode json_decode
               refuses_closing_x init) = Raise x ->
        exists text, x = Lib (LibExn (lit "MarkupError") text)).
Proof.
  assert (Hprinted : printed garbage_shell utf8_decode subscriptions_command
                       init (lit "not json")).
  { exists (ascii_bytes "not json"), [], (lit "not json").
    repeat split; try reflexivity. discriminate. }
  pose proof (@malformed_json_is_unhandled garbage_shell utf8_decode
                json_decode strptime_ascii sample_ask sample_repr
                sample_today refuses_closing_x not_renderable_error
                init VNone [] [])
    as (Hsubs & _ & _ & Hmain).
  split; [| split].
  - apply Hsubs. left.
    exists (lit "not json"),
           (LibExn (lit "JSONDecodeError")
              (lit "Expecting value: line 1 column 1 (char 0)")).
    split; [exact Hprinted |]. split; reflexivity.
  - apply (Hmain (lit "2024-02-01T00:00:00+00:00")
             (lit "2024-02-29T23:59:59+00:00") (lit "not json")).
    + vm_compute. reflexivity.
    + exact Hprinted.
    + reflexivity.
  - intros x Hx.
    apply (proj1 (@malformed_json_is_unhandled tagged_shell utf8_decode
                    json_decode strptime_ascii sample_ask sample_repr
                    sample_today refuses_closing_x not_renderable_error
                    init VNone [] [])) in Hx.
    destruct Hx as [(text & e & (out & err & raw & Hshell & _) & _)
                   | (e & before & e' & _ & Hrefused & ->)].
    + inversion Hshell.
    + destruct e' as [class text]. exists text.
      unfold refuses_closing_x in Hrefused.
      destruct (index_of _ _); [| discriminate].
      injection Hrefused as <- _. reflexivity.
Defined.

Lemma sample_shell_answers_rich :
  answers_rich sample_shell utf8_decode json_decode sample_repr
    refuses_closing_x 1 sample_subscriptions sample_results
    (lit "2024-02-15T00:00:00+00:00") (lit "2024-02-20T23:59:59+00:00").
Proof.
  cbn [answers_rich sample_subscriptions sample_results].
  split; [| split; [| exact I]]; intros id st _ Hlen;
    unfold get_snapshots_rich, run_az_command_rich, bind, launch;
    rewrite Hlen; vm_compute; reflexivity.
Qed.

(** The rows of the summary table for the two snapshots of the sample
    session. *)
Lemma sample_summary_rows (rs : list (list value)) :
  Forall2 summary_cells (List.concat sample_results) rs ->
  rs = [ [ VStr (lit "snap1"); VStr (lit "2024-02-16T10:00:00+00:00");
           VStr (lit "Attached"); VStr (lit "/vm/1") ];
         [ VStr (lit "snap2"); VStr (lit "2024-02-17T11:30:00+00:00");
           VStr (lit "Unattached"); VStr (lit "N/A") ] ].
Proof.
  intros H. cbn [List.concat sample_results app] in H.
  inversion H as [| s1 r1 l1 l1' H1 Hrest1]. subst.
  inversion Hrest1 as [| s2 r2 l2 l2' H2 Hrest2]. subst.
  inversion Hrest2. subst.
  destruct H1 as (a1 & a2 & a3 & a4 & E1 & E2 & E3 & E4 & ->).
  destruct H2 as (b1 & b2 & b3 & b4 & F1 & F2 & F3 & F4 & ->).
  vm_compute in E1, E2, E3, E4, F1, F2, F3, F4.
  inversion E1. inversion E2. inversion E3. inversion E4.
  inversion F1. inversion F2. inversion F3. inversion F4.
  reflexivity.
Qed.


(** C7 on the two snapshots of the sample session, the first created by
    a virtual machine, the second with a null [createdBy]: the table of
    the subscription and the summary table. *)
Lemma created_by_or_na_witness :
  (exists row1 row2,
     console
       (snd (display_snapshots_rich sample_repr refuses_closing_x
               not_renderable_error (VList (List.concat sample_results))
               (VStr (lit "A")) init))
     = [ Tbl (Table (lit "Snapshots in A") ROUNDED detail_columns
                [row1; row2]) ]
     /\ nth_error row1 5 = Some (VStr (lit "/vm/1"))
     /\ nth_error row2 5 = Some (VStr (lit "N/A")))
  /\ (exists row1 row2,
        console
          (snd (print_summary refuses_closing_x not_renderable_error
                  (List.concat sample_results) init))
        = [ Line (nl ++ lit "[bold green]Snapshot Summary:[/bold green]");
            Tbl (Table (lit "Snapshot Summary") ROUNDED summary_columns
                   [row1; row2]);
            Line (nl
                  ++ lit "[bold green]Total snapshots found: 2[/bold green]");
            Line (nl
                  ++ lit "[bold green]Snapshot search complete![/bold green]") ]
        /\ nth_error row1 3 = Some (VStr (lit "/vm/1"))
        /\ nth_error row2 3 = Some (VStr (lit "N/A"))).
Proof.
  pose proof (@created_by_or_na sample_shell utf8_decode json_decode
                strptime_ascii sample_ask sample_repr sample_today
                refuses_closing_x not_renderable_error)
    as (Hdetail & Hsummary & _).
  assert (Hne : lit "/vm/1" <> []) by discriminate.
  split.
  - assert (Hsnaps : List.concat sample_results <> []) by discriminate.
    destruct (Hdetail (List.concat sample_results) (VStr (lit "A")) init
                (snd (display_snapshots_rich sample_repr refuses_closing_x
                        not_renderable_error
                        (VList (List.concat sample_results))
                        (VStr (lit "A")) init))
                Hsnaps)
      as (rs & Hconsole & _ & Hrows).
    { vm_compute. reflexivity. }
    cbn [List.concat sample_results app] in Hrows.
    inversion Hrows as [| s1 row1 l1 l1' H1 Hrest1]. subst.
    inversion Hrest1 as [| s2 row2 l2 l2' H2 Hrest2]. subst.
    inversion Hrest2. subst.
    exists row1, row2. split; [exact Hconsole |].
    destruct H1 as (c1 & E1 & _ & Hshown).
    destruct H2 as (c2 & E2 & Hna & _).
    vm_compute in E1, E2. inversion E1. inversion E2. subst c1 c2.
    split; [exact (Hshown _ eq_refl Hne) | exact (Hna (or_introl eq_refl))].
  - destruct (Hsummary (List.concat sample_results) init
                (snd (print_summary refuses_closing_x not_renderable_error
                        (List.concat sample_results) init)))
      as (rs & Hconsole & _ & Hrows).
    { vm_compute. reflexivity. }
    cbn [List.concat sample_results app] in Hrows.
    inversion Hrows as [| s1 row1 l1 l1' H1 Hrest1]. subst.
    inversion Hrest1 as [| s2 row2 l2 l2' H2 Hrest2]. subst.
    inversion Hrest2. subst.
    exists row1, row2. split; [exact Hconsole |].
    destruct H1 as (c1 & E1 & _ & Hshown).
    destruct H2 as (c2 & E2 & Hna & _).
    vm_compute in E1, E2. inversion E1. inversion E2. subst c1 c2.
    split; [exact (Hshown _ eq_refl Hne) | exact (Hna (or_introl eq_refl))].
Defined.


(** C7 as stated fails: for a record whose [createdBy] is null and whose
    name is a number, [add_row] raises in both tables, and neither is
    printed. *)
Lemma created_by_not_rendered :
  subscript numbered_snapshot (lit "createdBy") = Ok VNone
  /\ display_snapshots_rich sample_repr refuses_closing_x
       not_renderable_error (VList [numbered_snapshot]) (VStr (lit "A")) init
     = (Raise (Lib (LibExn (lit "NotRenderableError")
                      (lit "unable to render int; a string or other renderable object is required"))),
        init)
  /\ print_summary refuses_closing_x not_renderable_error
       [numbered_snapshot] init
     = (Raise (Lib (LibExn (lit "NotRenderableError")
                      (lit "unable to render int; a string or other renderable object is required"))),
        init).
Proof.
  repeat split; vm_compute; reflexivity.
Qed.

(** C8 on a session that is not logged in. *)
Lemma no_subscriptions_stops_witness :
  exists before,
    main_rich failing_shell utf8_decode json_decode strptime_ascii sample_ask
      sample_repr sample_today refuses_closing_x not_renderable_error init
    = (Ok tt,
       State [subscriptions_command]
         (before
          ++ [ Line (lit "[bold red]No subscriptions found. Please make sure you're logged in with 'az login'.[/bold red]") ]))
    /\ forallb is_line before = true.
Proof.
  apply (@no_subscriptions_stops failing_shell utf8_decode json_decode
           strptime_ascii sample_ask sample_repr sample_today
           refuses_closing_x not_renderable_error
           (lit "2024-02-01T00:00:00+00:00")
           (lit "2024-02-29T23:59:59+00:00") (VList [])).
  - vm_compute. reflexivity.
  - intros st Hst.
    unfold get_subscriptions_rich, run_az_command_rich, bind, launch.
    rewrite Hst. vm_compute. reflexivity.
  - reflexivity.
Defined.

(** ** Further properties on concrete runs *)

(** X1 on a command that fails and on one that cannot be launched. *)
Lemma run_az_command_never_raises_witness :
  (exists result lines,
     run_az_command failing_shell utf8_decode subscriptions_command init
     = (Ok result, State [subscriptions_command] lines)
     /\ (List.length lines <= 2)%nat)
  /\ (exists result lines,
        run_az_command broken_shell utf8_decode subscriptions_command init
        = (Ok result, State [subscriptions_command] lines)
        /\ (List.length lines <= 2)%nat).
Proof.
  split.
  - destruct (@run_az_command_never_raises failing_shell utf8_decode
                subscriptions_command init)
      as (result & lines & Hrun & _ & Hlen & _).
    exists result, lines. split; [exact Hrun | exact Hlen].
  - destruct (@run_az_command_never_raises broken_shell utf8_decode
                subscriptions_command init)
      as (result & lines & Hrun & _ & Hlen & _).
    exists result, lines. split; [exact Hrun | exact Hlen].
Defined.

(** X2 on an output with white space on both sides. *)
Lemma run_az_command_result_is_stripped_witness :
  fst (run_az_command padded_shell utf8_decode subscriptions_command init)
  = Ok (Some (lit "[]"))
  /\ strip (lit "[]") = lit "[]".
Proof.
  split; [vm_compute; reflexivity |].
  exact (proj1 (@run_az_command_result_is_stripped padded_shell utf8_decode
                  subscriptions_command init (lit "[]") eq_refl)).
Defined.

(** X5 on a record without [createdBy], and on a string. *)
Lemma detail_row_needs_six_fields_witness :
  detail_row sample_repr
    (VDict [ (lit "name", VStr (lit "snap1"));
             (lit "resourceGroup", VStr (lit "rg"));
             (lit "timeCreated", VStr (lit "2024-02-16T10:00:00+00:00"));
             (lit "diskSizeGb", VInt 128);
             (lit "diskState", VStr (lit "Unattached")) ])
  = Raise (KeyError (lit "createdBy"))
  /\ detail_row sample_repr (VStr (lit "snap1"))
     = Raise (TypeError (VStr (lit "snap1"))).
Proof.
  split.
  - apply (proj1 (proj2 (@detail_row_needs_six_fields sample_repr _)) _
             [ lit "name"; lit "resourceGroup"; lit "timeCreated";
               lit "diskSizeGb"; lit "diskState" ]
             (lit "createdBy") [] eq_refl eq_refl).
    + repeat constructor; discriminate.
    + reflexivity.
  - apply (proj2 (proj2 (@detail_row_needs_six_fields sample_repr
                           (VStr (lit "snap1"))))).
    intros d. discriminate.
Defined.

(** X6 in December 9999 and in February 2024. *)
Lemma default_range_fails_only_in_december_9999_witness :
  main sample_shell utf8_decode json_decode strptime_ascii sample_ask
    sample_repr (DateTime 9999 12 15 8 30 0 0 UTC) init
  = (Raise OverflowError, State [] [Line welcome])
  /\ exists range, get_default_date_range sample_today = Ok range.
Proof.
  split.
  - assert (Hy : 1 <= 9999 <= 9999) by lia.
    assert (Hm : 1 <= 12 <= 12) by lia.
    exact (proj2 (proj2 (@default_range_fails_only_in_december_9999
                           sample_shell utf8_decode json_decode
                           strptime_ascii sample_ask sample_repr
                           (DateTime 9999 12 15 8 30 0 0 UTC) Hy Hm))
             (conj eq_refl eq_refl)).
  - assert (Hy : 1 <= year sample_today <= 9999) by (cbn; lia).
    assert (Hm : 1 <= month sample_today <= 12) by (cbn; lia).
    apply (proj1 (proj2 (@default_range_fails_only_in_december_9999
                           sample_shell utf8_decode json_decode
                           strptime_ascii sample_ask sample_repr
                           sample_today Hy Hm))).
    cbn. lia.
Defined.

(** X7 in a leap February. *)
Lemma accepting_defaults_keeps_default_range_witness :
  strptime_ascii (lit "2024-02-01") = Some (Date 2024 2 1)
  /\ strptime_ascii (lit "2024-02-29") = Some (Date 2024 2 29)
  /\ validate_dates strptime_ascii (lit "2024-02-01") (lit "2024-02-29")
       (lit "2024-02-01T00:00:00+00:00") (lit "2024-02-29T23:59:59+00:00")
       init
     = (Ok (lit "2024-02-01T00:00:00+00:00",
            lit "2024-02-29T23:59:59+00:00"), init).
Proof.
  split; [reflexivity |]. split; [reflexivity |].
  assert (Hy : 1 <= year sample_today <= 9999) by (cbn; lia).
  assert (Hm : 1 <= month sample_today <= 12) by (cbn; lia).
  assert (Hlast : ~ (year sample_today = 9999 /\ month sample_today = 12))
    by (cbn; lia).
  destruct (@accepting_defaults_keeps_default_range strptime_ascii
              sample_today init Hy Hm Hlast eq_refl)
    as (default_start & default_end & Hrange & _ & _ & Hvalid).
  assert (Hvalue : get_default_date_range sample_today
                   = Ok (lit "2024-02-01T00:00:00+00:00",
                         lit "2024-02-29T23:59:59+00:00"))
    by (vm_compute; reflexivity).
  rewrite Hvalue in Hrange. injection Hrange as <- <-.
  exact (Hvalid eq_refl eq_refl).
Defined.

(** X8 on the sample session: the listing, then one query for each of
    the two subscriptions. *)
Lemma main_launches_listing_then_queries_witness :
  exists ids,
    launched
      (snd (main sample_shell utf8_decode json_decode strptime_ascii
              sample_ask sample_repr sample_today init))
    = subscriptions_command
      :: map (fun id =>
                snapshot_command (py_str sample_repr id)
                  (lit "2024-02-15T00:00:00+00:00")
                  (lit "2024-02-20T23:59:59+00:00"))
           ids
    /\ List.length ids = 2%nat.
Proof.
  destruct (proj2 (@main_launches_listing_then_queries sample_shell
                     utf8_decode json_decode strptime_ascii sample_ask
                     sample_repr sample_today)
              (lit "2024-02-01T00:00:00+00:00")
              (lit "2024-02-29T23:59:59+00:00"))
    as (s & e & ids & Hdates & Hlaunched & _ & Hids).
  - vm_compute. reflexivity.
  - vm_compute in Hdates. injection Hdates as <- <-.
    exists ids. split; [exact Hlaunched |].
    destruct (Hids (VList sample_subscriptions) sample_subscriptions)
      as [_ Hlen]; [vm_compute; reflexivity | reflexivity | reflexivity |].
    rewrite Hlen; [reflexivity | vm_compute; reflexivity].
Defined.


(** X10 on the loop of the sample session. *)
Lemma gathered_snapshots_have_summary_rows_witness :
  exists rs,
    mapM summary_row (List.concat sample_results) = Ok rs
    /\ List.length rs = 2%nat.
Proof.
  destruct (@gathered_snapshots_have_summary_rows sample_shell utf8_decode
              json_decode sample_repr sample_subscriptions
              (lit "2024-02-15T00:00:00+00:00")
              (lit "2024-02-20T23:59:59+00:00")
              (State [subscriptions_command] [])
              (List.concat sample_results))
    as (_ & rs & Hrs & Hrows).
  - vm_compute. reflexivity.
  - exists rs. split; [exact Hrs |].
    symmetry. exact (Forall2_length Hrows).
Defined.

(** X12 on a command that prints text that is no JSON: what ends the run
    is the exception of [json.loads]. *)
Lemma main_raises_few_exceptions_witness :
  exists text e,
    json_decode text = inl e
    /\ fst (main garbage_shell utf8_decode json_decode strptime_ascii
              sample_ask sample_repr sample_today init)
       = Raise (Lib e).
Proof.
  assert (Hrun : fst (main garbage_shell utf8_decode json_decode
                        strptime_ascii sample_ask sample_repr sample_today
                        init)
                 = Raise (Lib (LibExn (lit "JSONDecodeError")
                                 (lit "Expecting value: line 1 column 1 (char 0)"))))
    by (vm_compute; reflexivity).
  destruct (@main_raises_few_exceptions garbage_shell utf8_decode json_decode
              strptime_ascii sample_ask sample_repr sample_today _ Hrun)
    as [(Hoverflow & _) | (_ & Hescape)]; [inversion Hoverflow |].
  destruct Hescape
    as [(text & e & Hjson & Hx) | [(key & Hx & _) | (culprit & Hx)]];
    [| inversion Hx | inversion Hx].
  exists text, e. split; [exact Hjson |]. rewrite Hx in Hrun. exact Hrun.
Defined.

(** X3 on a session that is not logged in, and on an error text that the
    display library refuses. *)
Lemma retrievers_launch_one_command_witness :
  (exists r lines,
     get_subscriptions_rich failing_shell utf8_decode json_decode
       refuses_closing_x init
     = (r, State [subscriptions_command] lines)
     /\ (List.length lines <= 2)%nat)
  /\ (exists r lines,
        get_snapshots_rich tagged_shell utf8_decode json_decode sample_repr
          refuses_closing_x (VStr (lit "sub-a"))
          (lit "2024-02-15T00:00:00+00:00")
          (lit "2024-02-20T23:59:59+00:00") init
        = (r,
           State
             [ snapshot_command (lit "sub-a")
                 (lit "2024-02-15T00:00:00+00:00")
                 (lit "2024-02-20T23:59:59+00:00") ]
             lines)
        /\ (List.length lines <= 2)%nat).
Proof.
  split.
  - destruct (@retrievers_launch_one_command failing_shell utf8_decode
                json_decode sample_repr refuses_closing_x init
                (VStr (lit "sub-a")) (lit "2024-02-15T00:00:00+00:00")
                (lit "2024-02-20T23:59:59+00:00"))
      as [(r & lines & H & _ & Hlen & _) _].
    exists r, lines. split; [exact H | exact Hlen].
  - destruct (@retrievers_launch_one_command tagged_shell utf8_decode
                json_decode sample_repr refuses_closing_x init
                (VStr (lit "sub-a")) (lit "2024-02-15T00:00:00+00:00")
                (lit "2024-02-20T23:59:59+00:00"))
      as [_ (r & lines & H & _ & Hlen & _)].
    exists r, lines. split; [exact H | exact Hlen].
Defined.

(** X4 on [None], which is falsy, under a subscription name that the
    display library prints and under one that it refuses. *)
Lemma display_snapshots_prints_once_witness :
  display_snapshots_rich sample_repr refuses_closing_x not_renderable_error
    VNone (VStr (lit "A")) init
  = (Ok tt,
     State []
       [ Line (lit "[yellow]No snapshots found in subscription: A[/yellow]") ])
  /\ display_snapshots_rich sample_repr refuses_closing_x
       not_renderable_error VNone (VStr (lit "[/x]")) init
     = (Raise (Lib (LibExn (lit "MarkupError")
                      (lit "closing tag '[/x]' at position 44 doesn't match any open tag"))),
        init).
Proof.
  split.
  - exact (proj1 (proj1 (@display_snapshots_prints_once sample_repr
                           refuses_closing_x not_renderable_error VNone
                           (VStr (lit "A")) init) eq_refl) eq_refl).
  - exact (proj2 (proj1 (@display_snapshots_prints_once sample_repr
                           refuses_closing_x not_renderable_error VNone
                           (VStr (lit "[/x]")) init) eq_refl) _ eq_refl).
Defined.

(** X11 on the sample session, which ends with the summary of the two
    snapshots it gathered. *)
Lemma completed_run_ends_with_summary_witness :
  exists before,
    console
      (snd (main_rich sample_shell utf8_decode json_decode strptime_ascii
              sample_ask sample_repr sample_today refuses_closing_x
              not_renderable_error init))
    = before
      ++ [ Line (nl ++ lit "[bold green]Snapshot Summary:[/bold green]");
           Tbl (Table (lit "Snapshot Summary") ROUNDED summary_columns
                  [ [ VStr (lit "snap1");
                      VStr (lit "2024-02-16T10:00:00+00:00");
                      VStr (lit "Attached"); VStr (lit "/vm/1") ];
                    [ VStr (lit "snap2");
                      VStr (lit "2024-02-17T11:30:00+00:00");
                      VStr (lit "Unattached"); VStr (lit "N/A") ] ]);
           Line (nl
                 ++ lit "[bold green]Total snapshots found: 2[/bold green]");
           Line (nl
                 ++ lit "[bold green]Snapshot search complete![/bold green]") ].
Proof.
  destruct (@completed_run_ends_with_summary sample_shell utf8_decode
              json_decode strptime_ascii sample_ask sample_repr sample_today
              refuses_closing_x not_renderable_error
              (lit "2024-02-01T00:00:00+00:00")
              (lit "2024-02-29T23:59:59+00:00")
              (snd (main_rich sample_shell utf8_decode json_decode
                      strptime_ascii sample_ask sample_repr sample_today
                      refuses_closing_x not_renderable_error init)))
    as (s & e & lines & subscriptions & st1 & Hdates & Hsubs
        & [(_ & Hlaunched & _)
          | (items & all & st2 & rs & Hitems & Hloop & Hrows & Hconsole)]).
  - vm_compute. reflexivity.
  - vm_compute. reflexivity.
  - vm_compute in Hlaunched. inversion Hlaunched.
  - vm_compute in Hdates. inversion Hdates. subst s e.
    assert (Hv : subscriptions = VList sample_subscriptions
                 /\ List.length (launched st1) = 1%nat).
    { unfold get_subscriptions_rich, run_az_command_rich, bind, launch in Hsubs.
      vm_compute in Hsubs. inversion Hsubs. split; reflexivity. }
    destruct Hv as [-> Hlen].
    cbn [iterate] in Hitems. inversion Hitems. subst items.
    assert (Hall : all = List.concat sample_results).
    { pose proof sample_shell_answers_rich as Hans.
      rewrite <- Hlen in Hans.
      exact (proj1 (@search_subscriptions_rich_ok sample_shell utf8_decode
                      json_decode sample_repr refuses_closing_x
                      not_renderable_error _ _ _ _ _ _ _ _ Hloop Hans)). }
    subst all. rewrite (sample_summary_rows Hrows) in Hconsole.
    exists (console st2). exact Hconsole.
Defined.
